(** * Advanced Expense Tracker (firstproject.py): a shallow embedding

    The script is a Streamlit page over an SQLite file [expenses.db].  Its
    own code is small: a record generator, a schema initialiser, an append
    and a query helper, a dictionary of query templates and a five-way
    menu.  Everything else is library behaviour ([random], Faker, pandas,
    sqlite3, Streamlit), which is modelled here as far as the script
    relies on it:

    - Python floats are idealised as rationals ([Q]); [round(x, 2)] rounds
      the hundredths half-to-even.
    - The state of [random] and Faker is an abstract generator state with
      the contract of [random.random] (a value in [0, 1)) and of
      [_randbelow] (a value below its argument).
    - The database file holds tables and views.  A table has its declared
      columns and its rows, and whatever else SQLite keeps with it:
      indexes, triggers, and the fact that its declaration says more than
      column names and types (a constraint, a default).  The text area of
      the page hands any statement to SQLite, so all of these can come to
      exist.  An INSERT is modelled on a table with nothing attached;
      where something is attached it is the engine's matter.  Values are
      compared as SQLite compares them under its default collation.
    - SQLite resolves the names of tables, views, indexes and columns
      without regard to ASCII letter case; pandas looks a table or view up
      in [sqlite_master] by exact spelling, and quotes the names it writes
      into a statement, refusing an empty name or one with a NUL
      character.
    - SQL reaches SQLite as text.  A small tokenizer and parser recognise
      the statements the script issues on its own tables; any other text
      is handed to an abstract engine [sqlite_other], about which nothing
      is assumed: it may raise, answer, and leave any database behind.  A
      statement of the data definition language is committed at once; a
      statement without a result set makes [pd.read_sql_query] raise
      after SQLite has run it.
    - A run of the script is a computation on the generator state, the
      database and the page rendered so far, which may end in an
      exception. *)

From Stdlib Require Import String Ascii List Bool Arith ZArith QArith Qround Lia Lqa.
From Stdlib Require Import Sorting.Sorted Sorting.Permutation.
Import ListNotations.
Close Scope Q_scope.
Open Scope string_scope.
Open Scope list_scope.

(** ** Strings *)

Definition is_upper_char (c : ascii) : bool :=
  let n := nat_of_ascii c in Nat.leb 65 n && Nat.leb n 90.

Definition is_lower_char (c : ascii) : bool :=
  let n := nat_of_ascii c in Nat.leb 97 n && Nat.leb n 122.

Definition is_digit_char (c : ascii) : bool :=
  let n := nat_of_ascii c in Nat.leb 48 n && Nat.leb n 57.

Definition lower_char (c : ascii) : ascii :=
  if is_upper_char c then ascii_of_nat (nat_of_ascii c + 32) else c.

Definition upper_char (c : ascii) : ascii :=
  if is_lower_char c then ascii_of_nat (nat_of_ascii c - 32) else c.

Fixpoint map_string (f : ascii -> ascii) (s : string) : string :=
  match s with
  | EmptyString => EmptyString
  | String c s' => String (f c) (map_string f s')
  end.

Definition lower (s : string) : string := map_string lower_char s.
Definition upper (s : string) : string := map_string upper_char s.

(** SQLite compares identifiers without regard to ASCII letter case. *)
Definition ieqb (a b : string) : bool := String.eqb (lower a) (lower b).

Fixpoint forallb_string (p : ascii -> bool) (s : string) : bool :=
  match s with
  | EmptyString => true
  | String c s' => p c && forallb_string p s'
  end.

(** [str.replace(old, new)]: every non-overlapping occurrence, left to
    right.  [skip] counts the characters of an occurrence still to drop. *)
Fixpoint replace_from (old new s : string) (skip : nat) : string :=
  match s with
  | EmptyString => EmptyString
  | String c s' =>
      match skip with
      | S k => replace_from old new s' k
      | O =>
          if String.prefix old s
          then new ++ replace_from old new s' (String.length old - 1)
          else String c (replace_from old new s' 0)
      end
  end.

Definition replace (old new s : string) : string := replace_from old new s 0.

(** Decimal rendering, for [LIMIT] literals and ISO dates. *)
Definition digit_of_char (c : ascii) : nat := nat_of_ascii c - 48.

Fixpoint nat_of_digits (acc : nat) (s : string) : nat :=
  match s with
  | EmptyString => acc
  | String c s' => nat_of_digits (10 * acc + digit_of_char c) s'
  end.

Definition char_of_digit (n : nat) : ascii := ascii_of_nat (48 + n mod 10).

Definition two_digits (n : nat) : string :=
  String (char_of_digit (n / 10)) (String (char_of_digit n) EmptyString).

Definition four_digits (n : nat) : string :=
  two_digits (n / 100) ++ two_digits n.

(** ** Values, records and data frames *)

(** [datetime.date], as Faker's [date_this_year] returns it. *)
Record date := mkdate { d_year : nat; d_month : nat; d_day : nat }.

(** [date.isoformat()], which is also how sqlite3 adapts a date. *)
Definition isoformat (d : date) : string :=
  four_digits (d_year d) ++ "-" ++ two_digits (d_month d) ++ "-" ++ two_digits (d_day d).

Inductive value :=
| VNull
| VText (s : string)
| VReal (q : Q)
| VDate (d : date).

(** A Python dict with string keys, in insertion order. *)
Definition record := list (string * value).

Fixpoint dict_get (k : string) (r : record) : option value :=
  match r with
  | [] => None
  | (k', v) :: r' => if String.eqb k k' then Some v else dict_get k r'
  end.

Record frame := mkframe { columns : list string; rows : list (list value) }.

(** Keys in order of first appearance. *)
Fixpoint union_keys (seen ks : list string) : list string :=
  match ks with
  | [] => seen
  | k :: ks' =>
      if existsb (String.eqb k) seen then union_keys seen ks'
      else union_keys (seen ++ [k]) ks'
  end.

(** [pd.DataFrame(list_of_dicts)]: the columns are the keys met, a missing
    key gives a missing value; the empty list gives a frame without
    columns. *)
Definition DataFrame (data : list record) : frame :=
  let cols := fold_left (fun seen r => union_keys seen (map fst r)) data [] in
  mkframe cols
    (map (fun r => map (fun c => match dict_get c r with Some v => v | None => VNull end) cols) data).

Fixpoint index_of (p : string -> bool) (l : list string) : option nat :=
  match l with
  | [] => None
  | x :: l' => if p x then Some 0%nat else option_map S (index_of p l')
  end.

(** The cell of [row] under the column called [col] (exact spelling, as
    pandas addresses columns). *)
Definition cell (cols : list string) (col : string) (row : list value) : option value :=
  match index_of (String.eqb col) cols with
  | Some i => nth_error row i
  | None => None
  end.

(** [df.head()]: the first five rows. *)
Definition head (f : frame) : frame := mkframe (columns f) (firstn 5 (rows f)).

(** ** Exceptions *)

Inductive exn_class :=
| IndexError | KeyError | TypeError | ValueError
| OperationalError    (* sqlite3.OperationalError *)
| DatabaseError       (* pandas.errors.DatabaseError *)
| OtherException.     (* any other subclass of Exception *)

Record exn := mkexn { exn_kind : exn_class; exn_str : string }.

Inductive result (A : Type) :=
| Ok (a : A)
| Raise (e : exn).
Arguments Ok {A} a.
Arguments Raise {A} e.

(** ** Rounding *)

(** Round to the nearest integer, ties to even. *)
Definition round_half_even (x : Q) : Z :=
  let f := Qfloor x in
  match Qcompare (x - inject_Z f) (1 # 2)%Q with
  | Lt => f
  | Gt => (f + 1)%Z
  | Eq => if Z.even f then f else (f + 1)%Z
  end.

(** [round(x, 2)]. *)
Definition round2 (x : Q) : Q := Qmake (round_half_even (x * 100)%Q) 100.

(** [random.uniform(a, b)] is [a + (b - a) * self.random()]. *)
Definition uniform_of (a b u : Q) : Q := (a + (b - a) * u)%Q.

(** ** The database file *)

(** What SQLite keeps with a table besides its columns and rows, as far
    as it bears on what the script does. *)
Inductive attachment :=
| Index (name : string)      (* CREATE [UNIQUE] INDEX name ON the table *)
| Trigger (name : string)    (* CREATE TRIGGER name ... ON the table *)
| Constraint.                (* its declaration says more than column names
                                and types: NOT NULL, UNIQUE, CHECK, a key,
                                a default, a generated column *)

(** A table: its declared columns (name, declared type), its rows, each
    row holding one value per declared column, and what is attached. *)
Record table := mktable_with {
  tbl_cols : list (string * string);
  tbl_rows : list (list value);
  tbl_attached : list attachment
}.

(** A table with nothing attached, as [CREATE TABLE name (column type,
    ...)] makes it. *)
Abbreviation mktable cols rows := (mktable_with cols rows []).

Definition plain (t : table) : bool :=
  match tbl_attached t with
  | [] => true
  | _ => false
  end.

(** The tables of [expenses.db], in creation order. *)
Definition store := list (string * table).

(** The views of [expenses.db]: the name each is stored under, and whether
    a trigger is defined on it (an INSTEAD OF trigger is what lets a view
    take an INSERT). *)
Definition views := list (string * bool).

(** Name resolution as SQLite does it. *)
Fixpoint find_table (name : string) (db : store) : option table :=
  match db with
  | [] => None
  | (n, t) :: db' => if ieqb name n then Some t else find_table name db'
  end.

(** A table is stored under exactly this spelling. *)
Definition table_stored (name : string) (db : store) : bool :=
  existsb (fun e => String.eqb name (fst e)) db.

Fixpoint find_view (name : string) (vs : views) : option (string * bool) :=
  match vs with
  | [] => None
  | v :: vs' => if ieqb name (fst v) then Some v else find_view name vs'
  end.

Definition has_view (name : string) (vs : views) : bool :=
  existsb (fun v => String.eqb name (fst v)) vs.

(** pandas' [has_table]: [SELECT name FROM sqlite_master WHERE type IN
    ('table', 'view') AND name=?], an exact comparison. *)
Definition has_table (name : string) (db : store) (vs : views) : bool :=
  table_stored name db || has_view name vs.

Definition is_index_named (name : string) (a : attachment) : bool :=
  match a with
  | Index n => ieqb name n
  | _ => false
  end.

(** Some index, on whatever table, goes by this name. *)
Definition index_named (name : string) (db : store) : bool :=
  existsb (fun e => existsb (is_index_named name) (tbl_attached (snd e))) db.

Definition drop_table (name : string) (db : store) : store :=
  filter (fun e => negb (ieqb name (fst e))) db.

Definition add_rows (new : list (list value)) (t : table) : table :=
  mktable_with (tbl_cols t) (tbl_rows t ++ new) (tbl_attached t).

Definition append_rows (name : string) (new : list (list value)) (db : store) : store :=
  map (fun e => if ieqb name (fst e) then (fst e, add_rows new (snd e)) else e) db.

(** No two tables share a name up to letter case: what SQLite maintains. *)
Definition wf_store (db : store) : Prop := NoDup (map (fun e => lower (fst e)) db).

Definition row_count (name : string) (db : store) : nat :=
  match find_table name db with
  | Some t => length (tbl_rows t)
  | None => 0
  end.

(** ** SQL text *)

Definition is_space_char (c : ascii) : bool :=
  let n := nat_of_ascii c in
  Nat.eqb n 32 || Nat.eqb n 9 || Nat.eqb n 10 || Nat.eqb n 13 || Nat.eqb n 12.

(** The characters of an identifier in SQLite: letters, digits, the
    underscore, the dollar sign and every byte from 128 on. *)
Definition is_word_char (c : ascii) : bool :=
  let n := nat_of_ascii c in
  is_upper_char c || is_lower_char c || is_digit_char c
  || Nat.eqb n 95 || Nat.eqb n 36 || Nat.leb 128 n.

(** The punctuation the modelled statements use: ( ) , * *)
Definition is_sym_char (c : ascii) : bool :=
  let n := nat_of_ascii c in
  Nat.eqb n 40 || Nat.eqb n 41 || Nat.eqb n 44 || Nat.eqb n 42.

Inductive token :=
| TWord (s : string)
| TSym (c : ascii)
| TNul    (* the NUL character, which Python's sqlite3 refuses in a query *)
| TBad.   (* any other character outside the modelled lexicon *)

Definition flush (acc : string) : list token :=
  match acc with
  | EmptyString => []
  | _ => [TWord acc]
  end.

(** The UTF-8 byte-order mark, bytes EF BB BF.  Where a token would
    start SQLite skips it like white space; inside an identifier its
    bytes are identifier characters like any byte from 128 on. *)
Definition bom : string :=
  String (ascii_of_nat 239) (String (ascii_of_nat 187) (String (ascii_of_nat 191) EmptyString)).

Definition at_bom (acc s : string) : bool := String.eqb acc "" && String.prefix bom s.

(** [acc] is the word read so far, [skip] the number of characters still
    to pass over. *)
Fixpoint tokenize_from (acc s : string) (skip : nat) : list token :=
  match s with
  | EmptyString => flush acc
  | String c s' =>
      match skip with
      | S k => tokenize_from acc s' k
      | O =>
          if is_space_char c then flush acc ++ tokenize_from "" s' 0
          else if at_bom acc s then tokenize_from "" s' 2
          else if is_word_char c then tokenize_from (acc ++ String c "") s' 0
          else if is_sym_char c then flush acc ++ TSym c :: tokenize_from "" s' 0
          else if Nat.eqb (nat_of_ascii c) 0 then flush acc ++ TNul :: tokenize_from "" s' 0
          else flush acc ++ TBad :: tokenize_from "" s' 0
      end
  end.

Definition tokenize (s : string) : list token := tokenize_from "" s 0.

Inductive keyword :=
| KSelect | KFrom | KOrder | KBy | KDesc | KLimit
| KDrop | KTable | KCreate | KIf | KNot | KExists
| KOther.

Definition parsed_keywords : list (string * keyword) :=
  [("SELECT", KSelect); ("FROM", KFrom); ("ORDER", KOrder); ("BY", KBy);
   ("DESC", KDesc); ("LIMIT", KLimit); ("DROP", KDrop); ("TABLE", KTable);
   ("CREATE", KCreate); ("IF", KIf); ("NOT", KNot); ("EXISTS", KExists)].

(** The remaining keywords of SQLite, and its two literal names. *)
Definition other_keywords : list string :=
  ["ABORT"; "ACTION"; "ADD"; "AFTER"; "ALL"; "ALTER"; "ALWAYS"; "ANALYZE";
   "AND"; "AS"; "ASC"; "ATTACH"; "AUTOINCREMENT"; "BEFORE"; "BEGIN";
   "BETWEEN"; "CASCADE"; "CASE"; "CAST"; "CHECK"; "COLLATE"; "COLUMN";
   "COMMIT"; "CONFLICT"; "CONSTRAINT"; "CROSS"; "CURRENT"; "CURRENT_DATE";
   "CURRENT_TIME"; "CURRENT_TIMESTAMP"; "DATABASE"; "DEFAULT"; "DEFERRABLE";
   "DEFERRED"; "DELETE"; "DETACH"; "DISTINCT"; "DO"; "EACH"; "ELSE"; "END";
   "ESCAPE"; "EXCEPT"; "EXCLUDE"; "EXCLUSIVE"; "EXPLAIN"; "FAIL"; "FILTER";
   "FIRST"; "FOLLOWING"; "FOR"; "FOREIGN"; "FULL"; "GENERATED"; "GLOB";
   "GROUP"; "GROUPS"; "HAVING"; "IGNORE"; "IMMEDIATE"; "IN"; "INDEX";
   "INDEXED"; "INITIALLY"; "INNER"; "INSERT"; "INSTEAD"; "INTERSECT";
   "INTO"; "IS"; "ISNULL"; "JOIN"; "KEY"; "LAST"; "LEFT"; "LIKE"; "MATCH";
   "MATERIALIZED"; "NATURAL"; "NO"; "NOTHING"; "NOTNULL"; "NULL"; "NULLS";
   "OF"; "OFFSET"; "ON"; "OR"; "OTHERS"; "OUTER"; "OVER"; "PARTITION";
   "PLAN"; "PRAGMA"; "PRECEDING"; "PRIMARY"; "QUERY"; "RAISE"; "RANGE";
   "RECURSIVE"; "REFERENCES"; "REGEXP"; "REINDEX"; "RELEASE"; "RENAME";
   "REPLACE"; "RESTRICT"; "RETURNING"; "RIGHT"; "ROLLBACK"; "ROW"; "ROWS";
   "SAVEPOINT"; "SET"; "TEMP"; "TEMPORARY"; "THEN"; "TIES"; "TO";
   "TRANSACTION"; "TRIGGER"; "UNBOUNDED"; "UNION"; "UNIQUE"; "UPDATE";
   "USING"; "VACUUM"; "VALUES"; "VIEW"; "VIRTUAL"; "WHEN"; "WHERE";
   "WINDOW"; "WITH"; "WITHOUT"; "TRUE"; "FALSE"].

Fixpoint assoc_string {A : Type} (k : string) (l : list (string * A)) : option A :=
  match l with
  | [] => None
  | (k', a) :: l' => if String.eqb k k' then Some a else assoc_string k l'
  end.

Inductive lexeme :=
| LKey (k : keyword)
| LName (s : string)    (* an identifier that is no keyword *)
| LNum (n : nat)
| LSym (c : ascii)
| LUnknown.

Definition classify_word (w : string) : lexeme :=
  match w with
  | EmptyString => LUnknown
  | String c _ =>
      if is_digit_char c then
        if forallb_string is_digit_char w && Nat.leb (String.length w) 9
        then LNum (nat_of_digits 0 w) else LUnknown
      else if Nat.eqb (nat_of_ascii c) 36 then LUnknown   (* a parameter, as in $name *)
      else
        match assoc_string (upper w) parsed_keywords with
        | Some k => LKey k
        | None =>
            if existsb (String.eqb (upper w)) other_keywords then LKey KOther
            else LName w
        end
  end.

Definition classify (t : token) : lexeme :=
  match t with
  | TWord w => classify_word w
  | TSym c => LSym c
  | TNul => LUnknown
  | TBad => LUnknown
  end.

(** The statements whose meaning is modelled. *)
Inductive stmt :=
| CreateTableIfNotExists (name : string) (cols : list (string * string))
| SelectAll (name : string)
| SelectAllOrderDescLimit (name col : string) (k : nat)
| DropTable (name : string).

Inductive parsed :=
| PStmt (s : stmt)
| PSyntaxError (near : string)
| PUnmodelled.

(** Only the script's own tables are modelled: no keyword, built-in table
    or table-valued function of SQLite has a name starting [expenses_]. *)
Definition own_table (name : string) : bool := String.prefix "expenses_" (lower name).

Fixpoint parse_columns (ls : list lexeme) : option (list (string * string)) :=
  match ls with
  | LName c :: LName ty :: LSym s :: rest =>
      if Nat.eqb (nat_of_ascii s) 41 then
        match rest with [] => Some [(c, ty)] | _ => None end
      else if Nat.eqb (nat_of_ascii s) 44 then
        option_map (cons (c, ty)) (parse_columns rest)
      else None
  | _ => None
  end.

Fixpoint distinct_names (l : list string) : bool :=
  match l with
  | [] => true
  | x :: l' => negb (existsb (ieqb x) l') && distinct_names l'
  end.

(** The first name that repeats an earlier one. *)
Fixpoint first_duplicate (seen l : list string) : string :=
  match l with
  | [] => EmptyString
  | x :: l' =>
      if existsb (ieqb x) seen then x else first_duplicate (seen ++ [x]) l'
  end.

Definition is_star (c : ascii) : bool := Nat.eqb (nat_of_ascii c) 42.
Definition is_lparen (c : ascii) : bool := Nat.eqb (nat_of_ascii c) 40.

(** [x'53514c'] is a blob literal, not the identifier [x]: an [x] with a
    character outside the lexicon after it is left undecided. *)
Definition may_be_blob (w : string) (rest : list lexeme) : bool :=
  ieqb w "x" && match rest with LUnknown :: _ => true | _ => false end.

Definition parse (ls : list lexeme) : parsed :=
  match ls with
  | [LKey KSelect; LSym s; LKey KFrom; LName t] =>
      if is_star s && own_table t then PStmt (SelectAll t) else PUnmodelled
  | [LKey KSelect; LSym s; LKey KFrom; LName t;
     LKey KOrder; LKey KBy; LName c; LKey KDesc; LKey KLimit; LNum k] =>
      if is_star s && own_table t then PStmt (SelectAllOrderDescLimit t c k)
      else PUnmodelled
  | [LKey KDrop; LKey KTable; LName t] =>
      if own_table t then PStmt (DropTable t) else PUnmodelled
  | LKey KCreate :: LKey KTable :: LKey KIf :: LKey KNot :: LKey KExists
      :: LName t :: LSym s :: rest =>
      match parse_columns rest with
      | Some cols =>
          if is_lparen s && own_table t && distinct_names (map fst cols)
          then PStmt (CreateTableIfNotExists t cols) else PUnmodelled
      | None => PUnmodelled
      end
  | LName w :: rest =>               (* no statement starts with an identifier *)
      if may_be_blob w rest then PUnmodelled else PSyntaxError w
  | LKey KSelect :: LSym s :: LName w :: rest =>   (* [*] takes no alias *)
      if is_star s && negb (may_be_blob w rest) then PSyntaxError w else PUnmodelled
  | LKey KDrop :: LName w :: rest =>     (* DROP wants the kind of object *)
      if may_be_blob w rest then PUnmodelled else PSyntaxError w
  | LKey KCreate :: LName w :: rest =>   (* and so does CREATE *)
      if may_be_blob w rest then PUnmodelled else PSyntaxError w
  | _ => PUnmodelled
  end.

Definition is_nul_token (t : token) : bool :=
  match t with
  | TNul => true
  | _ => false
  end.

Definition parse_sql (sql : string) : parsed :=
  let ts := tokenize sql in
  if existsb is_nul_token ts then PUnmodelled else parse (map classify ts).

(** ** Executing a modelled statement *)

Definition text_of (v : value) : string :=
  match v with
  | VText s => s
  | VDate d => isoformat d
  | _ => EmptyString
  end.

(** SQLite's order across storage classes: NULL, then numbers, then text
    (compared bytewise). *)
Definition value_leb (a b : value) : bool :=
  match a, b with
  | VNull, _ => true
  | VReal _, VNull => false
  | VReal x, VReal y => Qle_bool x y
  | VReal _, _ => true
  | _, VNull => false
  | _, VReal _ => false
  | _, _ => String.leb (text_of a) (text_of b)
  end.

Definition sort_key (i : nat) (row : list value) : value := nth i row VNull.

(** Insertion into a list sorted in descending order of column [i]; among
    equal keys the earlier row stays first (SQLite promises no order among
    ties). *)
Fixpoint insert_desc (i : nat) (x : list value) (l : list (list value)) : list (list value) :=
  match l with
  | [] => [x]
  | y :: l' =>
      if value_leb (sort_key i y) (sort_key i x) then x :: y :: l'
      else y :: insert_desc i x l'
  end.

Definition sort_desc (i : nat) (l : list (list value)) : list (list value) :=
  fold_right (insert_desc i) [] l.

Definition dquote : string := String (ascii_of_nat 34) EmptyString.

Definition no_such_table (name : string) : exn :=
  mkexn OperationalError ("no such table: " ++ name).

Definition syntax_error (near : string) : exn :=
  mkexn OperationalError ("near " ++ dquote ++ near ++ dquote ++ ": syntax error").

(** A cursor after [execute]: its result set, if the statement has one
    ([cursor.description] is [None] otherwise). *)
Definition cursor := option frame.

Definition index_in_the_way (name : string) : exn :=
  mkexn OperationalError ("there is already an index named " ++ name).

(** The effect of a modelled statement on the tables (none of them
    touches a view); [None] where the model does not decide it: a query
    on a view, ordering by a name that is not a declared column.  A name
    is looked up among the tables first, then among the views; [CREATE
    TABLE], with or without [IF NOT EXISTS], is refused when an index
    has the name. *)
Definition exec_stmt (s : stmt) (db : store) (vs : views) : option (result cursor * store) :=
  match s with
  | CreateTableIfNotExists name cols =>
      match find_table name db, find_view name vs with
      | Some _, _ | None, Some _ => Some (Ok None, db)
      | None, None =>
          if index_named name db then Some (Raise (index_in_the_way name), db)
          else Some (Ok None, db ++ [(name, mktable cols [])])
      end
  | SelectAll name =>
      match find_table name db, find_view name vs with
      | Some t, _ => Some (Ok (Some (mkframe (map fst (tbl_cols t)) (tbl_rows t))), db)
      | None, Some _ => None
      | None, None => Some (Raise (no_such_table name), db)
      end
  | SelectAllOrderDescLimit name col k =>
      match find_table name db, find_view name vs with
      | Some t, _ =>
          match index_of (ieqb col) (map fst (tbl_cols t)) with
          | Some i =>
              Some (Ok (Some (mkframe (map fst (tbl_cols t))
                                (firstn k (sort_desc i (tbl_rows t))))), db)
          | None => None
          end
      | None, Some _ => None
      | None, None => Some (Raise (no_such_table name), db)
      end
  | DropTable name =>
      match find_table name db, find_view name vs with
      | Some _, _ => Some (Ok None, drop_table name db)   (* DDL is committed at once *)
      | None, Some v =>
          Some (Raise (mkexn OperationalError ("use DROP VIEW to delete view " ++ fst v)), db)
      | None, None => Some (Raise (no_such_table name), db)
      end
  end.

Definition sqlite_model (sql : string) (db : store) (vs : views)
    : option (result cursor * store) :=
  match parse_sql sql with
  | PStmt s => exec_stmt s db vs
  | PSyntaxError w => Some (Raise (syntax_error w), db)
  | PUnmodelled => None
  end.

(** What reaches the engine when the model does not decide: the text of
    a statement, or the INSERT pandas issues, with the rows it passes as
    parameters. *)
Inductive request :=
| Statement (sql : string)
| InsertRows (name : string) (cols : list string) (rows : list (list value)).

(** ** Column affinity *)

Fixpoint contains (sub s : string) : bool :=
  String.prefix sub s ||
  match s with
  | EmptyString => false
  | String _ s' => contains sub s'
  end.

Inductive affinity := AffInteger | AffText | AffBlob | AffReal | AffNumeric.

(** SQLite derives the affinity of a column from its declared type. *)
Definition affinity_of (decl : string) : affinity :=
  let u := upper decl in
  if contains "INT" u then AffInteger
  else if contains "CHAR" u || contains "CLOB" u || contains "TEXT" u then AffText
  else if contains "BLOB" u || String.eqb u "" then AffBlob
  else if contains "REAL" u || contains "FLOA" u || contains "DOUB" u then AffReal
  else AffNumeric.

(** pandas' [_get_valid_sqlite_name] accepts a table or column name that
    is not empty and holds no NUL character. *)
Definition has_nul (s : string) : bool :=
  negb (forallb_string (fun c => negb (Nat.eqb (nat_of_ascii c) 0)) s).

Definition valid_sqlite_name (s : string) : bool :=
  negb (String.eqb s "") && negb (has_nul s).

(** sqlite3 adapts a [datetime.date] parameter to its ISO text. *)
Definition adapt (v : value) : value :=
  match v with
  | VDate d => VText (isoformat d)
  | _ => v
  end.

Definition is_real (v : value) : bool := match v with VReal _ => true | _ => false end.
Definition is_date (v : value) : bool := match v with VDate _ => true | _ => false end.

(** The SQL type pandas declares for column number [i] of a frame. *)
Definition pandas_sql_type (f : frame) (i : nat) : string :=
  match map (fun r => nth i r VNull) (rows f) with
  | [] => "TEXT"
  | cells =>
      if forallb is_real cells then "REAL"
      else if forallb is_date cells then "DATE"
      else "TEXT"
  end.

Definition create_columns (f : frame) : list (string * string) :=
  map (fun ic => (snd ic, pandas_sql_type f (fst ic)))
      (combine (seq 0 (length (columns f))) (columns f)).

(** ** The script's constants *)

Definition categories : list string :=
  ["Food"; "Transportation"; "Bills"; "Groceries"; "Entertainment";
   "Healthcare"; "Shopping"; "Travel"; "Dining"; "Subscriptions"].

Definition payment_modes : list string :=
  ["Cash"; "Wallet"; "Credit Card"; "Debit Card"; "UPI"; "Netbanking"].

Definition months : list string :=
  ["January"; "February"; "March"; "April"; "May"; "June";
   "July"; "August"; "September"; "October"; "November"; "December"].

(** The columns [init_db] declares. *)
Definition declared_columns : list (string * string) :=
  [("Date", "TEXT"); ("Category", "TEXT"); ("Payment_Mode", "TEXT");
   ("Description", "TEXT"); ("Amount_Paid", "REAL"); ("Cashback", "REAL");
   ("Month", "TEXT")].

Definition table_name (month : string) : string := "expenses_" ++ month.

(** The statement text [init_db] builds for one month. *)
Definition create_table_sql (month : string) : string :=
  "
            CREATE TABLE IF NOT EXISTS " ++ table_name month ++ " (
                Date TEXT,
                Category TEXT,
                Payment_Mode TEXT,
                Description TEXT,
                Amount_Paid REAL,
                Cashback REAL,
                Month TEXT
            )
        ".

Definition SQL_QUERIES : list (string * string) :=
  [("Total Amount Spent per Category",
    "SELECT Category, SUM(Amount_Paid) AS Total_Spent FROM {table_name} GROUP BY Category");
   ("Monthly Spending Breakdown",
    "SELECT Month, SUM(Amount_Paid) AS Total_Spent FROM {table_name} GROUP BY Month");
   ("Top 5 Highest Expenses",
    "SELECT * FROM {table_name} ORDER BY Amount_Paid DESC LIMIT 5");
   ("Cashback Summary",
    "SELECT Payment_Mode, SUM(Cashback) AS Total_Cashback FROM {table_name} GROUP BY Payment_Mode");
   ("Payment Mode Distribution",
    "SELECT Payment_Mode, COUNT(*) AS Transaction_Count, SUM(Amount_Paid) AS Total_Spent FROM {table_name} GROUP BY Payment_Mode");
   ("Spending Trends Over Time",
    "SELECT Date, SUM(Amount_Paid) AS Daily_Spent FROM {table_name} GROUP BY Date ORDER BY Date");
   ("Category Spending Per Payment Mode",
    "SELECT Category, Payment_Mode, SUM(Amount_Paid) AS Total_Spent FROM {table_name} GROUP BY Category, Payment_Mode");
   ("Average Expense by Payment Mode",
    "SELECT Payment_Mode, AVG(Amount_Paid) AS Avg_Spending FROM {table_name} GROUP BY Payment_Mode");
   ("Top 5 Categories with Highest Cashback",
    "SELECT Category, SUM(Cashback) AS Total_Cashback FROM {table_name} GROUP BY Category ORDER BY Total_Cashback DESC LIMIT 5");
   ("Transactions Above 500",
    "SELECT * FROM {table_name} WHERE Amount_Paid > 500 ORDER BY Amount_Paid DESC")].

(** ** The page *)

(** What a run of the script renders. *)
Inductive element :=
| Title (s : string)
| Subheader (s : string)
| Success (s : string)
| ErrorBox (s : string)                      (* st.error *)
| DataframeView (f : frame)                  (* st.dataframe *)
| BarChart (index : string) (f : frame)      (* st.bar_chart(df.set_index(index)) *)
| LineChart (index : string) (f : frame)     (* st.line_chart(df.set_index(index)) *)
| PieChart (sizes labels : list value).      (* ax.pie(...); st.pyplot(fig) *)

Inductive menu :=
| GenerateData | ViewData | VisualizeInsights | RunSQLQuery | PredefinedSQLQueries.

(** The widget values of one run. *)
Record inputs := mkinputs {
  in_option : menu;          (* the sidebar selectbox *)
  in_month : string;         (* st.text_input *)
  in_n : Z;                  (* st.number_input *)
  in_button : bool;          (* the branch's st.button *)
  in_query : string;         (* st.text_area *)
  in_query_name : string     (* the query selectbox *)
}.

(** ** Computations with state and exceptions

    A raised exception keeps the state reached so far. *)
Definition M (W A : Type) : Type := W -> result A * W.

Definition ret {W A} (a : A) : M W A := fun w => (Ok a, w).

Definition bind {W A B} (c : M W A) (k : A -> M W B) : M W B :=
  fun w =>
    match c w with
    | (Ok a, w') => k a w'
    | (Raise e, w') => (Raise e, w')
    end.

Definition raise {W A} (e : exn) : M W A := fun w => (Raise e, w).

(** [try: c  except Exception as e: h e]. *)
Definition try_except {W A} (c : M W A) (h : exn -> M W A) : M W A :=
  fun w =>
    match c w with
    | (Ok a, w') => (Ok a, w')
    | (Raise e, w') => h e w'
    end.

Declare Scope py_scope.
Delimit Scope py_scope with py.
Notation "x <- c ;; k" := (bind c (fun x => k))
  (at level 61, c at next level, right associativity) : py_scope.
Notation "c ;; k" := (bind c (fun _ => k))
  (at level 61, right associativity) : py_scope.

(** ** Notions the statements below use *)

(** The keys of the dict [generate_data] appends, in order. *)
Definition record_keys : list string :=
  ["Date"; "Category"; "Payment_Mode"; "Description"; "Amount_Paid"; "Cashback"; "Month"].

(** What [CREATE TABLE IF NOT EXISTS name (declared columns)] does. *)
Definition ensure_table (name : string) (db : store) : store :=
  match find_table name db with
  | Some _ => db
  | None => db ++ [(name, mktable declared_columns [])]
  end.

Definition ensure_months (ms : list string) (db : store) : store :=
  fold_left (fun d m => ensure_table (table_name m) d) ms db.

(** How many tables SQLite could mean by [name]. *)
Definition count_tables (name : string) (db : store) : nat :=
  length (filter (fun e => ieqb name (fst e)) db).


(** Every table of [db] is still there in [db'], with its columns, with
    what is attached to it, and with its rows first, in their order:
    nothing was overwritten or deleted. *)
Definition extends (db db' : store) : Prop :=
  forall n t, find_table n db = Some t ->
    exists new, find_table n db' = Some (add_rows new t).

(** Neither a view nor an index goes by [name]. *)
Definition name_free (name : string) (db : store) (vs : views) : bool :=
  match find_view name vs with
  | Some _ => false
  | None => negb (index_named name db)
  end.

(** [init_db] is not hindered: each month's table exists already, or its
    name is taken by neither a view nor an index.  (SQLite lets no view
    and no index share its name with a table, so that on a database where
    the 12 tables exist this holds.) *)
Definition month_names_clear (db : store) (vs : views) : Prop :=
  forall m, In m months ->
    find_table (table_name m) db = None -> name_free (table_name m) db vs = true.

(** The name resolves to nothing an INSERT is left to the engine for: to
    a table with nothing attached, or to no table and no view. *)
Definition plainly_writable (name : string) (db : store) (vs : views) : bool :=
  match find_table name db with
  | Some t => plain t
  | None => match find_view name vs with Some _ => false | None => true end
  end.

(** Each of the 12 months has its table, stored under the spelling
    [init_db] uses and with the columns [init_db] declares. *)
Definition month_tables_declared (db : store) : Prop :=
  forall m, In m months ->
    table_stored (table_name m) db = true
    /\ exists t, find_table (table_name m) db = Some t /\ tbl_cols t = declared_columns.

(** An engine that answers whatever it is handed with the frame [f], for
    running the branches on statements outside the modelled ones. *)
Definition answering_engine (f : frame) (q : request) (db : store) (vs : views)
    : result cursor * (store * views) :=
  (Ok (Some f), (db, vs)).

(** ** A concrete instance of the libraries

    Used to run the script on examples: a counter as generator state, an
    engine that rejects whatever is not modelled, no conversion, no chart
    failure. *)
Module Demo.

Definition rng : Type := nat.

Definition random_random (g : rng) : Q * rng :=
  (Qmake (Z.of_nat (Nat.modulo (37 * g) 100)) 100, S g).

Definition randbelow (n : nat) (g : rng) : nat * rng := (Nat.modulo g n, S g).

Definition date_this_year (g : rng) : date * rng :=
  (mkdate 2024 (1 + Nat.modulo g 12) (1 + Nat.modulo g 28), S g).

Definition fake_text (max_nb_chars : nat) (g : rng) : string * rng :=
  ("Paid.", S g).

Definition sqlite_other (q : request) (db : store) (vs : views)
    : result cursor * (store * views) :=
  (Raise (mkexn OperationalError "statement outside the model"), (db, vs)).

Definition sqlite_convert (a : affinity) (v : value) : value := v.

Definition chart_error (e : element) : option exn := None.

End Demo.

Section Script.

Local Open Scope py_scope.
Set Default Proof Using "Type".

(** *** The libraries the script calls *)

(** The state of the [random] module and of the [Faker] instance. *)
Variable rng : Type.
(** [random.random()] *)
Variable random_random : rng -> Q * rng.
(** [random._randbelow(n)] *)
Variable randbelow : nat -> rng -> nat * rng.
(** [fake.date_this_year()] *)
Variable date_this_year : rng -> date * rng.
(** [fake.text(max_nb_chars=...)] *)
Variable fake_text : nat -> rng -> string * rng.
(** SQLite on what the model does not decide: its answer and the
    database it leaves behind. *)
Variable sqlite_other : request -> store -> views -> result cursor * (store * views).
(** SQLite's conversion of a value stored under an affinity that does not
    keep it as it is. *)
Variable sqlite_convert : affinity -> value -> value.
(** Whether drawing a chart fails, and how. *)
Variable chart_error : element -> option exn.

Hypothesis random_random_range :
  forall g, (0 <= fst (random_random g))%Q /\ (fst (random_random g) < 1)%Q.
Hypothesis randbelow_range :
  forall n g, (0 < n)%nat -> (fst (randbelow n g) < n)%nat.

(** *** The state a run acts on *)

Record world := mkstate {
  w_rng : rng;
  w_db : store;           (* the tables of expenses.db *)
  w_views : views;        (* its views *)
  w_ui : list element     (* rendered so far *)
}.

(** A state whose database holds no view. *)
Definition mkworld (g : rng) (db : store) (ui : list element) : world :=
  mkstate g db [] ui.

Definition with_rng (g : rng) (w : world) : world :=
  mkstate g (w_db w) (w_views w) (w_ui w).
Definition with_db (db : store) (w : world) : world :=
  mkstate (w_rng w) db (w_views w) (w_ui w).
Definition with_database (d : store * views) (w : world) : world :=
  mkstate (w_rng w) (fst d) (snd d) (w_ui w).

(** The state once the elements [es] are added to the page. *)
Definition show (es : list element) (w : world) : world :=
  mkstate (w_rng w) (w_db w) (w_views w) (w_ui w ++ es).

Definition render (e : element) : M world unit :=
  fun w => (Ok tt, show [e] w).

(** A chart call: it raises, or the chart is shown. *)
Definition render_chart (e : element) : M world unit :=
  match chart_error e with
  | Some x => raise x
  | None => render e
  end.

Definition draw {A : Type} (f : rng -> A * rng) : M world A :=
  fun w => let (a, g) := f (w_rng w) in (Ok a, with_rng g w).

(** [random.choice(seq)] *)
Definition random_choice (seq : list string) : M world string :=
  match seq with
  | [] => raise (mkexn IndexError "Cannot choose from an empty sequence")
  | _ =>
      i <- draw (randbelow (length seq)) ;;
      match nth_error seq i with
      | Some x => ret x
      | None => raise (mkexn IndexError "list index out of range")
      end
  end.

(** [random.uniform(a, b)] *)
Definition random_uniform (a b : Q) : M world Q :=
  u <- draw random_random ;; ret (uniform_of a b u).

(** *** generate_data *)

(** The dict appended by one turn of the loop. *)
Definition generate_record (month : string) : M world record :=
  d <- draw date_this_year ;;
  c <- random_choice categories ;;
  p <- random_choice payment_modes ;;
  t <- draw (fake_text 30) ;;
  a <- random_uniform 50 1000 ;;
  b <- random_uniform 0 50 ;;
  ret [("Date", VDate d); ("Category", VText c); ("Payment_Mode", VText p);
       ("Description", VText t); ("Amount_Paid", VReal (round2 a));
       ("Cashback", VReal (round2 b)); ("Month", VText month)].

(** [for _ in range(n): data.append({...})] *)
Fixpoint generate_loop (month : string) (k : nat) (data : list record) : M world (list record) :=
  match k with
  | O => ret data
  | S k' => r <- generate_record month ;; generate_loop month k' (data ++ [r])
  end.

Definition generate_data (month : string) (n : Z) : M world frame :=
  data <- generate_loop month (Z.to_nat n) [] ;;
  ret (DataFrame data).

(** *** sqlite3 and pandas *)

Definition sqlite_execute (sql : string) (db : store) (vs : views)
    : result cursor * (store * views) :=
  match sqlite_model sql db vs with
  | Some r => (fst r, (snd r, vs))
  | None => sqlite_other (Statement sql) db vs
  end.

(** [cursor.execute(sql)] on a connection to [expenses.db]. *)
Definition cursor_execute (sql : string) : M world cursor :=
  fun w => let (r, d) := sqlite_execute sql (w_db w) (w_views w) in (r, with_database d w).

(** [pd.read_sql_query(sql, conn)]: an error of SQLite is re-raised as a
    [DatabaseError]; a statement without a result set has no
    [cursor.description] to read the columns from. *)
Definition read_sql_query (sql : string) : M world frame :=
  fun w =>
    match cursor_execute sql w with
    | (Raise e, w') =>
        (Raise (mkexn DatabaseError
                  ("Execution failed on sql '" ++ sql ++ "': " ++ exn_str e)), w')
    | (Ok None, w') =>
        (Raise (mkexn TypeError "'NoneType' object is not iterable"), w')
    | (Ok (Some f), w') => (Ok f, w')
    end.

(** The value a column keeps of an adapted parameter. *)
Definition store_value (decl : string) (v : value) : value :=
  match v, affinity_of decl with
  | VNull, _ => VNull
  | VText s, (AffText | AffBlob) => VText s
  | VReal q, (AffReal | AffBlob) => VReal q
  | _, a => sqlite_convert a v
  end.

(** The table row of one frame row under [INSERT INTO t (fcols) VALUES
    (...)]: a column the frame does not name stays NULL. *)
Definition stored_row (cols : list (string * string)) (fcols : list string)
    (row : list value) : list value :=
  map (fun c =>
         match index_of (ieqb (fst c)) fcols with
         | Some i => store_value (snd c) (adapt (nth i row VNull))
         | None => VNull
         end) cols.

(** The INSERT where the model does not decide it. *)
Definition insert_by_engine (name : string) (f : frame) (db : store) (vs : views)
    : result unit * (store * views) :=
  match sqlite_other (InsertRows name (columns f) (rows f)) db vs with
  | (Ok _, d) => (Ok tt, d)
  | (Raise e, d) => (Raise e, d)
  end.

(** [SQLiteTable.insert]: nothing is executed for a frame without rows.
    SQLite refuses the statement for a view without a trigger and for a
    column the table does not have; on a table with nothing attached the
    rows are appended, and no constraint, index or trigger is there to
    refuse them or to act on another table. *)
Definition insert_frame (name : string) (f : frame) (db : store) (vs : views)
    : result unit * (store * views) :=
  match rows f with
  | [] => (Ok tt, (db, vs))
  | _ =>
      match find_table name db, find_view name vs with
      | None, None => (Raise (no_such_table name), (db, vs))
      | None, Some (stored, false) =>
          (Raise (mkexn OperationalError
                    ("cannot modify " ++ stored ++ " because it is a view")), (db, vs))
      | None, Some (_, true) => insert_by_engine name f db vs
      | Some t, _ =>
          match find (fun c => negb (existsb (ieqb c) (map fst (tbl_cols t)))) (columns f) with
          | Some c =>
              (Raise (mkexn OperationalError
                        ("table " ++ name ++ " has no column named " ++ c)), (db, vs))
          | None =>
              if plain t
              then (Ok tt, (append_rows name
                              (map (stored_row (tbl_cols t) (columns f)) (rows f)) db, vs))
              else insert_by_engine name f db vs
          end
      end
  end.

(** [CREATE TABLE "name" (...)] as pandas issues it for a frame: refused
    when a table, a view or an index has the name. *)
Definition create_for_frame (name : string) (f : frame) (db : store) (vs : views)
    : result unit * store :=
  match find_table name db, find_view name vs with
  | Some _, _ =>
      (Raise (mkexn OperationalError
                ("table " ++ dquote ++ name ++ dquote ++ " already exists")), db)
  | None, Some _ =>
      (Raise (mkexn OperationalError
                ("view " ++ dquote ++ name ++ dquote ++ " already exists")), db)
  | None, None =>
      if index_named name db then (Raise (index_in_the_way name), db)
      else
        match columns f with
        | [] => (Raise (syntax_error ")"), db)
        | _ =>
            if distinct_names (columns f)
            then (Ok tt, db ++ [(name, mktable (create_columns f) [])])
            else (Raise (mkexn OperationalError
                           ("duplicate column name: " ++ first_duplicate [] (columns f))), db)
        end
  end.

(** [frame.to_sql(name, conn, if_exists='append', index=False)]: pandas
    first quotes the table name and the column names, then looks the
    table up, creates it if it does not find it, and inserts. *)
Definition to_sql_append (name : string) (f : frame) (db : store) (vs : views)
    : result unit * (store * views) :=
  match find (fun n => negb (valid_sqlite_name n)) (name :: columns f) with
  | Some n =>
      (Raise (mkexn ValueError
                (if String.eqb n "" then "Empty table or column name specified"
                 else "SQLite identifier cannot contain NULs")), (db, vs))
  | None =>
      if has_table name db vs then insert_frame name f db vs
      else
        match create_for_frame name f db vs with
        | (Ok _, db') => insert_frame name f db' vs
        | (Raise e, db') => (Raise e, (db', vs))
        end
  end.

(** *** The script's functions *)

Definition init_db : M world unit :=
  fold_right (fun month rest => cursor_execute (create_table_sql month) ;; rest)
             (ret tt) months.

Definition load_data_to_db (data : frame) (month : string) : M world unit :=
  fun w =>
    let (r, d) := to_sql_append (table_name month) data (w_db w) (w_views w) in
    (r, with_database d w).

Definition query_data (query : string) : M world frame := read_sql_query query.

(** *** The five branches *)

(** [df.set_index(col)] before a chart call. *)
Definition set_index (col : string) (f : frame) : M world frame :=
  if existsb (String.eqb col) (columns f) then ret f
  else raise (mkexn KeyError ("None of ['" ++ col ++ "'] are in the columns")).

(** [df[col]] *)
Definition getitem (col : string) (f : frame) : M world (list value) :=
  match index_of (String.eqb col) (columns f) with
  | Some i => ret (map (fun r => nth i r VNull) (rows f))
  | None => raise (mkexn KeyError ("'" ++ col ++ "'"))
  end.

Definition generate_branch (i : inputs) : M world unit :=
  render (Subheader "Generate Expense Data") ;;
  if in_button i then
    data <- generate_data (in_month i) (in_n i) ;;
    load_data_to_db data (in_month i) ;;
    render (Success ("Data for " ++ in_month i ++ " generated and loaded into the database!")) ;;
    render (DataframeView (head data))
  else ret tt.

Definition view_branch (i : inputs) : M world unit :=
  render (Subheader "View Expense Data") ;;
  if in_button i then
    try_except
      (data <- query_data ("SELECT * FROM expenses_" ++ in_month i) ;;
       render (DataframeView data))
      (fun e => render (ErrorBox ("Error: " ++ exn_str e ++ ". Make sure the table for "
                                  ++ in_month i ++ " exists.")))
  else ret tt.

Definition visualize_branch (i : inputs) : M world unit :=
  render (Subheader "Spending Insights") ;;
  try_except
    (data <- query_data ("SELECT Category, SUM(Amount_Paid) AS Total_Spent FROM expenses_"
                         ++ in_month i ++ " GROUP BY Category") ;;
     indexed <- set_index "Category" data ;;
     render_chart (BarChart "Category" indexed) ;;
     sizes <- getitem "Total_Spent" data ;;
     labels <- getitem "Category" data ;;
     render_chart (PieChart sizes labels))
    (fun e => render (ErrorBox ("Error: " ++ exn_str e ++ ". Ensure data exists for "
                                ++ in_month i ++ "."))).

Definition run_sql_branch (i : inputs) : M world unit :=
  render (Subheader "Run Custom SQL Query") ;;
  if in_button i then
    try_except
      (data <- query_data (in_query i) ;;
       render (DataframeView data))
      (fun e => render (ErrorBox ("An error occurred: " ++ exn_str e)))
  else ret tt.

Definition predefined_branch (i : inputs) : M world unit :=
  render (Subheader "Predefined SQL Queries") ;;
  match assoc_string (in_query_name i) SQL_QUERIES with
  | None => raise (mkexn KeyError ("'" ++ in_query_name i ++ "'"))
  | Some template =>
      let query := replace "{table_name}" (table_name (in_month i)) template in
      if in_button i then
        try_except
          (data <- query_data query ;;
           render (DataframeView data) ;;
           if String.eqb (in_query_name i) "Spending Trends Over Time" then
             indexed <- set_index "Date" data ;;
             render_chart (LineChart "Date" indexed)
           else if String.eqb (in_query_name i) "Total Amount Spent per Category"
                   || String.eqb (in_query_name i) "Payment Mode Distribution" then
             match columns data with
             | c :: _ => render_chart (BarChart c data)
             | [] => raise (mkexn IndexError "index 0 is out of bounds for axis 0 with size 0")
             end
           else ret tt)
          (fun e => render (ErrorBox ("Error: " ++ exn_str e ++ ". Ensure data exists for "
                                      ++ in_month i ++ ".")))
      else ret tt
  end.

Definition dispatch (i : inputs) : M world unit :=
  match in_option i with
  | GenerateData => generate_branch i
  | ViewData => view_branch i
  | VisualizeInsights => visualize_branch i
  | RunSQLQuery => run_sql_branch i
  | PredefinedSQLQueries => predefined_branch i
  end.

(** One run of the script: an exception that leaves a branch ends the
    run, so [init_db] on the last line is not reached. *)
Definition script (i : inputs) : M world unit :=
  render (Title "Advanced Expense Tracker") ;;
  dispatch i ;;
  init_db.

(** *** Notions the statements below use *)

(** A dict as one turn of the loop in [generate_data] builds it: the two
    amounts are rounded uniform samples. *)
Definition generated_record (month : string) (r : record) : Prop :=
  exists d c p t g1 g2,
    r = [("Date", VDate d); ("Category", VText c); ("Payment_Mode", VText p);
         ("Description", VText t);
         ("Amount_Paid", VReal (round2 (uniform_of 50 1000 (fst (random_random g1)))));
         ("Cashback", VReal (round2 (uniform_of 0 50 (fst (random_random g2)))));
         ("Month", VText month)]
    /\ In c categories /\ In p payment_modes.

(** ** Properties *)

(** *** Rounding and sampling *)

Lemma round_half_even_between (x : Q) (a b : Z) :
  (inject_Z a <= x)%Q -> (x <= inject_Z b)%Q ->
  (a <= round_half_even x <= b)%Z.
Proof.
  intros Ha Hb.
  assert (Hfa : (a <= Qfloor x)%Z).
  { rewrite <- (Qfloor_Z a). now apply Qfloor_resp_le. }
  assert (Hfb : (Qfloor x <= b)%Z).
  { rewrite <- (Qfloor_Z b). now apply Qfloor_resp_le. }
  assert (Hup : ((1 # 2) <= x - inject_Z (Qfloor x))%Q -> (Qfloor x < b)%Z).
  { intros Hhalf.
    destruct (Z.eq_dec (Qfloor x) b) as [E | E]; [| lia].
    exfalso. rewrite E in Hhalf. lra. }
  unfold round_half_even.
  destruct (Qcompare (x - inject_Z (Qfloor x)) (1 # 2)) eqn:Hc.
  - apply Qeq_alt in Hc.
    assert ((Qfloor x < b)%Z) by (apply Hup; lra).
    destruct (Z.even (Qfloor x)); lia.
  - lia.
  - apply Qgt_alt in Hc.
    assert ((Qfloor x < b)%Z) by (apply Hup; lra).
    lia.
Qed.

Lemma round2_between (x : Q) (a b : Z) :
  (inject_Z a <= x)%Q -> (x <= inject_Z b)%Q ->
  (inject_Z a <= round2 x)%Q /\ (round2 x <= inject_Z b)%Q.
Proof.
  intros Ha Hb.
  destruct (round_half_even_between (x * 100) (a * 100) (b * 100)) as [H1 H2].
  - rewrite inject_Z_mult. apply Qmult_le_compat_r; [exact Ha | discriminate].
  - rewrite inject_Z_mult. apply Qmult_le_compat_r; [exact Hb | discriminate].
  - unfold round2, Qle, inject_Z. simpl. lia.
Qed.

Lemma uniform_of_between (a b u : Q) :
  (a <= b)%Q -> (0 <= u)%Q -> (u < 1)%Q ->
  (a <= uniform_of a b u)%Q /\ (uniform_of a b u <= b)%Q.
Proof.
  intros Hab H0 H1. unfold uniform_of.
  assert (Hd : (0 <= (b - a) * u)%Q) by (apply Qmult_le_0_compat; lra).
  assert (Hu : ((b - a) * u <= (b - a) * 1)%Q).
  { rewrite (Qmult_comm _ u), (Qmult_comm _ 1).
    apply Qmult_le_compat_r; lra. }
  split; lra.
Qed.

(** *** generate_data *)

Lemma random_choice_ok (seq : list string) (w : world) :
  seq <> [] ->
  exists x g, random_choice seq w = (Ok x, with_rng g w) /\ In x seq.
Proof using Type randbelow_range.
  intros Hne. destruct seq as [| s0 seq']; [congruence |].
  unfold random_choice, bind, draw.
  pose proof (randbelow_range (length (s0 :: seq')) (w_rng w)) as Hr.
  destruct (randbelow (length (s0 :: seq')) (w_rng w)) as [i g] eqn:Hi.
  simpl fst in Hr.
  destruct (nth_error (s0 :: seq') i) as [x |] eqn:Hx.
  - exists x, g. split; [reflexivity | eapply nth_error_In; eassumption].
  - apply nth_error_None in Hx. simpl in Hr, Hx. lia.
Qed.

Lemma bind_ok {A B : Type} (c : M world A) (k : A -> M world B) (w w' : world) (a : A) :
  c w = (Ok a, w') -> bind c k w = k a w'.
Proof. intros H. unfold bind. rewrite H. reflexivity. Qed.

Lemma bind_raise {A B : Type} (c : M world A) (k : A -> M world B) (w w' : world) (e : exn) :
  c w = (Raise e, w') -> bind c k w = (Raise e, w').
Proof. intros H. unfold bind. rewrite H. reflexivity. Qed.

Lemma draw_spec {A : Type} (f : rng -> A * rng) (w : world) :
  draw f w = (Ok (fst (f (w_rng w))), with_rng (snd (f (w_rng w))) w).
Proof. unfold draw. destruct (f (w_rng w)). reflexivity. Qed.

Lemma generate_record_spec (month : string) (w : world) :
  exists r g,
    generate_record month w = (Ok r, with_rng g w) /\ generated_record month r.
Proof using Type randbelow_range.
  unfold generate_record.
  rewrite (bind_ok _ _ _ _ _ (draw_spec date_this_year w)).
  set (d := fst (date_this_year (w_rng w))).
  set (w0 := with_rng _ w).
  destruct (random_choice_ok categories w0) as (c & g1 & Hc & Hinc); [discriminate |].
  rewrite (bind_ok _ _ _ _ _ Hc).
  destruct (random_choice_ok payment_modes (with_rng g1 w0))
    as (p & g2 & Hp & Hinp); [discriminate |].
  rewrite (bind_ok _ _ _ _ _ Hp).
  rewrite (bind_ok _ _ _ _ _ (draw_spec (fake_text 30) _)).
  set (t := fst (fake_text 30 _)).
  set (w3 := with_rng _ (with_rng g2 _)).
  unfold random_uniform.
  rewrite (bind_ok _ _ _ _ _ (bind_ok _ _ _ _ _ (draw_spec random_random w3))).
  unfold ret at 1.
  set (w4 := with_rng _ w3).
  rewrite (bind_ok _ _ _ _ _ (bind_ok _ _ _ _ _ (draw_spec random_random w4))).
  unfold ret.
  eexists. exists (snd (random_random (w_rng w4))). split; [reflexivity |].
  exists d, c, p, t, (w_rng w3), (w_rng w4). auto.
Qed.

Lemma generate_loop_spec (month : string) (k : nat) :
  forall (data : list record) (w : world),
  exists rs g,
    generate_loop month k data w = (Ok (data ++ rs), with_rng g w)
    /\ length rs = k /\ Forall (generated_record month) rs.
Proof using Type randbelow_range.
  induction k as [| k IH]; intros data w.
  - exists [], (w_rng w). simpl. unfold ret, with_rng.
    rewrite app_nil_r. destruct w; auto.
  - destruct (generate_record_spec month w) as (r & g & Hr & Hgood).
    destruct (IH (data ++ [r]) (with_rng g w)) as (rs & g' & Hrs & Hlen & Hall).
    exists (r :: rs), g'. simpl. unfold bind. rewrite Hr, Hrs.
    rewrite <- app_assoc. simpl. repeat split; auto.
Qed.

Lemma generated_record_keys (month : string) (r : record) :
  generated_record month r -> map fst r = record_keys.
Proof. intros (d & c & p & t & g1 & g2 & -> & _). reflexivity. Qed.

Lemma union_keys_record_keys :
  union_keys record_keys record_keys = record_keys.
Proof. reflexivity. Qed.

Lemma fold_union_keys (month : string) (rs : list record) :
  Forall (generated_record month) rs ->
  fold_left (fun seen r => union_keys seen (map fst r)) rs record_keys = record_keys.
Proof.
  induction 1 as [| r rs Hr _ IH]; simpl; [reflexivity |].
  rewrite (generated_record_keys month r Hr), union_keys_record_keys. exact IH.
Qed.

Lemma DataFrame_generated (month : string) (rs : list record) :
  Forall (generated_record month) rs -> rs <> [] ->
  DataFrame rs = mkframe record_keys (map (map snd) rs).
Proof.
  intros Hall Hne. destruct rs as [| r rs]; [congruence |].
  unfold DataFrame. simpl fold_left.
  inversion Hall as [| ? ? Hr Hrs]; subst.
  rewrite (generated_record_keys month r Hr).
  change (union_keys [] record_keys) with record_keys.
  rewrite (fold_union_keys month rs Hrs).
  f_equal. apply map_ext_in. intros r' Hin.
  assert (Hr' : generated_record month r').
  { rewrite Forall_forall in Hall. apply Hall. exact Hin. }
  destruct Hr' as (d & c & p & t & g1 & g2 & -> & _). reflexivity.
Qed.

Lemma DataFrame_generated_rows (month : string) (rs : list record) :
  Forall (generated_record month) rs ->
  rows (DataFrame rs) = map (map snd) rs
  /\ (rs <> [] -> columns (DataFrame rs) = record_keys).
Proof.
  intros Hall. destruct rs as [| r rs].
  - split; [reflexivity | congruence].
  - rewrite (DataFrame_generated month (r :: rs) Hall); [| discriminate].
    split; reflexivity.
Qed.

(** What [generate_data] returns and what it leaves alone. *)
Lemma generate_data_spec (month : string) (n : Z) (w : world) :
  exists rs g,
    generate_data month n w = (Ok (DataFrame rs), with_rng g w)
    /\ length rs = Z.to_nat n /\ Forall (generated_record month) rs.
Proof using Type randbelow_range.
  destruct (generate_loop_spec month (Z.to_nat n) [] w) as (rs & g & H & Hlen & Hall).
  exists rs, g. unfold generate_data, bind. rewrite H. simpl. auto.
Qed.

Lemma generated_rows_forall (month : string) (rs : list record) (P : list value -> Prop) :
  Forall (generated_record month) rs ->
  (forall r, generated_record month r -> P (map snd r)) ->
  Forall P (rows (DataFrame rs)).
Proof.
  intros Hall HP.
  destruct (DataFrame_generated_rows month rs Hall) as [-> _].
  apply Forall_map. eapply Forall_impl; [| exact Hall]. exact HP.
Qed.


(** C1. For any month label and any count, every row of the frame
    [generate_data] returns has its Amount_Paid in [50.00, 1000.00] and
    its Cashback in [0.00, 50.00]. *)
Theorem generate_data_amounts (month : string) (n : Z) (w : world) :
  exists f w',
    generate_data month n w = (Ok f, w')
    /\ Forall (fun row =>
                 exists a b,
                   cell (columns f) "Amount_Paid" row = Some (VReal a)
                   /\ (50 <= a)%Q /\ (a <= 1000)%Q
                   /\ cell (columns f) "Cashback" row = Some (VReal b)
                   /\ (0 <= b)%Q /\ (b <= 50)%Q)
              (rows f).
Proof using Type random_random_range randbelow_range.
  destruct (generate_data_spec month n w) as (rs & g & Hrun & Hlen & Hall).
  exists (DataFrame rs), (with_rng g w).
  destruct (DataFrame_generated_rows month rs Hall) as [Hrows Hcols].
  split; [exact Hrun |].
  destruct rs as [| r0 rs0]; [constructor |].
  rewrite Hcols by discriminate.
  apply (generated_rows_forall month); [exact Hall |].
  intros r (d & c & p & t & g1 & g2 & -> & Hc & Hp).
  destruct (random_random_range g1) as [H10 H11].
  destruct (random_random_range g2) as [H20 H21].
  destruct (uniform_of_between 50 1000 _ ltac:(discriminate) H10 H11) as [Ha1 Ha2].
  destruct (uniform_of_between 0 50 _ ltac:(discriminate) H20 H21) as [Hb1 Hb2].
  destruct (round2_between _ 50 1000 Ha1 Ha2) as [Ra1 Ra2].
  destruct (round2_between _ 0 50 Hb1 Hb2) as [Rb1 Rb2].
  eexists; eexists.
  split; [reflexivity |]. split; [exact Ra1 |]. split; [exact Ra2 |].
  split; [reflexivity |]. split; [exact Rb1 | exact Rb2].
Qed.

(** *** The store *)

Lemma ieqb_refl (a : string) : ieqb a a = true.
Proof. apply String.eqb_refl. Qed.

Lemma ieqb_sym (a b : string) : ieqb a b = ieqb b a.
Proof. apply String.eqb_sym. Qed.

Lemma ieqb_true_iff (a b : string) : ieqb a b = true <-> lower a = lower b.
Proof. apply String.eqb_eq. Qed.

Lemma ieqb_false_iff (a b : string) : ieqb a b = false <-> lower a <> lower b.
Proof. apply String.eqb_neq. Qed.

Lemma find_table_app (name : string) (db l : store) :
  find_table name (db ++ l) =
  match find_table name db with
  | Some t => Some t
  | None => find_table name l
  end.
Proof.
  induction db as [| [n t] db IH]; simpl; [reflexivity |].
  destruct (ieqb name n); [reflexivity | exact IH].
Qed.

Lemma find_table_None (name : string) (db : store) :
  find_table name db = None <-> ~ In (lower name) (map (fun e => lower (fst e)) db).
Proof.
  induction db as [| [n t] db IH]; simpl.
  - split; [intros _ [] | reflexivity].
  - destruct (ieqb name n) eqn:E.
    + apply ieqb_true_iff in E. split; [discriminate | intros H; exfalso; auto].
    + apply ieqb_false_iff in E. rewrite IH. split; [intros H [H' | H'] | ]; auto.
Qed.

Lemma find_table_In (name : string) (db : store) (t : table) :
  find_table name db = Some t -> exists n, In (n, t) db /\ ieqb name n = true.
Proof.
  induction db as [| [n t'] db IH]; simpl; [discriminate |].
  destruct (ieqb name n) eqn:E.
  - intros [= ->]. exists n. auto.
  - intros H. destruct (IH H) as (n' & Hin & Hn). exists n'. auto.
Qed.

Lemma wf_store_snoc (db : store) (name : string) (t : table) :
  wf_store db -> find_table name db = None -> wf_store (db ++ [(name, t)]).
Proof.
  unfold wf_store. intros Hwf Hnone.
  rewrite map_app. simpl.
  apply NoDup_app; [exact Hwf | repeat constructor; intros [] |].
  intros x Hx [<- | []]. apply find_table_None in Hnone. contradiction.
Qed.

Lemma count_tables_unique (name : string) (db : store) (t : table) :
  wf_store db -> find_table name db = Some t -> count_tables name db = 1%nat.
Proof.
  unfold wf_store, count_tables.
  induction db as [| [n t'] db IH]; simpl; [discriminate |].
  intros Hwf. inversion Hwf as [| ? ? Hnotin Hwf']; subst.
  destruct (ieqb name n) eqn:E.
  - intros _. simpl. f_equal.
    apply ieqb_true_iff in E. rewrite <- E in Hnotin.
    apply find_table_None in Hnotin.
    clear -Hnotin. induction db as [| [n' t''] db IH]; simpl in *; [reflexivity |].
    destruct (ieqb name n'); [discriminate | auto].
  - intros H. apply IH; assumption.
Qed.

(** *** init_db *)

Lemma parse_create_months :
  Forall (fun m => parse_sql (create_table_sql m)
                   = PStmt (CreateTableIfNotExists (table_name m) declared_columns))
         months.
Proof. repeat constructor. Qed.

Lemma index_named_app (name : string) (db l : store) :
  index_named name (db ++ l) = index_named name db || index_named name l.
Proof. unfold index_named. apply existsb_app. Qed.

Lemma index_named_snoc (name n : string) (cols : list (string * string))
    (rs : list (list value)) (db : store) :
  index_named name (db ++ [(n, mktable cols rs)]) = index_named name db.
Proof. rewrite index_named_app. unfold index_named at 2. simpl. apply orb_false_r. Qed.

Lemma name_free_snoc (name n : string) (cols : list (string * string))
    (rs : list (list value)) (db : store) (vs : views) :
  name_free name (db ++ [(n, mktable cols rs)]) vs = name_free name db vs.
Proof. unfold name_free. now rewrite index_named_snoc. Qed.

Lemma cursor_execute_create (m : string) (w : world) :
  parse_sql (create_table_sql m)
  = PStmt (CreateTableIfNotExists (table_name m) declared_columns) ->
  (find_table (table_name m) (w_db w) = None ->
   name_free (table_name m) (w_db w) (w_views w) = true) ->
  cursor_execute (create_table_sql m) w
  = (Ok None, with_db (ensure_table (table_name m) (w_db w)) w).
Proof.
  intros Hp Hfree. unfold cursor_execute, sqlite_execute, sqlite_model, ensure_table.
  rewrite Hp. simpl. unfold name_free in Hfree.
  destruct (find_table (table_name m) (w_db w)); [reflexivity |].
  specialize (Hfree eq_refl).
  destruct (find_view (table_name m) (w_views w)); [discriminate |].
  apply negb_true_iff in Hfree. rewrite Hfree. reflexivity.
Qed.

Lemma with_db_same (w : world) : with_db (w_db w) w = w.
Proof. destruct w; reflexivity. Qed.

Lemma create_months_run (ms : list string) :
  Forall (fun m => parse_sql (create_table_sql m)
                   = PStmt (CreateTableIfNotExists (table_name m) declared_columns)) ms ->
  forall w,
    (forall m, In m ms -> find_table (table_name m) (w_db w) = None ->
               name_free (table_name m) (w_db w) (w_views w) = true) ->
    fold_right (fun month rest => cursor_execute (create_table_sql month) ;; rest)%py
               (ret tt) ms w
    = (Ok tt, with_db (ensure_months ms (w_db w)) w).
Proof.
  induction 1 as [| m ms Hm _ IH]; intros w Hclear; simpl.
  - unfold ret. now rewrite with_db_same.
  - rewrite (bind_ok _ _ _ _ _ (cursor_execute_create m w Hm (Hclear m (or_introl eq_refl)))).
    rewrite IH; [reflexivity |].
    intros m' Hin. cbn [w_db w_views with_db]. unfold ensure_table.
    destruct (find_table (table_name m) (w_db w)); [apply Hclear; now right |].
    rewrite find_table_app, name_free_snoc.
    destruct (find_table (table_name m') (w_db w)) eqn:E; [discriminate |].
    intros _. apply Hclear; [now right | exact E].
Qed.

Lemma init_db_run (w : world) :
  month_names_clear (w_db w) (w_views w) ->
  init_db w = (Ok tt, with_db (ensure_months months (w_db w)) w).
Proof. intros H. apply create_months_run; [apply parse_create_months | exact H]. Qed.

(** Where the 12 tables exist nothing can hinder [init_db]. *)
Lemma month_names_clear_found (db : store) (vs : views) :
  (forall m, In m months -> find_table (table_name m) db <> None) ->
  month_names_clear db vs.
Proof. intros H m Hin Hnone. exfalso. exact (H m Hin Hnone). Qed.

Lemma ensure_months_grows (ms : list string) :
  forall db, exists new,
    ensure_months ms db = db ++ new
    /\ Forall (fun e => snd e = mktable declared_columns []) new.
Proof.
  induction ms as [| m ms IH]; intros db; simpl.
  - exists []. now rewrite app_nil_r.
  - destruct (IH (ensure_table (table_name m) db)) as (new & -> & Hnew).
    unfold ensure_table. destruct (find_table (table_name m) db).
    + exists new. auto.
    + exists ((table_name m, mktable declared_columns []) :: new).
      rewrite <- app_assoc. simpl. auto.
Qed.

Lemma ensure_months_keeps (ms : list string) (db : store) (name : string) (t : table) :
  find_table name db = Some t -> find_table name (ensure_months ms db) = Some t.
Proof.
  intros H. destruct (ensure_months_grows ms db) as (new & -> & _).
  rewrite find_table_app, H. reflexivity.
Qed.

Lemma ensure_table_found (name : string) (db : store) :
  find_table name (ensure_table name db) <> None.
Proof.
  unfold ensure_table. destruct (find_table name db) eqn:E.
  - rewrite E. discriminate.
  - rewrite find_table_app, E. simpl. rewrite ieqb_refl. discriminate.
Qed.

Lemma ensure_months_found (ms : list string) (m : string) :
  In m ms -> forall db, find_table (table_name m) (ensure_months ms db) <> None.
Proof.
  induction ms as [| m' ms IH]; simpl; [intros [] |].
  intros [-> | Hin] db; [| apply IH; exact Hin].
  destruct (find_table (table_name m) (ensure_table (table_name m) db)) eqn:E.
  - rewrite (ensure_months_keeps ms _ _ _ E). discriminate.
  - exfalso. exact (ensure_table_found _ _ E).
Qed.

Lemma ensure_months_fixed (ms : list string) (db : store) :
  (forall m, In m ms -> find_table (table_name m) db <> None) ->
  ensure_months ms db = db.
Proof.
  induction ms as [| m ms IH]; simpl; intros H; [reflexivity |].
  unfold ensure_table at 1.
  destruct (find_table (table_name m) db) eqn:E.
  - apply IH. intros m' Hin. apply H. auto.
  - exfalso. apply (H m); auto.
Qed.

Lemma ensure_months_idempotent (ms : list string) (db : store) :
  ensure_months ms (ensure_months ms db) = ensure_months ms db.
Proof.
  apply ensure_months_fixed. intros m Hin. apply ensure_months_found. exact Hin.
Qed.

Lemma ensure_months_wf (ms : list string) :
  forall db, wf_store db -> wf_store (ensure_months ms db).
Proof.
  induction ms as [| m ms IH]; simpl; intros db Hwf; [exact Hwf |].
  apply IH. unfold ensure_table.
  destruct (find_table (table_name m) db) eqn:E; [exact Hwf |].
  apply wf_store_snoc; assumption.
Qed.

Lemma ensure_months_new (ms : list string) (db : store) (m : string) :
  In m ms -> find_table (table_name m) db = None ->
  find_table (table_name m) (ensure_months ms db) = Some (mktable declared_columns []).
Proof.
  intros Hin Hnone.
  pose proof (ensure_months_found ms m Hin db) as Hfound.
  destruct (ensure_months_grows ms db) as (new & Heq & Hnew).
  rewrite Heq in *. rewrite find_table_app, Hnone in *.
  destruct (find_table (table_name m) new) as [t |] eqn:E; [| congruence].
  apply find_table_In in E. destruct E as (n & Hn & _).
  rewrite Forall_forall in Hnew. specialize (Hnew _ Hn). simpl in Hnew.
  congruence.
Qed.

Lemma month_names_clear_ensured (db : store) (vs : views) :
  month_names_clear (ensure_months months db) vs.
Proof. apply month_names_clear_found. intros m Hin. now apply ensure_months_found. Qed.

Lemma init_db_iter (w : world) (k : nat) :
  month_names_clear (w_db w) (w_views w) ->
  Nat.iter (S k) (fun w0 => snd (init_db w0)) w = snd (init_db w).
Proof.
  intros Hclear. induction k as [| k IH]; [reflexivity |].
  change (Nat.iter (S (S k)) (fun w0 => snd (init_db w0)) w)
    with (snd (init_db (Nat.iter (S k) (fun w0 => snd (init_db w0)) w))).
  rewrite IH, (init_db_run w Hclear). cbn [snd].
  rewrite init_db_run by apply month_names_clear_ensured.
  cbn [snd with_db w_db w_rng w_ui w_views].
  now rewrite ensure_months_idempotent.
Qed.

(** C3, as the code has it.  [init_db] is idempotent where nothing
    hinders it.  On a database whose tables have distinct names and in
    which each month's table exists already or has its name taken by
    neither a view nor an index, however often [init_db] is invoked: no
    call raises; the state after any number of calls is the state after
    one; no two tables share a name; each of the 12 months has exactly
    one table, which is the table found before the call, unchanged, or
    else a new table without rows and with the seven declared columns;
    every table found before is found unchanged, the old tables being a
    prefix of the new list; the views, the generator state and the page
    are untouched. *)
Theorem init_db_idempotent (w : world) :
  wf_store (w_db w) ->
  month_names_clear (w_db w) (w_views w) ->
  (forall k, fst (init_db (Nat.iter k (fun w0 => snd (init_db w0)) w)) = Ok tt)
  /\ (forall k, Nat.iter (S k) (fun w0 => snd (init_db w0)) w = snd (init_db w))
  /\ wf_store (w_db (snd (init_db w)))
  /\ (forall m, In m months ->
        count_tables (table_name m) (w_db (snd (init_db w))) = 1%nat
        /\ find_table (table_name m) (w_db (snd (init_db w)))
           = match find_table (table_name m) (w_db w) with
             | Some t => Some t
             | None => Some (mktable declared_columns [])
             end)
  /\ (forall name t, find_table name (w_db w) = Some t ->
        find_table name (w_db (snd (init_db w))) = Some t)
  /\ (exists new, w_db (snd (init_db w)) = w_db w ++ new
        /\ Forall (fun e => snd e = mktable declared_columns []) new)
  /\ length months = 12%nat /\ length declared_columns = 7%nat
  /\ w_rng (snd (init_db w)) = w_rng w /\ w_ui (snd (init_db w)) = w_ui w
  /\ w_views (snd (init_db w)) = w_views w.
Proof.
  intros Hwf Hclear.
  split.
  { intros [| k].
    - cbn [Nat.iter nat_rect]. now rewrite init_db_run.
    - rewrite (init_db_iter w k Hclear), (init_db_run w Hclear). cbn [snd].
      rewrite init_db_run by apply month_names_clear_ensured. reflexivity. }
  split; [intros k; now apply init_db_iter |].
  rewrite (init_db_run w Hclear). cbn [snd with_db w_db w_rng w_ui w_views].
  pose proof (ensure_months_wf months _ Hwf) as Hwf'.
  split; [exact Hwf' |].
  split.
  { intros m Hin.
    assert (Hfind : find_table (table_name m) (ensure_months months (w_db w))
                    = match find_table (table_name m) (w_db w) with
                      | Some t => Some t
                      | None => Some (mktable declared_columns [])
                      end).
    { destruct (find_table (table_name m) (w_db w)) as [t |] eqn:E.
      - apply ensure_months_keeps. exact E.
      - apply ensure_months_new; assumption. }
    split; [| exact Hfind].
    destruct (find_table (table_name m) (w_db w)) as [t |];
      eapply count_tables_unique; eassumption. }
  split; [intros name t; apply ensure_months_keeps |].
  split; [apply ensure_months_grows |].
  repeat split.
Qed.

(** *** load_data_to_db *)

Lemma table_eta (t : table) : add_rows [] t = t.
Proof. destruct t. unfold add_rows. simpl. now rewrite app_nil_r. Qed.

Lemma add_rows_add_rows (a b : list (list value)) (t : table) :
  add_rows b (add_rows a t) = add_rows (a ++ b) t.
Proof. unfold add_rows. simpl. now rewrite app_assoc. Qed.

Lemma extends_refl (db : store) : extends db db.
Proof. intros n t H. exists []. now rewrite table_eta. Qed.

Lemma extends_snoc (db : store) (e : string * table) : extends db (db ++ [e]).
Proof.
  intros n t H. exists []. now rewrite table_eta, find_table_app, H.
Qed.

Lemma extends_trans (a b c : store) : extends a b -> extends b c -> extends a c.
Proof.
  intros Hab Hbc n t H.
  destruct (Hab n t H) as (new1 & H1).
  destruct (Hbc n _ H1) as (new2 & H2).
  exists (new1 ++ new2). now rewrite <- add_rows_add_rows.
Qed.

Lemma append_rows_find (name n : string) (new : list (list value)) (db : store) :
  find_table n (append_rows name new db) =
  option_map (fun t => if ieqb name n then add_rows new t else t) (find_table n db).
Proof.
  induction db as [| [n' t'] db IH]; simpl; [reflexivity |].
  destruct (ieqb name n') eqn:E1; simpl; destruct (ieqb n n') eqn:E2; simpl; auto.
  - replace (ieqb name n) with true; [reflexivity |].
    symmetry. apply ieqb_true_iff. apply ieqb_true_iff in E1, E2. congruence.
  - replace (ieqb name n) with false; [reflexivity |].
    symmetry. apply ieqb_false_iff. apply ieqb_false_iff in E1.
    apply ieqb_true_iff in E2. congruence.
Qed.

Lemma extends_append_rows (name : string) (new : list (list value)) (db : store) :
  extends db (append_rows name new db).
Proof.
  intros n t H. rewrite append_rows_find, H. simpl.
  destruct (ieqb name n); [exists new; reflexivity | exists []; now rewrite table_eta].
Qed.

Lemma table_stored_find (name : string) (db : store) :
  table_stored name db = true -> exists t, find_table name db = Some t.
Proof.
  unfold table_stored. induction db as [| [n t] db IH]; simpl; [discriminate |].
  destruct (ieqb name n) eqn:E; [eauto |].
  destruct (String.eqb_spec name n) as [-> | _]; simpl; [| exact IH].
  now rewrite ieqb_refl in E.
Qed.

Lemma has_view_find (name : string) (vs : views) :
  find_view name vs = None -> has_view name vs = false.
Proof.
  unfold has_view. induction vs as [| [n b] vs IH]; simpl; [reflexivity |].
  destruct (ieqb name n) eqn:E; [discriminate |].
  intros H. rewrite (IH H), orb_false_r.
  destruct (String.eqb_spec name n) as [-> | _]; [| reflexivity].
  now rewrite ieqb_refl in E.
Qed.

Lemma find_all_false {A : Type} (p : A -> bool) (l : list A) :
  (forall x, In x l -> p x = false) -> find p l = None.
Proof.
  induction l as [| x l IH]; simpl; intros H; [reflexivity |].
  rewrite (H x) by auto. apply IH. auto.
Qed.

Lemma append_rows_nil (name : string) (db : store) : append_rows name [] db = db.
Proof.
  unfold append_rows. induction db as [| [n t] db IH]; simpl; [reflexivity |].
  rewrite IH. destruct (ieqb name n); [rewrite table_eta |]; reflexivity.
Qed.

Lemma index_named_append_rows (name n : string) (new : list (list value)) (db : store) :
  index_named n (append_rows name new db) = index_named n db.
Proof.
  unfold index_named, append_rows. induction db as [| [n' t] db IH]; simpl; [reflexivity |].
  rewrite IH. destruct (ieqb name n'); reflexivity.
Qed.

Lemma insert_frame_ok (name : string) (f : frame) (db : store) (vs : views) (t : table) :
  find_table name db = Some t ->
  plain t = true ->
  (forall c, In c (columns f) -> existsb (ieqb c) (map fst (tbl_cols t)) = true) ->
  insert_frame name f db vs
  = (Ok tt, (append_rows name (map (stored_row (tbl_cols t) (columns f)) (rows f)) db, vs)).
Proof.
  intros Hfind Hplain Hcols. unfold insert_frame.
  destruct (rows f) as [| r rs] eqn:Hrows.
  - simpl. now rewrite append_rows_nil.
  - rewrite Hfind, find_all_false, Hplain; [reflexivity |].
    intros c Hc. now rewrite (Hcols c Hc).
Qed.

(** Where the INSERT is the model's to decide it overwrites and deletes
    nothing, touches no view, and leaves the database as it was when it
    raises. *)
Lemma insert_frame_extends (name : string) (f : frame) (db : store) (vs : views) :
  plainly_writable name db vs = true ->
  extends db (fst (snd (insert_frame name f db vs)))
  /\ snd (snd (insert_frame name f db vs)) = vs
  /\ (forall e, fst (insert_frame name f db vs) = Raise e ->
        snd (insert_frame name f db vs) = (db, vs)).
Proof.
  unfold plainly_writable, insert_frame. intros Hw.
  destruct (rows f); [repeat split; apply extends_refl |].
  destruct (find_table name db) as [t |].
  - destruct (find _ (columns f)); simpl; [repeat split; apply extends_refl |].
    rewrite Hw. simpl. repeat split; [apply extends_append_rows | discriminate].
  - destruct (find_view name vs); [discriminate |].
    repeat split; apply extends_refl.
Qed.

Lemma map_fst_create_columns (f : frame) : map fst (create_columns f) = columns f.
Proof.
  unfold create_columns. rewrite map_map. simpl.
  generalize 0%nat. induction (columns f) as [| c cs IH]; intros k; simpl;
    [reflexivity | now rewrite IH].
Qed.

Lemma existsb_ieqb_self (c : string) (l : list string) :
  In c l -> existsb (ieqb c) l = true.
Proof.
  intros H. apply existsb_exists. exists c. split; [exact H | apply ieqb_refl].
Qed.

Lemma find_invalid_none (l : list string) :
  forallb valid_sqlite_name l = true ->
  find (fun n => negb (valid_sqlite_name n)) l = None.
Proof.
  intros H. apply find_all_false. intros x Hx.
  rewrite forallb_forall in H. now rewrite (H x Hx).
Qed.

Lemma valid_table_name (m : string) :
  has_nul m = false -> valid_sqlite_name (table_name m) = true.
Proof.
  intros H. unfold valid_sqlite_name, has_nul in *. simpl.
  apply negb_false_iff in H. now rewrite H.
Qed.

Lemma word_has_no_nul (m : string) :
  forallb_string is_word_char m = true -> has_nul m = false.
Proof.
  intros H. unfold has_nul. apply negb_false_iff.
  induction m as [| c m IH]; simpl in *; [reflexivity |].
  apply andb_prop in H. destruct H as [Hc Hm]. rewrite (IH Hm), andb_true_r.
  destruct c as [[] [] [] [] [] [] [] []]; vm_compute in Hc |- *; congruence.
Qed.

(** Appending to a table pandas finds and nothing is attached to. *)
Lemma to_sql_append_present (name : string) (f : frame) (db : store) (vs : views) (t : table) :
  forallb valid_sqlite_name (name :: columns f) = true ->
  table_stored name db = true ->
  find_table name db = Some t ->
  plain t = true ->
  (forall c, In c (columns f) -> existsb (ieqb c) (map fst (tbl_cols t)) = true) ->
  to_sql_append name f db vs
  = (Ok tt, (append_rows name (map (stored_row (tbl_cols t) (columns f)) (rows f)) db, vs)).
Proof.
  intros Hvalid Hhas Hfind Hplain Hcols. unfold to_sql_append, has_table.
  rewrite (find_invalid_none _ Hvalid), Hhas.
  now apply insert_frame_ok.
Qed.

Lemma name_free_spec (name : string) (db : store) (vs : views) :
  name_free name db vs = true -> find_view name vs = None /\ index_named name db = false.
Proof.
  unfold name_free. destruct (find_view name vs); [discriminate |].
  intros H. apply negb_true_iff in H. auto.
Qed.

Lemma append_rows_absent (name : string) (new : list (list value)) (db : store) :
  find_table name db = None -> append_rows name new db = db.
Proof.
  intros Hnone. rewrite <- (append_rows_nil name db) at 2. unfold append_rows.
  apply map_ext_in. intros [n t] Hin. simpl.
  destruct (ieqb name n) eqn:E; [| reflexivity].
  exfalso. apply find_table_None in Hnone. apply Hnone.
  apply ieqb_true_iff in E. rewrite E.
  apply (in_map (fun e => lower (fst e)) _ _ Hin).
Qed.

(** Appending where the name is taken by nothing. *)
Lemma to_sql_append_absent (name : string) (f : frame) (db : store) (vs : views) :
  forallb valid_sqlite_name (name :: columns f) = true ->
  find_table name db = None ->
  name_free name db vs = true ->
  columns f <> [] -> distinct_names (columns f) = true ->
  to_sql_append name f db vs
  = (Ok tt,
     (db ++ [(name, mktable (create_columns f)
                      (map (stored_row (create_columns f) (columns f)) (rows f)))], vs)).
Proof.
  intros Hvalid Hnone Hfree Hne Hdist. unfold to_sql_append, has_table.
  destruct (name_free_spec _ _ _ Hfree) as [Hview Hindex].
  rewrite (find_invalid_none _ Hvalid), (has_view_find _ _ Hview), orb_false_r.
  destruct (table_stored name db) eqn:Hhas.
  { apply table_stored_find in Hhas. destruct Hhas as [t Ht]. congruence. }
  unfold create_for_frame. rewrite Hnone, Hview, Hindex.
  destruct (columns f) as [| c cs] eqn:Hc; [congruence |].
  rewrite Hdist.
  set (new := mktable (create_columns f) []).
  rewrite (insert_frame_ok name f (db ++ [(name, new)]) vs new).
  - f_equal. f_equal. unfold append_rows. rewrite map_app. simpl. rewrite ieqb_refl.
    f_equal.
    + apply (append_rows_absent name _ db Hnone).
    + rewrite Hc. reflexivity.
  - rewrite find_table_app, Hnone. simpl. now rewrite ieqb_refl.
  - reflexivity.
  - intros c' Hc'. subst new. simpl. rewrite map_fst_create_columns.
    apply existsb_ieqb_self. exact Hc'.
Qed.

(** Where [expenses_<month>] names a table with nothing attached, or no
    table and no view, [to_sql] overwrites and deletes nothing whatever
    the outcome, and a call that raises leaves the database as it was. *)
Lemma to_sql_append_extends (name : string) (f : frame) (db : store) (vs : views) :
  plainly_writable name db vs = true ->
  extends db (fst (snd (to_sql_append name f db vs)))
  /\ snd (snd (to_sql_append name f db vs)) = vs
  /\ (forall e, fst (to_sql_append name f db vs) = Raise e ->
        snd (to_sql_append name f db vs) = (db, vs)).
Proof.
  intros Hw. unfold to_sql_append.
  destruct (find _ (name :: columns f)); [repeat split; apply extends_refl |].
  destruct (has_table name db vs); [now apply insert_frame_extends |].
  unfold create_for_frame.
  destruct (find_table name db) eqn:Hfind; [repeat split; apply extends_refl |].
  assert (Hview : find_view name vs = None).
  { unfold plainly_writable in Hw. rewrite Hfind in Hw.
    destruct (find_view name vs); [discriminate | reflexivity]. }
  rewrite Hview.
  destruct (index_named name db); [repeat split; apply extends_refl |].
  destruct (columns f) eqn:Hc; [repeat split; apply extends_refl |].
  destruct (distinct_names (s :: l)) eqn:Hd; [| repeat split; apply extends_refl].
  set (db1 := db ++ _).
  assert (Hok : insert_frame name f db1 vs
                = (Ok tt, (append_rows name
                             (map (stored_row (create_columns f) (columns f)) (rows f)) db1, vs))).
  { apply (insert_frame_ok name f db1 vs (mktable (create_columns f) [])).
    - subst db1. rewrite find_table_app, Hfind. simpl. now rewrite ieqb_refl.
    - reflexivity.
    - intros c' Hc'. simpl. rewrite map_fst_create_columns.
      apply existsb_ieqb_self. exact Hc'. }
  rewrite Hok. cbn [fst snd]. repeat split; [| discriminate].
  eapply extends_trans; [apply extends_snoc | apply extends_append_rows].
Qed.

Lemma load_data_to_db_run (data : frame) (month : string) (w : world) :
  load_data_to_db data month w
  = (fst (to_sql_append (table_name month) data (w_db w) (w_views w)),
     with_database (snd (to_sql_append (table_name month) data (w_db w) (w_views w))) w).
Proof.
  unfold load_data_to_db.
  destruct (to_sql_append (table_name month) data (w_db w) (w_views w)). reflexivity.
Qed.

Lemma with_database_same (w : world) : with_database (w_db w, w_views w) w = w.
Proof. destruct w; reflexivity. Qed.

(** For every month and batch, on a database where the month's name
    stands for a table with nothing attached or for nothing at all:
    [load_data_to_db] overwrites and deletes no row of any table, and
    when it raises the database is as before. *)
Lemma load_data_to_db_keeps_rows (data : frame) (month : string) (w : world) :
  plainly_writable (table_name month) (w_db w) (w_views w) = true ->
  extends (w_db w) (w_db (snd (load_data_to_db data month w)))
  /\ w_views (snd (load_data_to_db data month w)) = w_views w
  /\ (forall e, fst (load_data_to_db data month w) = Raise e ->
        snd (load_data_to_db data month w) = w).
Proof.
  intros Hw. rewrite load_data_to_db_run. cbn [fst snd with_database w_db w_views].
  destruct (to_sql_append_extends (table_name month) data (w_db w) (w_views w) Hw)
    as (Hext & Hviews & Hraise).
  split; [exact Hext |]. split; [exact Hviews |].
  intros e He. rewrite (Hraise e He). apply with_database_same.
Qed.

Lemma row_count_append_rows (name : string) (new : list (list value)) (db : store) (t : table) :
  find_table name db = Some t ->
  row_count name (append_rows name new db) = (row_count name db + length new)%nat.
Proof.
  intros H. unfold row_count. rewrite append_rows_find, H. simpl.
  rewrite ieqb_refl. simpl. apply length_app.
Qed.

(** C2, as the code has it.  On a database where [expenses_<month>]
    names a table with nothing attached to it (no constraint or default
    in its declaration, no index, no trigger), or names no table and no
    view:

    - whatever the batch, and whether the call returns or raises, every
      table keeps its columns and its old rows in place, the views are
      as before, and a call that raises leaves the whole state as it
      was;
    - the call is additive when the batch fits: if the names pandas
      quotes (of the table and of the columns) are not empty and hold no
      NUL, every column of the batch is a column of the table the name
      resolves to (when there is one), and either a table is stored
      under exactly the spelling [expenses_<month>], or no table has
      that name in any letter case, no index has it either, and the
      batch has at least one column, its column names distinct, then
      the call returns normally, the row count of the month's table is
      the prior count plus the batch size, and the tables of other names
      are as before. *)
Theorem load_data_to_db_additive (data : frame) (month : string) (w : world) :
  plainly_writable (table_name month) (w_db w) (w_views w) = true ->
  (extends (w_db w) (w_db (snd (load_data_to_db data month w)))
   /\ w_views (snd (load_data_to_db data month w)) = w_views w
   /\ (forall e, fst (load_data_to_db data month w) = Raise e ->
         snd (load_data_to_db data month w) = w))
  /\ (forallb valid_sqlite_name (table_name month :: columns data) = true ->
      (forall t c, find_table (table_name month) (w_db w) = Some t ->
                   In c (columns data) ->
                   existsb (ieqb c) (map fst (tbl_cols t)) = true) ->
      (table_stored (table_name month) (w_db w) = true
       \/ (find_table (table_name month) (w_db w) = None
           /\ index_named (table_name month) (w_db w) = false
           /\ columns data <> [] /\ distinct_names (columns data) = true)) ->
      exists w',
        load_data_to_db data month w = (Ok tt, w')
        /\ row_count (table_name month) (w_db w')
           = (row_count (table_name month) (w_db w) + length (rows data))%nat
        /\ (forall n, ieqb (table_name month) n = false ->
              find_table n (w_db w') = find_table n (w_db w))
        /\ w_rng w' = w_rng w /\ w_ui w' = w_ui w).
Proof.
  intros Hw.
  split; [now apply load_data_to_db_keeps_rows |].
  intros Hvalid Hcols Hcase.
  rewrite load_data_to_db_run.
  destruct Hcase as [Hhas | (Hnone & Hindex & Hne & Hdist)].
  - destruct (table_stored_find _ _ Hhas) as [t Ht].
    assert (Hplain : plain t = true).
    { unfold plainly_writable in Hw. now rewrite Ht in Hw. }
    rewrite (to_sql_append_present _ _ _ _ t Hvalid Hhas Ht Hplain)
      by (intros c Hc; apply (Hcols t c Ht Hc)).
    eexists. split; [reflexivity |].
    cbn [fst snd with_database w_db w_rng w_ui].
    split; [rewrite (row_count_append_rows _ _ _ t Ht), length_map; reflexivity |].
    split; [| split; reflexivity].
    intros n Hn. rewrite append_rows_find, Hn.
    destruct (find_table n (w_db w)); reflexivity.
  - assert (Hfree : name_free (table_name month) (w_db w) (w_views w) = true).
    { unfold plainly_writable in Hw. rewrite Hnone in Hw. unfold name_free.
      destruct (find_view (table_name month) (w_views w)); [discriminate |].
      now rewrite Hindex. }
    rewrite (to_sql_append_absent _ _ _ _ Hvalid Hnone Hfree Hne Hdist).
    eexists. split; [reflexivity |].
    cbn [fst snd with_database w_db w_rng w_ui].
    split.
    { unfold row_count. rewrite find_table_app, Hnone. simpl.
      rewrite ieqb_refl. simpl. now rewrite length_map. }
    split; [| split; reflexivity].
    intros n Hn. rewrite find_table_app. simpl. rewrite ieqb_sym, Hn.
    destruct (find_table n (w_db w)); reflexivity.
Qed.

(** C10, as the code has it.  [load_data_to_db] creates the table it
    misses when nothing stands in the way.  For any month string
    without a NUL character, one of the 12 calendar months or not: if
    SQLite has no table called [expenses_<month>], no view and no index
    of that name either, and the batch has at least one column (with
    distinct column names, none empty or with a NUL, as every generated
    batch has), the call returns normally, having created the table
    with the columns of the batch, nothing attached to it, and filled
    it with exactly the rows of the batch; all other tables and the
    views are as before. *)
Theorem load_data_to_db_creates (data : frame) (month : string) (w : world) :
  forallb valid_sqlite_name (table_name month :: columns data) = true ->
  find_table (table_name month) (w_db w) = None ->
  name_free (table_name month) (w_db w) (w_views w) = true ->
  columns data <> [] -> distinct_names (columns data) = true ->
  exists w',
    load_data_to_db data month w = (Ok tt, w')
    /\ find_table (table_name month) (w_db w')
       = Some (mktable (create_columns data)
                 (map (stored_row (create_columns data) (columns data)) (rows data)))
    /\ map fst (create_columns data) = columns data
    /\ row_count (table_name month) (w_db w') = length (rows data)
    /\ (forall n t, find_table n (w_db w) = Some t -> find_table n (w_db w') = Some t)
    /\ w_views w' = w_views w
    /\ w_rng w' = w_rng w /\ w_ui w' = w_ui w.
Proof.
  intros Hvalid Hnone Hfree Hne Hdist.
  rewrite load_data_to_db_run, (to_sql_append_absent _ _ _ _ Hvalid Hnone Hfree Hne Hdist).
  eexists. split; [reflexivity |]. cbn [fst snd with_database w_db w_rng w_ui w_views].
  assert (Hfind : find_table (table_name month)
                    (w_db w ++ [(table_name month,
                       mktable (create_columns data)
                         (map (stored_row (create_columns data) (columns data)) (rows data)))])
                  = Some (mktable (create_columns data)
                            (map (stored_row (create_columns data) (columns data)) (rows data)))).
  { rewrite find_table_app, Hnone. simpl. now rewrite ieqb_refl. }
  split; [exact Hfind |].
  split; [apply map_fst_create_columns |].
  split; [unfold row_count; rewrite Hfind; simpl; apply length_map |].
  split; [| repeat split].
  intros n t Ht. now rewrite find_table_app, Ht.
Qed.

(** *** SQL text built from a month label *)

Lemma append_assoc_string (a b c : string) : ((a ++ b) ++ c)%string = (a ++ (b ++ c))%string.
Proof. induction a as [| x a IH]; simpl; [reflexivity | now rewrite IH]. Qed.

Lemma append_nil_r_string (a : string) : (a ++ "")%string = a.
Proof. induction a as [| x a IH]; simpl; [reflexivity | now rewrite IH]. Qed.

Lemma word_char_not_space (c : ascii) :
  is_word_char c = true -> is_space_char c = false.
Proof.
  destruct c as [[] [] [] [] [] [] [] []]; vm_compute; congruence.
Qed.

(** A run of word characters is read into the current word. *)
Lemma at_bom_in_word (acc s : string) : acc <> "" -> at_bom acc s = false.
Proof. destruct acc; [congruence | reflexivity]. Qed.

Lemma append_not_empty (a b : string) : a <> "" -> (a ++ b)%string <> "".
Proof. destruct a; [congruence | discriminate]. Qed.

Lemma tokenize_from_word (m : string) :
  forallb_string is_word_char m = true ->
  forall acc rest, acc <> "" ->
    tokenize_from acc (m ++ rest) 0 = tokenize_from (acc ++ m) rest 0.
Proof.
  induction m as [| c m IH]; intros Hw acc rest Hacc.
  - simpl. now rewrite append_nil_r_string.
  - simpl in Hw. apply andb_prop in Hw. destruct Hw as [Hc Hm].
    change ((String c m ++ rest)%string) with (String c (m ++ rest)).
    cbn [tokenize_from].
    rewrite (word_char_not_space c Hc), (at_bom_in_word _ _ Hacc), Hc.
    rewrite (IH Hm) by now apply append_not_empty.
    now rewrite append_assoc_string.
Qed.

Lemma prefix_empty (s : string) : String.prefix "" s = true.
Proof. destruct s; reflexivity. Qed.

Lemma classify_table_name (m : string) :
  classify_word (table_name m) = LName (table_name m).
Proof. reflexivity. Qed.

Lemma own_table_name (m : string) : own_table (table_name m) = true.
Proof. unfold own_table, table_name. simpl. apply prefix_empty. Qed.

Lemma tokenize_select_all (m : string) :
  forallb_string is_word_char m = true ->
  tokenize ("SELECT * FROM expenses_" ++ m)
  = [TWord "SELECT"; TSym "*"; TWord "FROM"; TWord (table_name m)].
Proof.
  intros Hw. unfold tokenize.
  rewrite <- (append_nil_r_string m) at 1.
  change (tokenize_from "" ("SELECT * FROM expenses_" ++ (m ++ "")) 0)
    with ([TWord "SELECT"; TSym "*"; TWord "FROM"] ++ tokenize_from "expenses_" (m ++ "") 0).
  rewrite (tokenize_from_word m Hw) by discriminate. reflexivity.
Qed.

Lemma parse_select_all (m : string) :
  forallb_string is_word_char m = true ->
  parse_sql ("SELECT * FROM expenses_" ++ m) = PStmt (SelectAll (table_name m)).
Proof.
  intros Hw. unfold parse_sql. rewrite (tokenize_select_all m Hw).
  cbn [existsb is_nul_token orb map classify]. rewrite classify_table_name.
  change (classify_word "SELECT") with (LKey KSelect).
  change (classify_word "FROM") with (LKey KFrom).
  cbn [parse]. change (is_star "*") with true. rewrite own_table_name. reflexivity.
Qed.

Lemma tokenize_drop_table (m : string) :
  forallb_string is_word_char m = true ->
  tokenize ("DROP TABLE expenses_" ++ m)
  = [TWord "DROP"; TWord "TABLE"; TWord (table_name m)].
Proof.
  intros Hw. unfold tokenize.
  rewrite <- (append_nil_r_string m) at 1.
  change (tokenize_from "" ("DROP TABLE expenses_" ++ (m ++ "")) 0)
    with ([TWord "DROP"; TWord "TABLE"] ++ tokenize_from "expenses_" (m ++ "") 0).
  rewrite (tokenize_from_word m Hw) by discriminate. reflexivity.
Qed.

Lemma parse_drop_table (m : string) :
  forallb_string is_word_char m = true ->
  parse_sql ("DROP TABLE expenses_" ++ m) = PStmt (DropTable (table_name m)).
Proof.
  intros Hw. unfold parse_sql. rewrite (tokenize_drop_table m Hw).
  cbn [existsb is_nul_token orb map classify]. rewrite classify_table_name.
  change (classify_word "DROP") with (LKey KDrop).
  change (classify_word "TABLE") with (LKey KTable).
  cbn [parse]. rewrite own_table_name. reflexivity.
Qed.





(** *** ORDER BY ... DESC *)











(** *** query_data and the branches that call it *)

Lemma show_show (a b : list element) (w : world) : show b (show a w) = show (a ++ b) w.
Proof. unfold show. simpl. now rewrite app_assoc. Qed.

Lemma query_data_run (sql : string) (w : world) :
  query_data sql w =
  match sqlite_execute sql (w_db w) (w_views w) with
  | (Raise e, d) =>
      (Raise (mkexn DatabaseError
                ("Execution failed on sql '" ++ sql ++ "': " ++ exn_str e)), with_database d w)
  | (Ok None, d) =>
      (Raise (mkexn TypeError "'NoneType' object is not iterable"), with_database d w)
  | (Ok (Some f), d) => (Ok f, with_database d w)
  end.
Proof.
  unfold query_data, read_sql_query, cursor_execute.
  destruct (sqlite_execute sql (w_db w) (w_views w)) as [[[f |] | e] d]; reflexivity.
Qed.

Lemma sqlite_execute_stmt (sql : string) (s : stmt) (db : store) (vs : views)
    (r : result cursor * store) :
  parse_sql sql = PStmt s -> exec_stmt s db vs = Some r ->
  sqlite_execute sql db vs = (fst r, (snd r, vs)).
Proof.
  intros Hp He. unfold sqlite_execute, sqlite_model. now rewrite Hp, He.
Qed.

Lemma query_data_select (m : string) (w : world) (t : table) :
  forallb_string is_word_char m = true ->
  find_table (table_name m) (w_db w) = Some t ->
  query_data ("SELECT * FROM expenses_" ++ m) w
  = (Ok (mkframe (map fst (tbl_cols t)) (tbl_rows t)), w).
Proof.
  intros Hw Hfind. rewrite query_data_run.
  rewrite (sqlite_execute_stmt _ _ _ _ _ (parse_select_all m Hw)
             ltac:(simpl; rewrite Hfind; reflexivity)).
  cbn [fst snd]. now rewrite with_database_same.
Qed.

Lemma query_data_missing (m : string) (w : world) :
  forallb_string is_word_char m = true ->
  find_table (table_name m) (w_db w) = None ->
  find_view (table_name m) (w_views w) = None ->
  query_data ("SELECT * FROM expenses_" ++ m) w
  = (Raise (mkexn DatabaseError
              ("Execution failed on sql 'SELECT * FROM expenses_" ++ m
               ++ "': no such table: " ++ table_name m)), w).
Proof.
  intros Hw Hfind Hview. rewrite query_data_run.
  rewrite (sqlite_execute_stmt _ _ _ _ _ (parse_select_all m Hw)
             ltac:(simpl; rewrite Hfind, Hview; reflexivity)).
  cbn [fst snd]. rewrite with_database_same. cbn [exn_str no_such_table].
  now rewrite !append_assoc_string.
Qed.



(** A [try] whose handler only shows a message never lets an exception
    out. *)
Lemma try_except_render (c : M world unit) (msg : exn -> string) (w : world) :
  exists w', try_except c (fun e => render (ErrorBox (msg e))) w = (Ok tt, w').
Proof.
  unfold try_except. destruct (c w) as [[[] | e] w']; eexists; reflexivity.
Qed.

Lemma view_branch_returns (i : inputs) (w : world) :
  exists w', view_branch i w = (Ok tt, w').
Proof.
  unfold view_branch, bind, render.
  destruct (in_button i); [apply try_except_render | eexists; reflexivity].
Qed.

Lemma visualize_branch_returns (i : inputs) (w : world) :
  exists w', visualize_branch i w = (Ok tt, w').
Proof. unfold visualize_branch, bind at 1, render at 1. apply try_except_render. Qed.

Lemma run_sql_branch_returns (i : inputs) (w : world) :
  exists w', run_sql_branch i w = (Ok tt, w').
Proof.
  unfold run_sql_branch, bind, render.
  destruct (in_button i); [apply try_except_render | eexists; reflexivity].
Qed.

Lemma predefined_branch_returns (i : inputs) (w : world) :
  In (in_query_name i) (map fst SQL_QUERIES) ->
  exists w', predefined_branch i w = (Ok tt, w').
Proof.
  intros Hin. unfold predefined_branch, bind at 1, render at 1.
  destruct (assoc_string (in_query_name i) SQL_QUERIES) as [template |] eqn:E.
  - destruct (in_button i); [apply try_except_render | eexists; reflexivity].
  - exfalso. revert Hin E. generalize (in_query_name i). intros s.
    induction SQL_QUERIES as [| [k v] l IH]; simpl; [intros [] |].
    intros [-> | Hin]; [now rewrite String.eqb_refl |].
    destruct (String.eqb s k); [discriminate | now apply IH].
Qed.

Lemma script_run (i : inputs) (w : world) :
  script i w =
  match dispatch i (show [Title "Advanced Expense Tracker"] w) with
  | (Ok _, w') => init_db w'
  | (Raise e, w') => (Raise e, w')
  end.
Proof.
  unfold script, bind, render.
  destruct (dispatch i _) as [[[] | e] w']; reflexivity.
Qed.

(** X13. The four branches that query catch whatever is raised: in
    these modes the branch returns normally, whatever the inputs, the
    database and the engine.  The run then goes on to [init_db], and
    ends normally where nothing hinders [init_db] on the database the
    branch leaves behind. *)
Lemma query_modes_never_raise (i : inputs) (w : world) :
  in_option i <> GenerateData ->
  In (in_query_name i) (map fst SQL_QUERIES) ->
  exists w1,
    dispatch i (show [Title "Advanced Expense Tracker"] w) = (Ok tt, w1)
    /\ (month_names_clear (w_db w1) (w_views w1) ->
        script i w = (Ok tt, with_db (ensure_months months (w_db w1)) w1)).
Proof.
  intros Hopt Hname.
  assert (H : exists w', dispatch i (show [Title "Advanced Expense Tracker"] w) = (Ok tt, w')).
  { unfold dispatch. destruct (in_option i); [congruence | | | |].
    - apply view_branch_returns.
    - apply visualize_branch_returns.
    - apply run_sql_branch_returns.
    - apply predefined_branch_returns. exact Hname. }
  destruct H as [w1 H1]. exists w1. split; [exact H1 |].
  intros Hclear. rewrite script_run, H1. now apply init_db_run.
Qed.


Lemma find_table_drop (name : string) (db : store) :
  find_table name (drop_table name db) = None.
Proof.
  unfold drop_table. induction db as [| [n t] db IH]; simpl; [reflexivity |].
  destruct (ieqb name n) eqn:E; simpl; [exact IH | now rewrite E].
Qed.

(** C9. [query_data] is not confined to reading.  For the text
    [DROP TABLE expenses_<month>] (the month made of identifier
    characters) and a database holding that table: SQLite drops the
    table at once, pandas then raises because the statement has no
    result set, and the database [query_data] leaves behind no longer
    has the table and so differs from the one it found.  Through the
    custom-query branch the error is shown and the table is gone all the
    same. *)
Theorem query_data_can_drop_table (m : string) (w : world) (t : table) :
  forallb_string is_word_char m = true ->
  find_table (table_name m) (w_db w) = Some t ->
  let w' := with_db (drop_table (table_name m) (w_db w)) w in
  query_data ("DROP TABLE expenses_" ++ m) w
  = (Raise (mkexn TypeError "'NoneType' object is not iterable"), w')
  /\ find_table (table_name m) (w_db w') = None
  /\ w_db w' <> w_db w
  /\ (forall i, in_button i = true -> in_query i = ("DROP TABLE expenses_" ++ m)%string ->
        run_sql_branch i w
        = (Ok tt, show [Subheader "Run Custom SQL Query";
                        ErrorBox "An error occurred: 'NoneType' object is not iterable"] w')).
Proof.
  intros Hw Hfind w'.
  assert (Hq : forall w0, w_db w0 = w_db w ->
             query_data ("DROP TABLE expenses_" ++ m) w0
             = (Raise (mkexn TypeError "'NoneType' object is not iterable"),
                with_db (drop_table (table_name m) (w_db w)) w0)).
  { intros w0 Hdb. rewrite query_data_run, Hdb.
    rewrite (sqlite_execute_stmt _ _ (w_db w) _ _ (parse_drop_table m Hw)
               ltac:(simpl; rewrite Hfind; reflexivity)).
    reflexivity. }
  split; [apply Hq; reflexivity |].
  split; [apply find_table_drop |].
  split.
  { intros Heq. pose proof (find_table_drop (table_name m) (w_db w)) as Hd.
    change (w_db w') with (drop_table (table_name m) (w_db w)) in Heq.
    rewrite Heq in Hd. congruence. }
  intros i Hb Hi.
  unfold run_sql_branch, bind at 1, render at 1. rewrite Hb, Hi.
  unfold try_except, bind. rewrite (Hq (show _ w) eq_refl).
  unfold render, show, with_db. simpl. now rewrite <- app_assoc.
Qed.




(** *** The Generate branch *)

Lemma generate_branch_appends (i : inputs) (w : world) (t : table) :
  in_button i = true -> (0 < in_n i)%Z ->
  has_nul (in_month i) = false ->
  table_stored (table_name (in_month i)) (w_db w) = true ->
  find_table (table_name (in_month i)) (w_db w) = Some t ->
  plain t = true ->
  (forall c, In c record_keys -> existsb (ieqb c) (map fst (tbl_cols t)) = true) ->
  exists rs g,
    length rs = Z.to_nat (in_n i)
    /\ Forall (generated_record (in_month i)) rs
    /\ generate_branch i w
       = (Ok tt,
          mkstate g
            (append_rows (table_name (in_month i))
               (map (stored_row (tbl_cols t) record_keys) (map (map snd) rs)) (w_db w))
            (w_views w)
            (w_ui w ++ [Subheader "Generate Expense Data";
                        Success ("Data for " ++ in_month i
                                 ++ " generated and loaded into the database!");
                        DataframeView (head (DataFrame rs))])).
Proof using Type randbelow_range.
  intros Hb Hn Hnul Hhas Hfind Hplain Hcols.
  set (w1 := show [Subheader "Generate Expense Data"] w).
  destruct (generate_data_spec (in_month i) (in_n i) w1) as (rs & g & Hgen & Hlen & Hall).
  exists rs, g. split; [exact Hlen |]. split; [exact Hall |].
  assert (Hne : rs <> []).
  { intros ->. simpl in Hlen. lia. }
  unfold generate_branch, bind at 1, render at 1. rewrite Hb. fold w1.
  rewrite (bind_ok _ _ _ _ _ Hgen).
  assert (Hload : load_data_to_db (DataFrame rs) (in_month i) (with_rng g w1)
                  = (Ok tt, with_db (append_rows (table_name (in_month i))
                                       (map (stored_row (tbl_cols t) record_keys)
                                            (map (map snd) rs)) (w_db w))
                                    (with_rng g w1))).
  { rewrite load_data_to_db_run.
    rewrite (to_sql_append_present _ _ _ _ t); [| | exact Hhas | exact Hfind | exact Hplain |].
    - rewrite (DataFrame_generated _ _ Hall Hne). reflexivity.
    - rewrite (DataFrame_generated _ _ Hall Hne).
      cbn [forallb columns]. rewrite (valid_table_name _ Hnul). reflexivity.
    - rewrite (DataFrame_generated _ _ Hall Hne). exact Hcols. }
  rewrite (bind_ok _ _ _ _ _ Hload).
  unfold bind, render, show, with_db, with_rng, w1, show. simpl.
  now rewrite <- !app_assoc.
Qed.

Lemma stored_generated_row (month : string) (r : record) :
  generated_record month r ->
  cell (map fst declared_columns) "Month"
       (stored_row declared_columns record_keys (map snd r)) = Some (VText month).
Proof. intros (d & c & p & t & g1 & g2 & -> & _). reflexivity. Qed.

Lemma fresh_january :
  table_stored (table_name "January") (ensure_months months []) = true
  /\ find_table (table_name "January") (ensure_months months [])
     = Some (mktable declared_columns []).
Proof. split; reflexivity. Qed.

(** C6. On a new database: once the page has been loaded (which creates
    the tables), generating 50 records for "January" and then viewing
    "January" shows a frame of exactly 50 rows, each with Month equal to
    "January".  All three runs of the script end normally. *)
Theorem generate_then_view_january (g : rng) :
  exists w0 w1 w2 f,
    script (mkinputs GenerateData "January" 200 false "" "Total Amount Spent per Category")
           (mkworld g [] []) = (Ok tt, w0)
    /\ script (mkinputs GenerateData "January" 50 true "" "Total Amount Spent per Category")
              w0 = (Ok tt, w1)
    /\ script (mkinputs ViewData "January" 200 true "" "Total Amount Spent per Category")
              w1 = (Ok tt, w2)
    /\ w_ui w2 = w_ui w1 ++ [Title "Advanced Expense Tracker";
                             Subheader "View Expense Data"; DataframeView f]
    /\ length (rows f) = 50%nat
    /\ Forall (fun row => cell (columns f) "Month" row = Some (VText "January")) (rows f).
Proof using Type randbelow_range.
  set (db0 := ensure_months months []).
  set (title := Title "Advanced Expense Tracker").
  destruct fresh_january as [Hhas Hfind]. fold db0 in Hhas, Hfind.
  set (i1 := mkinputs GenerateData "January" 50 true "" "Total Amount Spent per Category").
  set (w0 := with_db db0 (show [title; Subheader "Generate Expense Data"] (mkworld g [] []))).
  destruct (generate_branch_appends i1 (show [title] w0) (mktable declared_columns []))
    as (rs & g1 & Hlen & Hall & Hgen);
    [reflexivity | reflexivity | reflexivity | exact Hhas | exact Hfind | reflexivity | | ].
  { intros c Hc. simpl in Hc.
    repeat (destruct Hc as [<- | Hc]; [reflexivity |]). contradiction. }
  cbn [in_month in_n i1 tbl_cols w_db w_views show w0 with_db mkworld] in Hgen, Hlen, Hall.
  set (new := map (stored_row declared_columns record_keys) (map (map snd) rs)) in *.
  set (db1 := append_rows (table_name "January") new db0) in *.
  assert (Hfound : forall m, In m months -> find_table (table_name m) db1 <> None).
  { intros m Hin. unfold db1. rewrite append_rows_find.
    pose proof (ensure_months_found months m Hin []) as Hm. fold db0 in Hm.
    destruct (find_table (table_name m) db0); [discriminate | congruence]. }
  assert (Hfix : ensure_months months db1 = db1).
  { apply ensure_months_fixed. exact Hfound. }
  assert (Hfind1 : find_table (table_name "January") db1 = Some (mktable declared_columns new)).
  { unfold db1. rewrite append_rows_find, Hfind. reflexivity. }
  exists w0. eexists. eexists. exists (mkframe (map fst declared_columns) new).
  split.
  { (* the first load of the page *)
    rewrite script_run. unfold dispatch, generate_branch. cbn [in_option in_button].
    unfold bind, render, ret. rewrite init_db_run; [now rewrite show_show |].
    intros m Hin _. reflexivity. }
  split.
  { (* the Generate run *)
    rewrite script_run.
    change (dispatch _ _) with (generate_branch i1 (show [title] w0)).
    rewrite Hgen, init_db_run by (apply month_names_clear_found; exact Hfound).
    cbn [w_db with_db w_rng w_ui w_views].
    rewrite Hfix. reflexivity. }
  split.
  { (* the View run *)
    rewrite script_run. cbn [dispatch in_option].
    unfold view_branch, bind at 1, render at 1. cbn [in_button in_month].
    unfold try_except, bind.
    rewrite (query_data_select "January" _ (mktable declared_columns new));
      [| reflexivity | exact Hfind1].
    unfold render. rewrite init_db_run by (apply month_names_clear_found; exact Hfound).
    cbn [w_db with_db show w_rng w_ui w_views]. rewrite Hfix. reflexivity. }
  cbn [w_ui with_db show w_db w_rng w_views tbl_cols tbl_rows rows columns].
  split; [now rewrite <- !app_assoc |].
  split.
  { unfold new. rewrite !length_map. exact Hlen. }
  unfold new. rewrite map_map. apply Forall_map.
  eapply Forall_impl; [| exact Hall].
  intros r Hr. apply stored_generated_row. exact Hr.
Qed.

(** The Generate branch has no handler.  When pandas
    finds no table or view spelled [expenses_<month>] although SQLite
    resolves that name to a table (the same letters in another case),
    [to_sql] raises; the exception leaves the branch and ends the run of
    the script before [init_db], with nothing shown after the subheader
    and the database as it was. *)
Lemma generate_branch_uncaught (i : inputs) (w : world) (t : table) :
  in_option i = GenerateData ->
  in_button i = true ->
  has_nul (in_month i) = false ->
  table_stored (table_name (in_month i)) (w_db w) = false ->
  has_view (table_name (in_month i)) (w_views w) = false ->
  find_table (table_name (in_month i)) (w_db w) = Some t ->
  let e := mkexn OperationalError
             ("table " ++ dquote ++ table_name (in_month i) ++ dquote ++ " already exists") in
  (exists g, generate_branch i w
             = (Raise e, with_rng g (show [Subheader "Generate Expense Data"] w)))
  /\ (exists g, script i w
                = (Raise e, with_rng g (show [Title "Advanced Expense Tracker";
                                              Subheader "Generate Expense Data"] w))).
Proof using Type randbelow_range.
  intros Hopt Hb Hnul Hhas Hhasv Hfind e.
  assert (H : forall w0, w_db w0 = w_db w -> w_views w0 = w_views w -> exists g,
            generate_branch i w0
            = (Raise e, with_rng g (show [Subheader "Generate Expense Data"] w0))).
  { intros w0 Hdb Hvs. rewrite <- Hdb in Hhas, Hfind. rewrite <- Hvs in Hhasv.
    set (w1 := show [Subheader "Generate Expense Data"] w0).
    destruct (generate_data_spec (in_month i) (in_n i) w1) as (rs & g & Hgen & _ & Hall).
    exists g. unfold generate_branch, bind at 1, render at 1. rewrite Hb. fold w1.
    rewrite (bind_ok _ _ _ _ _ Hgen).
    apply bind_raise. rewrite load_data_to_db_run.
    cbn [w_db w_views with_rng w1 show].
    unfold to_sql_append, has_table, create_for_frame.
    rewrite find_invalid_none, Hhas, Hhasv, Hfind; [reflexivity |].
    cbn [forallb]. rewrite (valid_table_name _ Hnul).
    destruct rs as [| r rs]; [reflexivity |].
    now rewrite (DataFrame_generated _ _ Hall ltac:(discriminate)). }
  split; [apply H; reflexivity |].
  destruct (H (show [Title "Advanced Expense Tracker"] w) eq_refl eq_refl) as [g Hg].
  exists g. rewrite script_run. unfold dispatch. rewrite Hopt, Hg.
  now rewrite show_show.
Qed.

(** ** Further properties of the script *)

(** *** generate_data: the shape of the frame *)

(** X1. The frame [generate_data] returns has the seven keys of the
    dict as its columns, in the order written, when [n] is at least 1,
    and no column at all otherwise; every row holds a date, three texts,
    two numbers and the month label, in that order.  For [n <= 0] the
    loop body never runs: the frame is the empty frame and the state,
    generators included, is untouched. *)
Theorem generate_data_shape (month : string) (n : Z) (w : world) :
  exists f w',
    generate_data month n w = (Ok f, w')
    /\ columns f = (if (0 <? n)%Z then record_keys else [])
    /\ Forall (fun row =>
                 exists d c p t a b,
                   row = [VDate d; VText c; VText p; VText t; VReal a; VReal b; VText month])
              (rows f)
    /\ ((n <= 0)%Z -> f = mkframe [] [] /\ w' = w).
Proof using Type randbelow_range.
  destruct (Z.ltb_spec 0 n) as [Hpos | Hnonpos].
  - destruct (generate_data_spec month n w) as (rs & g & Hrun & Hlen & Hall).
    exists (DataFrame rs), (with_rng g w).
    assert (Hne : rs <> []) by (intros ->; simpl in Hlen; lia).
    rewrite (DataFrame_generated month rs Hall Hne).
    split; [rewrite <- (DataFrame_generated month rs Hall Hne); exact Hrun |].
    split; [reflexivity |].
    split; [| intros; lia].
    cbn [rows]. apply Forall_map. eapply Forall_impl; [| exact Hall].
    intros r (d & c & p & t & g1 & g2 & -> & _).
    repeat eexists.
  - exists (mkframe [] []), w.
    split.
    { unfold generate_data. replace (Z.to_nat n) with 0%nat by lia. reflexivity. }
    split; [reflexivity |].
    split; [constructor | auto].
Qed.

(** *** load_data_to_db: what it leaves alone *)

Lemma insert_frame_others (name n : string) (f : frame) (db : store) (vs : views) :
  plainly_writable name db vs = true ->
  ieqb name n = false ->
  find_table n (fst (snd (insert_frame name f db vs))) = find_table n db.
Proof.
  unfold plainly_writable, insert_frame. intros Hw Hn.
  destruct (rows f); [reflexivity |].
  destruct (find_table name db) as [t |].
  - destruct (find _ (columns f)); [reflexivity |].
    rewrite Hw. cbn [fst snd]. rewrite append_rows_find, Hn.
    destruct (find_table n db); reflexivity.
  - destruct (find_view name vs); [discriminate | reflexivity].
Qed.

Lemma find_table_snoc_other (name n : string) (t : table) (db : store) :
  ieqb name n = false ->
  find_table n (db ++ [(name, t)]) = find_table n db.
Proof.
  intros Hn. rewrite find_table_app. simpl. rewrite ieqb_sym, Hn.
  destruct (find_table n db); reflexivity.
Qed.

Lemma to_sql_append_others (name n : string) (f : frame) (db : store) (vs : views) :
  plainly_writable name db vs = true ->
  ieqb name n = false ->
  find_table n (fst (snd (to_sql_append name f db vs))) = find_table n db.
Proof.
  intros Hw Hn. unfold to_sql_append.
  destruct (find _ (name :: columns f)); [reflexivity |].
  destruct (has_table name db vs); [now apply insert_frame_others |].
  unfold create_for_frame.
  destruct (find_table name db) eqn:Hfind; [reflexivity |].
  assert (Hview : find_view name vs = None).
  { unfold plainly_writable in Hw. rewrite Hfind in Hw.
    destruct (find_view name vs); [discriminate | reflexivity]. }
  rewrite Hview.
  destruct (index_named name db); [reflexivity |].
  destruct (columns f); [reflexivity |].
  destruct (distinct_names (s :: l)); [| reflexivity].
  rewrite (insert_frame_others name n f _ vs).
  - now apply find_table_snoc_other.
  - unfold plainly_writable. rewrite find_table_app, Hfind. simpl.
    now rewrite ieqb_refl.
  - exact Hn.
Qed.

(** X2. Whatever the month and the batch, on a database where
    [expenses_<month>] names a table with nothing attached to it (no
    constraint, index or trigger) or names no table and no view, and
    whether the call returns or raises: [load_data_to_db] leaves every
    table of another name exactly as it was (a table that was absent
    stays absent), it touches neither the views, the generators nor the
    page, and a call that raises leaves the whole state unchanged. *)
Theorem load_data_to_db_touches_one_table (data : frame) (month : string) (w : world) :
  plainly_writable (table_name month) (w_db w) (w_views w) = true ->
  (forall n, ieqb (table_name month) n = false ->
     find_table n (w_db (snd (load_data_to_db data month w))) = find_table n (w_db w))
  /\ w_views (snd (load_data_to_db data month w)) = w_views w
  /\ w_rng (snd (load_data_to_db data month w)) = w_rng w
  /\ w_ui (snd (load_data_to_db data month w)) = w_ui w
  /\ (forall e, fst (load_data_to_db data month w) = Raise e ->
        snd (load_data_to_db data month w) = w).
Proof.
  intros Hw.
  destruct (load_data_to_db_keeps_rows data month w Hw) as (_ & Hviews & Hraise).
  split.
  { rewrite load_data_to_db_run. cbn [fst snd with_database w_db].
    intros n Hn. now apply to_sql_append_others. }
  split; [exact Hviews |].
  split; [rewrite load_data_to_db_run; reflexivity |].
  split; [rewrite load_data_to_db_run; reflexivity | exact Hraise].
Qed.

(** *** The last line of the script *)

Lemma found_table (name : string) (db : store) :
  find_table name db <> None -> exists t, find_table name db = Some t.
Proof.
  destruct (find_table name db) as [t |]; [exists t; reflexivity | congruence].
Qed.

Lemma found_view (name : string) (vs : views) :
  find_view name vs <> None -> exists v, find_view name vs = Some v.
Proof.
  destruct (find_view name vs) as [v |]; [exists v; reflexivity | congruence].
Qed.

(** One [CREATE TABLE IF NOT EXISTS] of [init_db], whatever the database:
    it raises and changes nothing, or it returns with the name standing
    for a table or a view. *)
Lemma cursor_execute_create_outcome (m : string) (w : world) :
  parse_sql (create_table_sql m)
  = PStmt (CreateTableIfNotExists (table_name m) declared_columns) ->
  (exists e, cursor_execute (create_table_sql m) w = (Raise e, w))
  \/ (exists new,
        cursor_execute (create_table_sql m) w = (Ok None, with_db (w_db w ++ new) w)
        /\ (find_table (table_name m) (w_db w ++ new) <> None
            \/ find_view (table_name m) (w_views w) <> None)).
Proof.
  intros Hp. unfold cursor_execute, sqlite_execute, sqlite_model.
  rewrite Hp. cbn [exec_stmt].
  destruct (find_table (table_name m) (w_db w)) as [t |] eqn:Hfind.
  - right. exists []. rewrite app_nil_r, with_db_same, Hfind. cbn [fst snd].
    rewrite with_database_same. split; [reflexivity | left; discriminate].
  - destruct (find_view (table_name m) (w_views w)) as [v |] eqn:Hview.
    + right. exists []. rewrite app_nil_r, with_db_same. cbn [fst snd].
      rewrite with_database_same. split; [reflexivity | right; discriminate].
    + destruct (index_named (table_name m) (w_db w)).
      * left. eexists. cbn [fst snd]. rewrite with_database_same. reflexivity.
      * right. eexists. split; [reflexivity |].
        left. rewrite find_table_app, Hfind. simpl. rewrite ieqb_refl. discriminate.
Qed.

Lemma create_months_outcome (ms : list string) :
  Forall (fun m => parse_sql (create_table_sql m)
                   = PStmt (CreateTableIfNotExists (table_name m) declared_columns)) ms ->
  forall w w',
    fold_right (fun month rest => cursor_execute (create_table_sql month) ;; rest)%py
               (ret tt) ms w = (Ok tt, w') ->
    w_views w' = w_views w
    /\ (exists new, w_db w' = w_db w ++ new)
    /\ (forall m, In m ms ->
          find_table (table_name m) (w_db w') <> None
          \/ find_view (table_name m) (w_views w) <> None).
Proof.
  induction 1 as [| m ms Hm _ IH]; intros w w' Hrun; simpl in Hrun.
  - unfold ret in Hrun. injection Hrun as <-.
    split; [reflexivity |]. split; [exists []; now rewrite app_nil_r | intros m []].
  - destruct (cursor_execute_create_outcome m w Hm) as [[e He] | (new & He & Hm')].
    + rewrite (bind_raise _ _ _ _ _ He) in Hrun. discriminate.
    + rewrite (bind_ok _ _ _ _ _ He) in Hrun.
      destruct (IH _ _ Hrun) as (Hviews & (new' & Hdb) & Hall).
      cbn [w_db w_views with_db] in Hviews, Hdb, Hall.
      split; [exact Hviews |].
      split; [exists (new ++ new'); now rewrite app_assoc |].
      intros m0 [<- | Hin]; [| now apply Hall].
      destruct Hm' as [Hfound | Hview]; [left | now right].
      rewrite Hdb, find_table_app.
      destruct (find_table (table_name m) (w_db w ++ new)); [discriminate | congruence].
Qed.

(** X3. A run of the script that ends normally, in whatever mode and
    with whatever input, has passed [init_db] on the last line: each of
    the 12 month names then stands for a table, or for a view where a
    view had taken the name ([CREATE TABLE IF NOT EXISTS] leaves a view
    alone). *)
Theorem script_leaves_month_tables (i : inputs) (w w' : world) :
  script i w = (Ok tt, w') ->
  forall m, In m months ->
    (exists t, find_table (table_name m) (w_db w') = Some t)
    \/ (exists v, find_view (table_name m) (w_views w') = Some v).
Proof.
  intros Hrun m Hin. rewrite script_run in Hrun.
  destruct (dispatch i _) as [[[] | e] w1]; [| discriminate].
  destruct (create_months_outcome months parse_create_months w1 w' Hrun)
    as (Hviews & _ & Hall).
  destruct (Hall m Hin) as [Hfound | Hview].
  - left. now apply found_table.
  - right. rewrite Hviews. now apply found_view.
Qed.

(** *** Generate on a month table, and View after it *)

Lemma months_are_words (m : string) :
  In m months -> forallb_string is_word_char m = true.
Proof.
  intros H. simpl in H.
  repeat (destruct H as [<- | H]; [reflexivity |]). contradiction.
Qed.

Lemma table_stored_append_rows (name n : string) (new : list (list value)) (db : store) :
  table_stored n (append_rows name new db) = table_stored n db.
Proof.
  unfold table_stored, append_rows. induction db as [| [n' t'] db IH]; simpl; [reflexivity |].
  rewrite IH. destruct (ieqb name n'); reflexivity.
Qed.

Lemma month_tables_declared_append_rows (name : string) (new : list (list value)) (db : store) :
  month_tables_declared db -> month_tables_declared (append_rows name new db).
Proof.
  intros H m Hin. destruct (H m Hin) as (Hhas & t & Hfind & Hcols).
  split; [now rewrite table_stored_append_rows |].
  rewrite append_rows_find, Hfind. simpl.
  destruct (ieqb name (table_name m)); eexists; split; try reflexivity; exact Hcols.
Qed.

Lemma month_tables_declared_found (db : store) :
  month_tables_declared db ->
  forall m, In m months -> find_table (table_name m) db <> None.
Proof. intros H m Hin. destruct (H m Hin) as (_ & t & -> & _). discriminate. Qed.

Lemma declared_columns_hold_record_keys (c : string) :
  In c record_keys -> existsb (ieqb c) (map fst declared_columns) = true.
Proof.
  intros H. simpl in H.
  repeat (destruct H as [<- | H]; [reflexivity |]). contradiction.
Qed.

(** A Generate run on a database with its month tables. *)
Lemma generate_run (i : inputs) (w : world) (t : table) :
  in_option i = GenerateData -> in_button i = true -> (0 < in_n i)%Z ->
  In (in_month i) months ->
  month_tables_declared (w_db w) ->
  find_table (table_name (in_month i)) (w_db w) = Some t ->
  plain t = true ->
  exists rs g,
    length rs = Z.to_nat (in_n i)
    /\ Forall (generated_record (in_month i)) rs
    /\ script i w
       = (Ok tt,
          mkstate g
            (append_rows (table_name (in_month i))
               (map (stored_row declared_columns record_keys) (map (map snd) rs)) (w_db w))
            (w_views w)
            (w_ui w ++ [Title "Advanced Expense Tracker";
                        Subheader "Generate Expense Data";
                        Success ("Data for " ++ in_month i
                                 ++ " generated and loaded into the database!");
                        DataframeView (head (DataFrame rs))])).
Proof using Type randbelow_range.
  intros Hopt Hb Hn Hin Hdecl Hfind Hplain.
  destruct (Hdecl _ Hin) as (Hhas & t' & Hfind' & Hcols).
  assert (t' = t) by congruence. subst t'.
  destruct (generate_branch_appends i (show [Title "Advanced Expense Tracker"] w) t)
    as (rs & g & Hlen & Hall & Hgen); try assumption.
  { apply word_has_no_nul, months_are_words, Hin. }
  { intros c Hc. rewrite Hcols. now apply declared_columns_hold_record_keys. }
  exists rs, g. split; [exact Hlen |]. split; [exact Hall |].
  assert (Hfound : forall m, In m months ->
            find_table (table_name m)
              (append_rows (table_name (in_month i))
                 (map (stored_row declared_columns record_keys) (map (map snd) rs)) (w_db w))
            <> None).
  { apply month_tables_declared_found. now apply month_tables_declared_append_rows. }
  rewrite script_run. unfold dispatch. rewrite Hopt, Hgen.
  cbn [w_db w_rng w_ui w_views show]. rewrite Hcols.
  rewrite init_db_run by (apply month_names_clear_found; exact Hfound).
  cbn [w_db w_rng w_ui w_views with_db].
  rewrite (ensure_months_fixed _ _ Hfound).
  now rewrite <- app_assoc.
Qed.

(** X4. Generate cannot fail on the month tables [init_db] makes: for
    one of the 12 month names as written in [init_db], a count of at
    least 1 and a database in which every month has its table with the
    declared columns, the month's own table with nothing attached to it
    (no constraint, index or trigger), the run ends normally, the
    month's table has exactly [n] more rows, no row of any table is
    lost, the tables of other names and the views are as they were,
    every month still has its table with the declared columns, and the
    page shows the success message and a preview of the first [min 5 n]
    records. *)
Theorem generate_keeps_month_tables (i : inputs) (w : world) (t : table) :
  in_option i = GenerateData -> in_button i = true -> (0 < in_n i)%Z ->
  In (in_month i) months ->
  month_tables_declared (w_db w) ->
  find_table (table_name (in_month i)) (w_db w) = Some t ->
  plain t = true ->
  exists w' preview,
    script i w = (Ok tt, w')
    /\ month_tables_declared (w_db w')
    /\ row_count (table_name (in_month i)) (w_db w')
       = (row_count (table_name (in_month i)) (w_db w) + Z.to_nat (in_n i))%nat
    /\ extends (w_db w) (w_db w')
    /\ (forall n, ieqb (table_name (in_month i)) n = false ->
          find_table n (w_db w') = find_table n (w_db w))
    /\ w_views w' = w_views w
    /\ w_ui w' = w_ui w ++ [Title "Advanced Expense Tracker";
                            Subheader "Generate Expense Data";
                            Success ("Data for " ++ in_month i
                                     ++ " generated and loaded into the database!");
                            DataframeView preview]
    /\ length (rows preview) = Nat.min 5 (Z.to_nat (in_n i)).
Proof using Type randbelow_range.
  intros Hopt Hb Hn Hin Hdecl Hfind Hplain.
  destruct (generate_run i w t Hopt Hb Hn Hin Hdecl Hfind Hplain)
    as (rs & g & Hlen & Hall & Hrun).
  eexists. exists (head (DataFrame rs)).
  split; [exact Hrun |]. cbn [w_db w_ui w_views].
  split; [now apply month_tables_declared_append_rows |].
  split.
  { rewrite (row_count_append_rows _ _ _ t Hfind), !length_map. f_equal. exact Hlen. }
  split; [apply extends_append_rows |].
  split.
  { intros n Hne. rewrite append_rows_find, Hne.
    destruct (find_table n (w_db w)); reflexivity. }
  split; [reflexivity |].
  split; [reflexivity |].
  destruct (DataFrame_generated_rows (in_month i) rs Hall) as [Hrows _].
  cbn [head rows]. rewrite Hrows, length_firstn, length_map. f_equal. exact Hlen.
Qed.

Lemma generated_amounts_between (g : rng) :
  (50 <= round2 (uniform_of 50 1000 (fst (random_random g))))%Q
  /\ (round2 (uniform_of 50 1000 (fst (random_random g))) <= 1000)%Q
  /\ (0 <= round2 (uniform_of 0 50 (fst (random_random g))))%Q
  /\ (round2 (uniform_of 0 50 (fst (random_random g))) <= 50)%Q.
Proof using Type random_random_range.
  destruct (random_random_range g) as [H0 H1].
  destruct (uniform_of_between 50 1000 _ ltac:(discriminate) H0 H1) as [Ha1 Ha2].
  destruct (uniform_of_between 0 50 _ ltac:(discriminate) H0 H1) as [Hb1 Hb2].
  destruct (round2_between _ 50 1000 Ha1 Ha2) as [Ra1 Ra2].
  destruct (round2_between _ 0 50 Hb1 Hb2) as [Rb1 Rb2].
  auto.
Qed.

(** X5. What is generated is what View shows.  On a database with its
    month tables, Generate for one of the 12 months, whose table has
    nothing attached to it (no constraint, index or trigger), followed
    by View of that month shows the rows the table held before, in
    their order, followed by the [n] new records: each with its date as
    ISO text, a category and a payment mode from the fixed lists, its
    description, an amount in [50, 1000], a cashback in [0, 50] and the
    month.  The View run changes nothing in the database. *)
Theorem generate_then_view_shows_batch
    (m : string) (n k : Z) (q1 qn1 q2 qn2 : string) (w : world) (t : table) :
  In m months -> (0 < n)%Z ->
  month_tables_declared (w_db w) ->
  find_table (table_name m) (w_db w) = Some t ->
  plain t = true ->
  exists w1 w2 new,
    script (mkinputs GenerateData m n true q1 qn1) w = (Ok tt, w1)
    /\ script (mkinputs ViewData m k true q2 qn2) w1 = (Ok tt, w2)
    /\ w_ui w2 = w_ui w1 ++ [Title "Advanced Expense Tracker";
                             Subheader "View Expense Data";
                             DataframeView (mkframe (map fst declared_columns)
                                              (tbl_rows t ++ new))]
    /\ length new = Z.to_nat n
    /\ Forall (fun row =>
                 exists d c p tx a b,
                   row = [VText (isoformat d); VText c; VText p; VText tx;
                          VReal a; VReal b; VText m]
                   /\ In c categories /\ In p payment_modes
                   /\ (50 <= a)%Q /\ (a <= 1000)%Q /\ (0 <= b)%Q /\ (b <= 50)%Q)
              new
    /\ w_db w2 = w_db w1 /\ w_views w2 = w_views w1.
Proof using Type random_random_range randbelow_range.
  intros Hin Hn Hdecl Hfind Hplain.
  set (i1 := mkinputs GenerateData m n true q1 qn1).
  destruct (generate_run i1 w t eq_refl eq_refl Hn Hin Hdecl Hfind Hplain)
    as (rs & g & Hlen & Hall & Hrun).
  cbn [in_month in_n i1] in Hrun, Hlen, Hall.
  set (new := map (stored_row declared_columns record_keys) (map (map snd) rs)) in *.
  set (db1 := append_rows (table_name m) new (w_db w)) in *.
  destruct (Hdecl _ Hin) as (_ & t' & Hfind' & Hcols).
  assert (t' = t) by congruence. subst t'.
  assert (Hfind1 : find_table (table_name m) db1 = Some (add_rows new t)).
  { unfold db1. rewrite append_rows_find, Hfind. simpl. now rewrite ieqb_refl. }
  assert (Hfound : forall m', In m' months -> find_table (table_name m') db1 <> None).
  { apply month_tables_declared_found. now apply month_tables_declared_append_rows. }
  assert (Hfix : ensure_months months db1 = db1) by now apply ensure_months_fixed.
  eexists. eexists. exists new.
  split; [exact Hrun |].
  split.
  { rewrite script_run. cbn [dispatch in_option].
    unfold view_branch, bind at 1, render at 1. cbn [in_button in_month].
    unfold try_except, bind.
    rewrite (query_data_select m _ (add_rows new t));
      [| apply months_are_words, Hin | exact Hfind1].
    unfold render.
    rewrite init_db_run by (apply month_names_clear_found; exact Hfound).
    cbn [w_db with_db show w_rng w_ui w_views]. rewrite Hfix. reflexivity. }
  cbn [w_ui w_db w_views with_db show w_rng tbl_cols tbl_rows add_rows].
  split; [rewrite Hcols; now rewrite <- !app_assoc |].
  split; [unfold new; rewrite !length_map; exact Hlen |].
  split; [| split; reflexivity].
  unfold new. rewrite map_map. apply Forall_map.
  eapply Forall_impl; [| exact Hall].
  intros r (d & c & p & tx & g1 & g2 & -> & Hc & Hp).
  destruct (generated_amounts_between g1) as (Ha1 & Ha2 & _).
  destruct (generated_amounts_between g2) as (_ & _ & Hb1 & Hb2).
  exists d, c, p, tx. eexists. eexists.
  split; [reflexivity |]. auto 10.
Qed.

(** *** View *)

Lemma view_branch_keeps_state (i : inputs) (w : world) :
  forallb_string is_word_char (in_month i) = true ->
  find_view (table_name (in_month i)) (w_views w) = None ->
  exists es, view_branch i w = (Ok tt, show es w).
Proof.
  intros Hw Hview. unfold view_branch, bind at 1, render at 1.
  destruct (in_button i).
  - unfold try_except, bind.
    destruct (find_table (table_name (in_month i)) (w_db w)) as [t |] eqn:Hfind.
    + rewrite (query_data_select (in_month i) (show _ w) t Hw Hfind).
      unfold render. rewrite show_show. eexists. reflexivity.
    + rewrite (query_data_missing (in_month i) (show _ w) Hw Hfind Hview).
      unfold render. rewrite show_show. eexists. reflexivity.
  - unfold ret. eexists. reflexivity.
Qed.

(** X6. View only reads.  For a month label made of identifier
    characters whose name [expenses_<month>] is not that of a view, on
    a database where nothing hinders [init_db], whether or not the
    button is pressed and whether or not the month has a table: the run
    ends normally and every table found before is found after it with
    the same columns and rows; the database grows only by what
    [init_db] adds on the last line, empty tables with the declared
    columns; the views and the generators are untouched. *)
Theorem view_changes_no_row (i : inputs) (w : world) :
  in_option i = ViewData ->
  forallb_string is_word_char (in_month i) = true ->
  find_view (table_name (in_month i)) (w_views w) = None ->
  month_names_clear (w_db w) (w_views w) ->
  exists w' new,
    script i w = (Ok tt, w')
    /\ w_db w' = w_db w ++ new
    /\ Forall (fun e => snd e = mktable declared_columns []) new
    /\ (forall name t, find_table name (w_db w) = Some t ->
          find_table name (w_db w') = Some t)
    /\ w_views w' = w_views w
    /\ w_rng w' = w_rng w.
Proof.
  intros Hopt Hw Hview Hclear.
  destruct (view_branch_keeps_state i (show [Title "Advanced Expense Tracker"] w) Hw Hview)
    as [es Hview'].
  destruct (ensure_months_grows months (w_db w)) as (new & Hnew & Hall).
  eexists. exists new.
  split.
  { rewrite script_run. unfold dispatch. rewrite Hopt, Hview'.
    rewrite init_db_run by exact Hclear. reflexivity. }
  cbn [w_db w_rng w_views with_db show].
  split; [exact Hnew |]. split; [exact Hall |].
  split; [intros name t; apply ensure_months_keeps | split; reflexivity].
Qed.



(** *** The custom-query box and the last line of the script *)

Lemma query_data_drop (m : string) (w : world) (t : table) :
  forallb_string is_word_char m = true ->
  find_table (table_name m) (w_db w) = Some t ->
  query_data ("DROP TABLE expenses_" ++ m) w
  = (Raise (mkexn TypeError "'NoneType' object is not iterable"),
     with_db (drop_table (table_name m) (w_db w)) w).
Proof.
  intros Hw Hfind. rewrite query_data_run.
  rewrite (sqlite_execute_stmt _ _ (w_db w) _ _ (parse_drop_table m Hw)
             ltac:(simpl; rewrite Hfind; reflexivity)).
  reflexivity.
Qed.

Lemma index_named_drop_table (name n : string) (db : store) :
  index_named n db = false -> index_named n (drop_table name db) = false.
Proof.
  unfold index_named, drop_table.
  induction db as [| [n' t] db IH]; simpl; [reflexivity |].
  intros H. apply orb_false_iff in H. destruct H as [H1 H2].
  destruct (negb (ieqb name n')); simpl; [rewrite H1 |]; now apply IH.
Qed.

(** X8. Dropping a month's table in the custom-query box loses its rows
    and nothing else of it.  Where no view and no index bears the name
    of a month's table: the run shows the error pandas raises for a
    statement without a result set and ends normally, and [init_db] on
    the last line has put the table back, with the declared columns and
    no rows. *)
Theorem dropped_month_table_comes_back_empty (i : inputs) (w : world) (m : string) (t : table) :
  In m months ->
  in_option i = RunSQLQuery -> in_button i = true ->
  in_query i = ("DROP TABLE expenses_" ++ m)%string ->
  find_table (table_name m) (w_db w) = Some t ->
  (forall m', In m' months -> name_free (table_name m') (w_db w) (w_views w) = true) ->
  exists w',
    script i w = (Ok tt, w')
    /\ find_table (table_name m) (w_db w') = Some (mktable declared_columns [])
    /\ w_ui w' = w_ui w ++ [Title "Advanced Expense Tracker";
                            Subheader "Run Custom SQL Query";
                            ErrorBox "An error occurred: 'NoneType' object is not iterable"].
Proof.
  intros Hin Hopt Hb Hq Hfind Hfree.
  eexists. split.
  { rewrite script_run. unfold dispatch. rewrite Hopt.
    unfold run_sql_branch, bind at 1, render at 1. rewrite Hb, Hq.
    unfold try_except, bind.
    rewrite (query_data_drop m (show _ (show _ w)) t (months_are_words m Hin) Hfind).
    unfold render. rewrite init_db_run; [reflexivity |].
    intros m' Hm' _. cbn [w_db w_views show with_db].
    destruct (name_free_spec _ _ _ (Hfree m' Hm')) as [Hv Hi].
    unfold name_free. now rewrite Hv, index_named_drop_table. }
  cbn [w_db w_ui with_db show].
  split.
  - apply ensure_months_new; [exact Hin | apply find_table_drop].
  - now rewrite <- !app_assoc.
Qed.

(** *** Top 5 on any number of rows *)


(** *** Visualize Insights *)

Lemma parse_visualize (m : string) :
  parse_sql ("SELECT Category, SUM(Amount_Paid) AS Total_Spent FROM expenses_"
             ++ m ++ " GROUP BY Category") = PUnmodelled.
Proof.
  unfold parse_sql, tokenize.
  change (tokenize_from ""
            ("SELECT Category, SUM(Amount_Paid) AS Total_Spent FROM expenses_"
             ++ m ++ " GROUP BY Category") 0)
    with (TWord "SELECT" :: TWord "Category" :: TSym ","
            :: [TWord "SUM"; TSym "("; TWord "Amount_Paid"; TSym ")"; TWord "AS";
                TWord "Total_Spent"; TWord "FROM"]
            ++ tokenize_from "expenses_" (m ++ " GROUP BY Category") 0).
  destruct (existsb is_nul_token _); reflexivity.
Qed.

Lemma index_of_existsb (col : string) (cols : list string) (k : nat) :
  index_of (String.eqb col) cols = Some k -> existsb (String.eqb col) cols = true.
Proof.
  revert k. induction cols as [| c cols IH]; simpl; [discriminate |].
  intros k. destruct (String.eqb col c); [reflexivity |].
  destruct (index_of (String.eqb col) cols) as [j |]; [| discriminate].
  intros _. now apply (IH j).
Qed.

(** X10. Visualize Insights queries on every run in that mode, without
    a button.  Its statement groups by category, which the engine
    [sqlite_other] answers.  Whenever the answer is a frame with the
    columns Category and Total_Spent and the two chart calls do not
    fail, the page shows the bar chart indexed by Category and the pie
    chart whose sizes are the Total_Spent column and whose labels are
    the Category column, and the database is the one the engine leaves.
    Whenever the engine raises, the page shows the error instead,
    wrapped by pandas and followed by the hint to generate data, and the
    branch returns normally. *)
Theorem visualize_shows_charts (i : inputs) (w : world) :
  let q := ("SELECT Category, SUM(Amount_Paid) AS Total_Spent FROM expenses_"
            ++ in_month i ++ " GROUP BY Category")%string in
  (forall f d kt kc,
      sqlite_other (Statement q) (w_db w) (w_views w) = (Ok (Some f), d) ->
      index_of (String.eqb "Total_Spent") (columns f) = Some kt ->
      index_of (String.eqb "Category") (columns f) = Some kc ->
      chart_error (BarChart "Category" f) = None ->
      chart_error (PieChart (map (fun r => nth kt r VNull) (rows f))
                            (map (fun r => nth kc r VNull) (rows f))) = None ->
      visualize_branch i w
      = (Ok tt,
         mkstate (w_rng w) (fst d) (snd d)
           (w_ui w ++ [Subheader "Spending Insights"; BarChart "Category" f;
                       PieChart (map (fun r => nth kt r VNull) (rows f))
                                (map (fun r => nth kc r VNull) (rows f))])))
  /\ (forall e d,
        sqlite_other (Statement q) (w_db w) (w_views w) = (Raise e, d) ->
        visualize_branch i w
        = (Ok tt,
           mkstate (w_rng w) (fst d) (snd d)
             (w_ui w ++ [Subheader "Spending Insights";
                         ErrorBox ("Error: Execution failed on sql '" ++ q ++ "': "
                                   ++ exn_str e ++ ". Ensure data exists for "
                                   ++ in_month i ++ ".")]))).
Proof.
  intros q.
  assert (Hexec : forall db vs, sqlite_execute q db vs = sqlite_other (Statement q) db vs).
  { intros db vs. unfold sqlite_execute, sqlite_model, q.
    now rewrite parse_visualize. }
  split.
  - intros f d kt kc Hq Hkt Hkc Hbar Hpie.
    unfold visualize_branch, bind at 1, render at 1.
    unfold try_except. fold q.
    rewrite (bind_ok _ _ _ (with_database d (show [Subheader "Spending Insights"] w)) f).
    2:{ rewrite query_data_run, Hexec. cbn [w_db w_views show]. rewrite Hq. reflexivity. }
    unfold set_index. rewrite (index_of_existsb _ _ _ Hkc).
    unfold bind at 1, ret at 1.
    unfold render_chart at 1. rewrite Hbar.
    unfold bind at 1, render at 1.
    unfold getitem. rewrite Hkt, Hkc.
    unfold bind at 1, ret at 1. unfold bind at 1, ret at 1.
    unfold render_chart. rewrite Hpie.
    unfold render, show, with_database. cbn [w_rng w_db w_views w_ui].
    now rewrite <- !app_assoc.
  - intros e d He.
    unfold visualize_branch, bind at 1, render at 1.
    unfold try_except. fold q.
    rewrite (bind_raise _ _ _ (with_database d (show [Subheader "Spending Insights"] w))
               (mkexn DatabaseError
                  ("Execution failed on sql '" ++ q ++ "': " ++ exn_str e))).
    2:{ rewrite query_data_run, Hexec. cbn [w_db w_views show]. rewrite He. reflexivity. }
    unfold render, show, with_database. cbn [w_rng w_db w_views w_ui exn_str].
    rewrite <- !app_assoc. cbn [app].
    now rewrite !append_assoc_string.
Qed.

(** *** init_db and the month tables *)

Lemma ieqb_table_name (a b : string) : ieqb (table_name a) (table_name b) = ieqb a b.
Proof. reflexivity. Qed.

Lemma table_stored_app (n : string) (db l : store) :
  table_stored n (db ++ l) = table_stored n db || table_stored n l.
Proof. unfold table_stored. apply existsb_app. Qed.

Lemma ensure_months_table_stored (ms : list string) (n : string) (db : store) :
  table_stored n db = true -> table_stored n (ensure_months ms db) = true.
Proof.
  intros H. destruct (ensure_months_grows ms db) as (new & -> & _).
  now rewrite table_stored_app, H.
Qed.

Lemma ensure_months_stores (ms : list string) :
  distinct_names ms = true ->
  forall db m, In m ms -> find_table (table_name m) db = None ->
    table_stored (table_name m) (ensure_months ms db) = true.
Proof.
  induction ms as [| m' ms IH]; intros Hd db m Hin Hnone; [contradiction |].
  simpl in Hd. apply andb_prop in Hd. destruct Hd as [Hfresh Hd].
  apply negb_true_iff in Hfresh.
  simpl. destruct Hin as [-> | Hin].
  - apply ensure_months_table_stored. unfold ensure_table. rewrite Hnone.
    rewrite table_stored_app. simpl. now rewrite String.eqb_refl, orb_true_r.
  - apply (IH Hd); [exact Hin |].
    unfold ensure_table.
    destruct (find_table (table_name m') db); [exact Hnone |].
    rewrite find_table_app, Hnone. simpl.
    rewrite ieqb_table_name, ieqb_sym.
    replace (ieqb m' m) with false; [reflexivity |].
    symmetry. destruct (ieqb m' m) eqn:E; [| reflexivity].
    rewrite <- Hfresh. symmetry. apply existsb_exists. exists m. auto.
Qed.

(** X11. [init_db] sets up what Generate relies on: on a database in
    which each month's name resolves to no table and is taken by
    neither a view nor an index, or to a table stored under [init_db]'s
    own spelling with the declared columns, the database after
    [init_db] has every month's table under that spelling with the
    declared columns. *)
Theorem init_db_declares_month_tables (w : world) :
  (forall m, In m months ->
     match find_table (table_name m) (w_db w) with
     | None => name_free (table_name m) (w_db w) (w_views w) = true
     | Some t => table_stored (table_name m) (w_db w) = true /\ tbl_cols t = declared_columns
     end) ->
  fst (init_db w) = Ok tt
  /\ month_tables_declared (w_db (snd (init_db w))).
Proof.
  intros H.
  assert (Hclear : month_names_clear (w_db w) (w_views w)).
  { intros m Hin Hnone. specialize (H m Hin). now rewrite Hnone in H. }
  rewrite (init_db_run w Hclear). split; [reflexivity |].
  intros m Hin. cbn [snd w_db with_db].
  specialize (H m Hin).
  destruct (find_table (table_name m) (w_db w)) as [t |] eqn:Hfind.
  - destruct H as [Hhas Hcols]. split; [now apply ensure_months_table_stored |].
    exists t. split; [now apply ensure_months_keeps | exact Hcols].
  - split; [apply ensure_months_stores; auto |].
    exists (mktable declared_columns []). split; [| reflexivity].
    now apply ensure_months_new.
Qed.

(** *** A month label without a table *)

Lemma generated_frame_month_type (month : string) (r : record) (rs : list record) :
  generated_record month r ->
  pandas_sql_type (mkframe record_keys (map (map snd) (r :: rs))) 6 = "TEXT".
Proof. intros (d & c & p & t & g1 & g2 & -> & _). reflexivity. Qed.

Lemma stored_month_cell (month : string) (f : frame) (r : record) :
  columns f = record_keys ->
  pandas_sql_type f 6 = "TEXT" ->
  generated_record month r ->
  cell record_keys "Month" (stored_row (create_columns f) record_keys (map snd r))
  = Some (VText month).
Proof.
  intros Hcols Hty (d & c & p & t & g1 & g2 & -> & _).
  unfold create_columns. rewrite Hcols. cbn. rewrite Hty. reflexivity.
Qed.

Lemma month_names_clear_snoc (db : store) (vs : views) (n : string)
    (cols : list (string * string)) (rs : list (list value)) :
  month_names_clear db vs -> month_names_clear (db ++ [(n, mktable cols rs)]) vs.
Proof.
  intros H m Hin Hnone. rewrite name_free_snoc. apply (H m Hin).
  rewrite find_table_app in Hnone.
  destruct (find_table (table_name m) db); [discriminate | reflexivity].
Qed.

(** X12. A label that has no table can be used at once.  For a month
    label made of identifier characters whose name [expenses_<month>]
    is taken by nothing (no table, no view, no index), a count of at
    least 1, and a database where nothing hinders [init_db]: Generate
    ends normally, having created the table with the seven columns of
    the batch; View of that label then shows a frame with these seven
    columns and exactly [n] rows, each with Month equal to the label;
    the tables the database held before are found unchanged. *)
Theorem generate_then_view_new_label
    (m : string) (n k : Z) (q1 qn1 q2 qn2 : string) (w : world) :
  forallb_string is_word_char m = true -> (0 < n)%Z ->
  find_table (table_name m) (w_db w) = None ->
  name_free (table_name m) (w_db w) (w_views w) = true ->
  month_names_clear (w_db w) (w_views w) ->
  exists w1 w2 f,
    script (mkinputs GenerateData m n true q1 qn1) w = (Ok tt, w1)
    /\ script (mkinputs ViewData m k true q2 qn2) w1 = (Ok tt, w2)
    /\ w_ui w2 = w_ui w1 ++ [Title "Advanced Expense Tracker";
                             Subheader "View Expense Data"; DataframeView f]
    /\ columns f = record_keys
    /\ length (rows f) = Z.to_nat n
    /\ Forall (fun row => cell (columns f) "Month" row = Some (VText m)) (rows f)
    /\ (forall name t, find_table name (w_db w) = Some t ->
          find_table name (w_db w2) = Some t).
Proof using Type randbelow_range.
  intros Hw Hn Hnone Hfree Hclear.
  set (title := Title "Advanced Expense Tracker").
  set (w0 := show [title; Subheader "Generate Expense Data"] w).
  destruct (generate_data_spec m n w0) as (rs & g & Hgen & Hlen & Hall).
  assert (Hne : rs <> []) by (intros ->; simpl in Hlen; lia).
  pose proof (DataFrame_generated m rs Hall Hne) as Hframe.
  set (f := DataFrame rs) in *.
  assert (Hcols : columns f = record_keys) by (now rewrite Hframe).
  assert (Hrows : rows f = map (map snd) rs) by (now rewrite Hframe).
  set (stored := map (stored_row (create_columns f) (columns f)) (rows f)).
  set (tbl := mktable (create_columns f) stored).
  set (db1 := w_db w ++ [(table_name m, tbl)]).
  assert (Hload : load_data_to_db f m (with_rng g w0) = (Ok tt, with_db db1 (with_rng g w0))).
  { rewrite load_data_to_db_run.
    change (w_db (with_rng g w0)) with (w_db w).
    change (w_views (with_rng g w0)) with (w_views w).
    rewrite (to_sql_append_absent (table_name m) f (w_db w) (w_views w));
      [reflexivity | | exact Hnone | exact Hfree | | ].
    - rewrite Hcols. cbn [forallb].
      now rewrite (valid_table_name m (word_has_no_nul m Hw)).
    - rewrite Hcols. discriminate.
    - rewrite Hcols. reflexivity. }
  assert (Hfind1 : find_table (table_name m) (ensure_months months db1) = Some tbl).
  { apply ensure_months_keeps. unfold db1.
    rewrite find_table_app, Hnone. simpl. now rewrite ieqb_refl. }
  exists (with_db (ensure_months months db1)
            (show [Success ("Data for " ++ m ++ " generated and loaded into the database!");
                   DataframeView (head f)] (with_rng g w0))).
  eexists. exists (mkframe (map fst (create_columns f)) stored).
  split.
  { rewrite script_run. cbn [dispatch in_option].
    unfold generate_branch, bind at 1, render at 1. cbn [in_button in_month in_n].
    rewrite show_show. fold title w0.
    rewrite (bind_ok _ _ _ _ _ Hgen).
    rewrite (bind_ok _ _ _ _ _ Hload).
    unfold bind, render.
    rewrite init_db_run by (apply month_names_clear_snoc; exact Hclear).
    rewrite show_show. reflexivity. }
  split.
  { rewrite script_run. cbn [dispatch in_option].
    unfold view_branch, bind at 1, render at 1. cbn [in_button in_month].
    unfold try_except, bind.
    rewrite (query_data_select m _ tbl Hw); [| exact Hfind1].
    unfold render. rewrite init_db_run by apply month_names_clear_ensured.
    cbn [w_db with_db show w_rng w_ui w_views].
    rewrite ensure_months_idempotent. reflexivity. }
  cbn [w_ui w_db w_views with_db show w_rng tbl_cols tbl_rows tbl rows columns].
  split; [now rewrite <- !app_assoc |].
  rewrite map_fst_create_columns.
  split; [exact Hcols |].
  split; [unfold stored; rewrite length_map, Hrows, length_map; exact Hlen |].
  split.
  - unfold stored. rewrite Hcols, Hrows, map_map. apply Forall_map.
    destruct rs as [| r0 rs0]; [congruence |].
    assert (Hty : pandas_sql_type f 6 = "TEXT").
    { rewrite Hframe. apply (generated_frame_month_type m).
      now inversion Hall. }
    eapply Forall_impl; [| exact Hall].
    intros r Hr. now apply (stored_month_cell m f r).
  - intros name t Ht. apply ensure_months_keeps. unfold db1. now rewrite find_table_app, Ht.
Qed.

End Script.

(** ** The model at work on concrete inputs *)

Lemma demo_randbelow_range (n : nat) (g : Demo.rng) :
  (0 < n)%nat -> (fst (Demo.randbelow n g) < n)%nat.
Proof. intros H. simpl. apply Nat.mod_upper_bound. lia. Qed.

Lemma demo_random_random_range (g : Demo.rng) :
  (0 <= fst (Demo.random_random g))%Q /\ (fst (Demo.random_random g) < 1)%Q.
Proof.
  unfold Demo.random_random. cbn [fst].
  set (k := Nat.modulo (37 * g) 100).
  assert (H : (k < 100)%nat) by (apply Nat.mod_upper_bound; lia).
  unfold Qle, Qlt. cbn [Qnum Qden]. split; lia.
Qed.

Example parse_select :
  parse_sql "SELECT * FROM expenses_January" = PStmt (SelectAll "expenses_January").
Proof. reflexivity. Qed.

Example parse_top5_any_case :
  parse_sql "select * from expenses_May ORDER BY Amount_Paid DESC LIMIT 5"
  = PStmt (SelectAllOrderDescLimit "expenses_May" "Amount_Paid" 5).
Proof. reflexivity. Qed.

Example parse_drop :
  parse_sql "DROP TABLE expenses_January" = PStmt (DropTable "expenses_January").
Proof. reflexivity. Qed.

Example parse_typo : parse_sql "SELEC * FROM expenses_January" = PSyntaxError "SELEC".
Proof. reflexivity. Qed.

Example parse_aggregate :
  parse_sql "SELECT Category, SUM(Amount_Paid) AS Total_Spent FROM expenses_May GROUP BY Category"
  = PUnmodelled.
Proof. reflexivity. Qed.

Example parse_alias : parse_sql "SELECT * FROM expenses_x y" = PUnmodelled.
Proof. reflexivity. Qed.

(** A misspelt second keyword: SQLite stops at the word it cannot use. *)
Example parse_misspelt_keyword :
  parse_sql "SELECT * FORM expenses_January" = PSyntaxError "FORM"
  /\ parse_sql "DROP TABEL expenses_January" = PSyntaxError "TABEL"
  /\ parse_sql "create tabel expenses_January (Amount REAL)" = PSyntaxError "tabel"
  /\ parse_sql "SELECT * x'53514c'" = PUnmodelled.
Proof. repeat split; reflexivity. Qed.

Example parse_blob_literal :
  parse_sql "x'53514c'" = PUnmodelled /\ parse_sql "xy'53514c'" = PSyntaxError "xy".
Proof. split; reflexivity. Qed.

(** A byte-order mark before a token is skipped; inside a word it is
    part of the word. *)
Example parse_after_bom :
  parse_sql (bom ++ "SELECT * FROM " ++ bom ++ "expenses_January")
  = PStmt (SelectAll "expenses_January")
  /\ parse_sql ("SELECT" ++ bom ++ " * FROM expenses_January")
     = PSyntaxError ("SELECT" ++ bom).
Proof. split; reflexivity. Qed.

Example round2_half_even : round2 (Qmake 10125 1000) = Qmake 1012 100.
Proof. reflexivity. Qed.

Example replace_twice : replace "ab" "X" "abcabab" = "XcXX".
Proof. reflexivity. Qed.

Example isoformat_pads : isoformat (mkdate 2024 3 7) = "2024-03-07".
Proof. reflexivity. Qed.

(** A database of tables with nothing attached and without views has
    no index, so that nothing hinders [init_db] on it. *)
Lemma plain_store_no_index (name : string) (db : store) :
  forallb (fun e => plain (snd e)) db = true -> index_named name db = false.
Proof.
  unfold index_named. induction db as [| [n t] db IH]; simpl; [reflexivity |].
  intros H. apply andb_prop in H. destruct H as [Ht Hdb].
  rewrite (IH Hdb), orb_false_r. unfold plain in Ht.
  destruct (tbl_attached t); [reflexivity | discriminate].
Qed.

Lemma plain_store_names_free (db : store) (name : string) :
  forallb (fun e => plain (snd e)) db = true -> name_free name db [] = true.
Proof. intros H. unfold name_free. simpl. now rewrite plain_store_no_index. Qed.

Lemma plain_store_clear (db : store) :
  forallb (fun e => plain (snd e)) db = true -> month_names_clear db [].
Proof. intros H m _ _. now apply plain_store_names_free. Qed.

(** *** Instances of the theorems *)


Lemma generate_data_amounts_witness :
  (forall g, (0 <= fst (Demo.random_random g))%Q /\ (fst (Demo.random_random g) < 1)%Q)
  /\ (forall n g, (0 < n)%nat -> (fst (Demo.randbelow n g) < n)%nat)
  /\ exists f w',
       generate_data Demo.rng Demo.random_random Demo.randbelow Demo.date_this_year
         Demo.fake_text "March" 3 (mkworld Demo.rng 7%nat [] []) = (Ok f, w')
       /\ Forall (fun row =>
                    exists a b,
                      cell (columns f) "Amount_Paid" row = Some (VReal a)
                      /\ (50 <= a)%Q /\ (a <= 1000)%Q
                      /\ cell (columns f) "Cashback" row = Some (VReal b)
                      /\ (0 <= b)%Q /\ (b <= 50)%Q)
                 (rows f).
Proof.
  split; [exact demo_random_random_range |].
  split; [exact demo_randbelow_range |].
  exact (generate_data_amounts Demo.rng Demo.random_random Demo.randbelow
           Demo.date_this_year Demo.fake_text demo_random_random_range
           demo_randbelow_range "March" 3 (mkworld Demo.rng 7%nat [] [])).
Defined.

Lemma init_db_idempotent_witness :
  let paid := [VText "2024-03-07"; VText "Food"; VText "Cash"; VText "Paid.";
               VReal 75; VReal 2; VText "March"] in
  let w := mkworld Demo.rng 0%nat [("expenses_March", mktable declared_columns [paid])] [] in
  wf_store (w_db Demo.rng w)
  /\ month_names_clear (w_db Demo.rng w) (w_views Demo.rng w)
  /\ fst (init_db Demo.rng Demo.sqlite_other w) = Ok tt
  /\ Nat.iter 3 (fun w0 => snd (init_db Demo.rng Demo.sqlite_other w0)) w
     = snd (init_db Demo.rng Demo.sqlite_other w)
  /\ count_tables (table_name "March") (w_db Demo.rng (snd (init_db Demo.rng Demo.sqlite_other w)))
     = 1%nat
  /\ find_table (table_name "March") (w_db Demo.rng (snd (init_db Demo.rng Demo.sqlite_other w)))
     = Some (mktable declared_columns [paid])
  /\ find_table (table_name "May") (w_db Demo.rng (snd (init_db Demo.rng Demo.sqlite_other w)))
     = Some (mktable declared_columns []).
Proof.
  intros paid w.
  assert (Hwf : wf_store (w_db Demo.rng w)).
  { unfold wf_store. simpl. constructor; [intros [] | constructor]. }
  assert (Hclear : month_names_clear (w_db Demo.rng w) (w_views Demo.rng w)).
  { apply plain_store_clear. reflexivity. }
  destruct (init_db_idempotent Demo.rng Demo.sqlite_other w Hwf Hclear)
    as (Hok & Hiter & _ & Hmonths & _).
  split; [exact Hwf |].
  split; [exact Hclear |].
  split; [exact (Hok 0%nat) |].
  split; [exact (Hiter 2%nat) |].
  destruct (Hmonths "March" ltac:(do 2 right; left; reflexivity)) as [Hc Hf].
  destruct (Hmonths "May" ltac:(do 4 right; left; reflexivity)) as [_ Hf'].
  split; [exact Hc |]. split; [exact Hf | exact Hf'].
Defined.

Lemma load_data_to_db_additive_witness :
  let paid := [VDate (mkdate 2024 1 5); VText "Food"; VText "Cash"; VText "Paid.";
               VReal 75; VReal 2; VText "January"] in
  let batch := mkframe record_keys [paid; paid] in
  let w := mkworld Demo.rng 0%nat (ensure_months months []) [] in
  plainly_writable (table_name "January") (w_db Demo.rng w) (w_views Demo.rng w) = true
  /\ forallb valid_sqlite_name (table_name "January" :: columns batch) = true
  /\ table_stored (table_name "January") (w_db Demo.rng w) = true
  /\ extends (w_db Demo.rng w)
       (w_db Demo.rng (snd (load_data_to_db Demo.rng Demo.sqlite_other Demo.sqlite_convert
                              batch "January" w)))
  /\ exists w',
       load_data_to_db Demo.rng Demo.sqlite_other Demo.sqlite_convert batch "January" w
       = (Ok tt, w')
       /\ row_count (table_name "January") (w_db Demo.rng w')
          = (row_count (table_name "January") (w_db Demo.rng w) + 2)%nat.
Proof.
  intros paid batch w.
  assert (Hw : plainly_writable (table_name "January") (w_db Demo.rng w) (w_views Demo.rng w)
               = true) by reflexivity.
  assert (Hvalid : forallb valid_sqlite_name (table_name "January" :: columns batch) = true)
    by reflexivity.
  assert (Hhas : table_stored (table_name "January") (w_db Demo.rng w) = true) by reflexivity.
  destruct (load_data_to_db_additive Demo.rng Demo.sqlite_other Demo.sqlite_convert
              batch "January" w Hw) as ((Hext & _) & Hadd).
  split; [exact Hw |]. split; [exact Hvalid |]. split; [exact Hhas |].
  split; [exact Hext |].
  destruct (Hadd Hvalid) as (w' & Hrun & Hcount & _).
  - intros t c Ht Hc. vm_compute in Ht. injection Ht as <-.
    simpl in Hc.
    repeat (destruct Hc as [<- | Hc]; [reflexivity |]). contradiction.
  - left. exact Hhas.
  - exists w'. split; [exact Hrun | exact Hcount].
Defined.

Lemma load_data_to_db_creates_witness :
  let paid := [VDate (mkdate 2024 1 5); VText "Food"; VText "Cash"; VText "Paid.";
               VReal 75; VReal 2; VText "Smarch"] in
  let batch := mkframe record_keys [paid] in
  let w := mkworld Demo.rng 0%nat (ensure_months months []) [] in
  ~ In "Smarch" months
  /\ forallb valid_sqlite_name (table_name "Smarch" :: columns batch) = true
  /\ find_table (table_name "Smarch") (w_db Demo.rng w) = None
  /\ name_free (table_name "Smarch") (w_db Demo.rng w) (w_views Demo.rng w) = true
  /\ exists w',
       load_data_to_db Demo.rng Demo.sqlite_other Demo.sqlite_convert batch "Smarch" w
       = (Ok tt, w')
       /\ row_count (table_name "Smarch") (w_db Demo.rng w') = 1%nat
       /\ find_table (table_name "January") (w_db Demo.rng w')
          = Some (mktable declared_columns []).
Proof.
  intros paid batch w.
  split.
  { simpl. intros H. repeat (destruct H as [H | H]; [discriminate |]). exact H. }
  split; [reflexivity |]. split; [reflexivity |]. split; [reflexivity |].
  destruct (load_data_to_db_creates Demo.rng Demo.sqlite_other Demo.sqlite_convert
              batch "Smarch" w)
    as (w' & Hrun & _ & _ & Hcount & Hkeep & _).
  - reflexivity.
  - reflexivity.
  - reflexivity.
  - discriminate.
  - reflexivity.
  - exists w'. split; [exact Hrun |]. split; [exact Hcount |].
    apply Hkeep. reflexivity.
Defined.


Lemma query_data_can_drop_table_witness :
  let paid := [VText "2024-01-05"; VText "Food"; VText "Cash"; VText "Paid.";
               VReal 75; VReal 2; VText "January"] in
  let t := mktable declared_columns [paid] in
  let w := mkworld Demo.rng 0%nat [("expenses_January", t)] [] in
  forallb_string is_word_char "January" = true
  /\ find_table (table_name "January") (w_db Demo.rng w) = Some t
  /\ query_data Demo.rng Demo.sqlite_other "DROP TABLE expenses_January" w
     = (Raise (mkexn TypeError "'NoneType' object is not iterable"),
        mkworld Demo.rng 0%nat [] [])
  /\ w_db Demo.rng (snd (query_data Demo.rng Demo.sqlite_other
                           "DROP TABLE expenses_January" w))
     <> w_db Demo.rng w.
Proof.
  intros paid t w.
  split; [reflexivity |]. split; [reflexivity |].
  destruct (query_data_can_drop_table Demo.rng Demo.sqlite_other "January" w t
              eq_refl eq_refl) as (Hq & _ & Hne & _).
  split; [exact Hq | exact Hne].
Defined.


Example top5_page :
  let row := fun (a : Q) => [VText "2024-01-05"; VText "Food"; VText "Cash"; VText "Paid.";
                             VReal a; VReal 2; VText "January"] in
  let t := mktable declared_columns
             [row 75%Q; row 980%Q; row 51%Q; row 420%Q; row 75%Q; row 600%Q] in
  let i := mkinputs PredefinedSQLQueries "January" 200 true "" "Top 5 Highest Expenses" in
  let w := mkworld Demo.rng 0%nat [("expenses_January", t)] [] in
  predefined_branch Demo.rng Demo.sqlite_other Demo.chart_error i w
  = (Ok tt,
     show Demo.rng
       [Subheader "Predefined SQL Queries";
        DataframeView (mkframe (map fst declared_columns)
                         [row 980%Q; row 600%Q; row 420%Q; row 75%Q; row 75%Q])] w).
Proof. reflexivity. Qed.

Lemma generate_then_view_january_witness :
  (forall n g, (0 < n)%nat -> (fst (Demo.randbelow n g) < n)%nat)
  /\ exists w0 w1 w2 f,
       script Demo.rng Demo.random_random Demo.randbelow Demo.date_this_year Demo.fake_text
         Demo.sqlite_other Demo.sqlite_convert Demo.chart_error
         (mkinputs GenerateData "January" 200 false "" "Total Amount Spent per Category")
         (mkworld Demo.rng 0%nat [] []) = (Ok tt, w0)
       /\ script Demo.rng Demo.random_random Demo.randbelow Demo.date_this_year Demo.fake_text
            Demo.sqlite_other Demo.sqlite_convert Demo.chart_error
            (mkinputs GenerateData "January" 50 true "" "Total Amount Spent per Category")
            w0 = (Ok tt, w1)
       /\ script Demo.rng Demo.random_random Demo.randbelow Demo.date_this_year Demo.fake_text
            Demo.sqlite_other Demo.sqlite_convert Demo.chart_error
            (mkinputs ViewData "January" 200 true "" "Total Amount Spent per Category")
            w1 = (Ok tt, w2)
       /\ w_ui Demo.rng w2
          = w_ui Demo.rng w1 ++ [Title "Advanced Expense Tracker";
                                 Subheader "View Expense Data"; DataframeView f]
       /\ length (rows f) = 50%nat
       /\ Forall (fun row => cell (columns f) "Month" row = Some (VText "January")) (rows f).
Proof.
  split; [exact demo_randbelow_range |].
  exact (generate_then_view_january Demo.rng Demo.random_random Demo.randbelow
           Demo.date_this_year Demo.fake_text Demo.sqlite_other Demo.sqlite_convert
           Demo.chart_error demo_randbelow_range 0%nat).
Defined.

(** C2, as stated, fails at two inputs.  For the month "january" on
    the database [init_db] creates: pandas does not find
    [expenses_january], SQLite refuses to create it beside
    [expenses_January], [to_sql] raises, and the row count of the table
    the name resolves to stays 0 for a batch of one.  And for a month
    whose table lacks the columns of the batch (a table created through
    the custom-query box): the INSERT is refused and the count stays 0. *)
Lemma load_data_to_db_not_additive :
  let paid := [VDate (mkdate 2024 1 5); VText "Food"; VText "Cash"; VText "Paid.";
               VReal 75; VReal 2; VText "january"] in
  let batch := mkframe record_keys [paid] in
  let w := mkworld Demo.rng 0%nat (ensure_months months []) [] in
  let r := load_data_to_db Demo.rng Demo.sqlite_other Demo.sqlite_convert batch "january" w in
  let w2 := mkworld Demo.rng 0%nat [("expenses_Foo", mktable [("x", "TEXT")] [])] [] in
  let r2 := load_data_to_db Demo.rng Demo.sqlite_other Demo.sqlite_convert batch "Foo" w2 in
  (fst r = Raise (mkexn OperationalError
                    ("table " ++ dquote ++ "expenses_january" ++ dquote ++ " already exists"))
   /\ row_count (table_name "january") (w_db Demo.rng (snd r))
      <> (row_count (table_name "january") (w_db Demo.rng w) + length (rows batch))%nat)
  /\ (fst r2 = Raise (mkexn OperationalError "table expenses_Foo has no column named Date")
      /\ row_count (table_name "Foo") (w_db Demo.rng (snd r2))
         <> (row_count (table_name "Foo") (w_db Demo.rng w2) + length (rows batch))%nat).
Proof.
  intros paid batch w r w2 r2.
  split; (split; [reflexivity | vm_compute; discriminate]).
Qed.

(** C3, as stated, fails where an index bears the name of a month's
    table that does not exist: SQLite refuses [CREATE TABLE IF NOT
    EXISTS expenses_March] beside an index of that name, so [init_db]
    raises, having created the tables of January and February only;
    called again it raises again. *)
Lemma init_db_hindered_by_index :
  let t := mktable_with [("a", "TEXT")] [] [Index "expenses_March"] in
  let w := mkworld Demo.rng 0%nat [("t", t)] [] in
  let r := init_db Demo.rng Demo.sqlite_other w in
  wf_store (w_db Demo.rng w)
  /\ fst r = Raise (mkexn OperationalError "there is already an index named expenses_March")
  /\ w_db Demo.rng (snd r)
     = [("t", t); ("expenses_January", mktable declared_columns []);
        ("expenses_February", mktable declared_columns [])]
  /\ find_table (table_name "March") (w_db Demo.rng (snd r)) = None
  /\ fst (init_db Demo.rng Demo.sqlite_other (snd r)) = fst r.
Proof.
  intros t w r.
  split; [unfold wf_store; simpl; constructor; [intros [] | constructor] |].
  vm_compute. repeat split.
Qed.

(** C10, as stated, fails where the name of the missing table is taken.
    With an index called [expenses_Foo] (on another table) SQLite has no
    table of that name, and the CREATE TABLE of [to_sql] is refused:
    nothing is created and nothing appended. *)
Lemma load_data_to_db_blocked_by_index :
  let paid := [VDate (mkdate 2024 1 5); VText "Food"; VText "Cash"; VText "Paid.";
               VReal 75; VReal 2; VText "Foo"] in
  let batch := mkframe record_keys [paid] in
  let t := mktable_with [("a", "TEXT")] [] [Index "expenses_Foo"] in
  let w := mkworld Demo.rng 0%nat [("t", t)] [] in
  let r := load_data_to_db Demo.rng Demo.sqlite_other Demo.sqlite_convert batch "Foo" w in
  find_table (table_name "Foo") (w_db Demo.rng w) = None
  /\ fst r = Raise (mkexn OperationalError "there is already an index named expenses_Foo")
  /\ snd r = w
  /\ find_table (table_name "Foo") (w_db Demo.rng (snd r)) = None.
Proof. intros paid batch t w r. vm_compute. repeat split. Qed.

(** Two more: a view of that name, which pandas takes for the table and
    SQLite refuses to insert into; and a month string with a NUL
    character, which pandas refuses to quote. *)
Example load_data_to_db_blocked_by_view :
  let paid := [VDate (mkdate 2024 1 5); VText "Food"; VText "Cash"; VText "Paid.";
               VReal 75; VReal 2; VText "Foo"] in
  let batch := mkframe record_keys [paid] in
  let w := mkstate Demo.rng 0%nat [] [("expenses_Foo", false)] [] in
  let r := load_data_to_db Demo.rng Demo.sqlite_other Demo.sqlite_convert batch "Foo" w in
  find_table (table_name "Foo") (w_db Demo.rng w) = None
  /\ fst r = Raise (mkexn OperationalError
                      "cannot modify expenses_Foo because it is a view")
  /\ snd r = w.
Proof. intros paid batch w r. vm_compute. repeat split. Qed.

Example load_data_to_db_refuses_nul :
  let month := String "a" (String (ascii_of_nat 0) "b") in
  let paid := [VDate (mkdate 2024 1 5); VText "Food"; VText "Cash"; VText "Paid.";
               VReal 75; VReal 2; VText month] in
  let batch := mkframe record_keys [paid] in
  let w := mkworld Demo.rng 0%nat [] [] in
  let r := load_data_to_db Demo.rng Demo.sqlite_other Demo.sqlite_convert batch month w in
  fst r = Raise (mkexn ValueError "SQLite identifier cannot contain NULs")
  /\ snd r = w.
Proof. intros month paid batch w r. vm_compute. repeat split. Qed.

(** C7 at a failing input: on the database [init_db] creates, Generate
    with the month "january" raises out of the script; the page shows no
    error box and the run ends before [init_db]. *)
Theorem generate_january_escapes :
  let i := mkinputs GenerateData "january" 50 true "" "Total Amount Spent per Category" in
  let w := mkworld Demo.rng 0%nat (ensure_months months []) [] in
  let r := script Demo.rng Demo.random_random Demo.randbelow Demo.date_this_year
             Demo.fake_text Demo.sqlite_other Demo.sqlite_convert Demo.chart_error i w in
  fst r = Raise (mkexn OperationalError
                   ("table " ++ dquote ++ "expenses_january" ++ dquote ++ " already exists"))
  /\ w_ui Demo.rng (snd r)
     = [Title "Advanced Expense Tracker"; Subheader "Generate Expense Data"]
  /\ w_db Demo.rng (snd r) = w_db Demo.rng w.
Proof.
  intros i w r. vm_compute. repeat split.
Qed.

(** The same input in the View branch, which has a handler. *)
Example view_january_lowercase :
  let i := mkinputs ViewData "january" 200 true "" "Total Amount Spent per Category" in
  let w := mkworld Demo.rng 0%nat (ensure_months months []) [] in
  let r := script Demo.rng Demo.random_random Demo.randbelow Demo.date_this_year
             Demo.fake_text Demo.sqlite_other Demo.sqlite_convert Demo.chart_error i w in
  fst r = Ok tt
  /\ w_ui Demo.rng (snd r)
     = [Title "Advanced Expense Tracker"; Subheader "View Expense Data";
        DataframeView (mkframe (map fst declared_columns) [])].
Proof. intros i w r. vm_compute. split; reflexivity. Qed.

(** A second failing input of C7, reached through the page alone: a
    table created in the custom-query box lacks the generated columns,
    and Generate for that month raises out of the script. *)
Example custom_create_then_generate_escapes :
  let run := script Demo.rng Demo.random_random Demo.randbelow Demo.date_this_year
               Demo.fake_text Demo.sqlite_other Demo.sqlite_convert Demo.chart_error in
  let w := mkworld Demo.rng 0%nat (ensure_months months []) [] in
  let r1 := run (mkinputs RunSQLQuery "January" 200 true
                   "CREATE TABLE IF NOT EXISTS expenses_Foo (x TEXT)"
                   "Total Amount Spent per Category") w in
  let r2 := run (mkinputs GenerateData "Foo" 50 true "" "Total Amount Spent per Category")
                (snd r1) in
  fst r1 = Ok tt
  /\ find_table "expenses_Foo" (w_db Demo.rng (snd r1)) = Some (mktable [("x", "TEXT")] [])
  /\ fst r2 = Raise (mkexn OperationalError "table expenses_Foo has no column named Date").
Proof. intros run w r1 r2. vm_compute. repeat split. Qed.

(** ** The further properties at concrete inputs *)

Lemma demo_month_tables_declared : month_tables_declared (ensure_months months []).
Proof.
  intros m Hin. simpl in Hin.
  repeat (destruct Hin as [<- | Hin];
          [split; [vm_compute; reflexivity
                  | exists (mktable declared_columns []); split;
                    [vm_compute; reflexivity | reflexivity]] |]).
  contradiction.
Qed.

Lemma generate_data_shape_witness :
  (forall n g, (0 < n)%nat -> (fst (Demo.randbelow n g) < n)%nat)
  /\ exists f w',
       generate_data Demo.rng Demo.random_random Demo.randbelow Demo.date_this_year
         Demo.fake_text "March" 3 (mkworld Demo.rng 7%nat [] []) = (Ok f, w')
       /\ columns f = record_keys
       /\ Forall (fun row =>
                    exists d c p t a b,
                      row = [VDate d; VText c; VText p; VText t; VReal a; VReal b;
                             VText "March"])
                 (rows f).
Proof.
  split; [exact demo_randbelow_range |].
  destruct (generate_data_shape Demo.rng Demo.random_random Demo.randbelow
              Demo.date_this_year Demo.fake_text demo_randbelow_range
              "March" 3 (mkworld Demo.rng 7%nat [] []))
    as (f & w' & Hrun & Hcols & Hrows & _).
  exists f, w'. split; [exact Hrun |]. split; [exact Hcols | exact Hrows].
Defined.

Lemma load_data_to_db_touches_one_table_witness :
  let paid := [VDate (mkdate 2024 1 5); VText "Food"; VText "Cash"; VText "Paid.";
               VReal 75; VReal 2; VText "January"] in
  let batch := mkframe record_keys [paid; paid] in
  let w := mkworld Demo.rng 0%nat (ensure_months months []) [] in
  let w' := snd (load_data_to_db Demo.rng Demo.sqlite_other Demo.sqlite_convert
                   batch "January" w) in
  plainly_writable (table_name "January") (w_db Demo.rng w) (w_views Demo.rng w) = true
  /\ find_table (table_name "March") (w_db Demo.rng w')
     = find_table (table_name "March") (w_db Demo.rng w)
  /\ w_views Demo.rng w' = w_views Demo.rng w
  /\ w_rng Demo.rng w' = w_rng Demo.rng w
  /\ w_ui Demo.rng w' = w_ui Demo.rng w.
Proof.
  intros paid batch w w'.
  assert (Hw : plainly_writable (table_name "January") (w_db Demo.rng w) (w_views Demo.rng w)
               = true) by reflexivity.
  destruct (load_data_to_db_touches_one_table Demo.rng Demo.sqlite_other Demo.sqlite_convert
              batch "January" w Hw) as (Hothers & Hviews & Hrng & Hui & _).
  split; [exact Hw |].
  split; [apply Hothers; reflexivity |].
  split; [exact Hviews |]. split; [exact Hrng | exact Hui].
Defined.

Lemma script_leaves_month_tables_witness :
  let i := mkinputs ViewData "January" 200 false "" "Top 5 Highest Expenses" in
  let w := mkworld Demo.rng 0%nat [] [] in
  let w' := mkworld Demo.rng 0%nat (ensure_months months [])
              [Title "Advanced Expense Tracker"; Subheader "View Expense Data"] in
  script Demo.rng Demo.random_random Demo.randbelow Demo.date_this_year Demo.fake_text
         Demo.sqlite_other Demo.sqlite_convert Demo.chart_error i w = (Ok tt, w')
  /\ forall m, In m months ->
       (exists t, find_table (table_name m) (w_db Demo.rng w') = Some t)
       \/ (exists v, find_view (table_name m) (w_views Demo.rng w') = Some v).
Proof.
  intros i w w'.
  assert (Hrun : script Demo.rng Demo.random_random Demo.randbelow Demo.date_this_year Demo.fake_text
         Demo.sqlite_other Demo.sqlite_convert Demo.chart_error i w = (Ok tt, w')) by reflexivity.
  split; [exact Hrun |].
  exact (script_leaves_month_tables Demo.rng Demo.random_random Demo.randbelow
           Demo.date_this_year Demo.fake_text Demo.sqlite_other Demo.sqlite_convert
           Demo.chart_error i w w' Hrun).
Defined.

Lemma generate_keeps_month_tables_witness :
  let i := mkinputs GenerateData "March" 50 true "" "Top 5 Highest Expenses" in
  let w := mkworld Demo.rng 0%nat (ensure_months months []) [] in
  let t := mktable declared_columns [] in
  (forall n g, (0 < n)%nat -> (fst (Demo.randbelow n g) < n)%nat)
  /\ in_option i = GenerateData /\ in_button i = true /\ (0 < in_n i)%Z
  /\ In (in_month i) months
  /\ month_tables_declared (w_db Demo.rng w)
  /\ find_table (table_name (in_month i)) (w_db Demo.rng w) = Some t
  /\ plain t = true
  /\ exists w' preview,
       script Demo.rng Demo.random_random Demo.randbelow Demo.date_this_year Demo.fake_text
         Demo.sqlite_other Demo.sqlite_convert Demo.chart_error i w = (Ok tt, w')
       /\ month_tables_declared (w_db Demo.rng w')
       /\ row_count (table_name "March") (w_db Demo.rng w') = 50%nat
       /\ w_ui Demo.rng w'
          = [Title "Advanced Expense Tracker"; Subheader "Generate Expense Data";
             Success "Data for March generated and loaded into the database!";
             DataframeView preview]
       /\ length (rows preview) = 5%nat.
Proof.
  intros i w t.
  assert (Hin : In (in_month i) months) by (simpl; do 2 right; left; reflexivity).
  split; [exact demo_randbelow_range |].
  split; [reflexivity |]. split; [reflexivity |]. split; [reflexivity |].
  split; [exact Hin |]. split; [exact demo_month_tables_declared |].
  split; [reflexivity |]. split; [reflexivity |].
  destruct (generate_keeps_month_tables Demo.rng Demo.random_random Demo.randbelow
           Demo.date_this_year Demo.fake_text Demo.sqlite_other Demo.sqlite_convert
           Demo.chart_error demo_randbelow_range i w t
              eq_refl eq_refl eq_refl Hin demo_month_tables_declared eq_refl eq_refl)
    as (w' & preview & Hrun & Hdecl & Hcount & _ & _ & _ & Hui & Hlen).
  exists w', preview.
  split; [exact Hrun |]. split; [exact Hdecl |]. split; [exact Hcount |].
  split; [exact Hui | exact Hlen].
Defined.

Lemma generate_then_view_shows_batch_witness :
  let w := mkworld Demo.rng 0%nat (ensure_months months []) [] in
  let t := mktable declared_columns [] in
  (forall g, (0 <= fst (Demo.random_random g))%Q /\ (fst (Demo.random_random g) < 1)%Q)
  /\ (forall n g, (0 < n)%nat -> (fst (Demo.randbelow n g) < n)%nat)
  /\ In "March" months /\ (0 < 50)%Z
  /\ month_tables_declared (w_db Demo.rng w)
  /\ find_table (table_name "March") (w_db Demo.rng w) = Some t
  /\ plain t = true
  /\ exists w1 w2 new,
       script Demo.rng Demo.random_random Demo.randbelow Demo.date_this_year Demo.fake_text
         Demo.sqlite_other Demo.sqlite_convert Demo.chart_error
         (mkinputs GenerateData "March" 50 true "" "Top 5 Highest Expenses") w = (Ok tt, w1)
       /\ script Demo.rng Demo.random_random Demo.randbelow Demo.date_this_year Demo.fake_text
         Demo.sqlite_other Demo.sqlite_convert Demo.chart_error
            (mkinputs ViewData "March" 200 true "" "Top 5 Highest Expenses") w1 = (Ok tt, w2)
       /\ w_ui Demo.rng w2
          = w_ui Demo.rng w1
            ++ [Title "Advanced Expense Tracker"; Subheader "View Expense Data";
                DataframeView (mkframe (map fst declared_columns) (tbl_rows t ++ new))]
       /\ length new = Z.to_nat 50
       /\ Forall (fun row =>
                    exists d c p tx a b,
                      row = [VText (isoformat d); VText c; VText p; VText tx;
                             VReal a; VReal b; VText "March"]
                      /\ In c categories /\ In p payment_modes
                      /\ (50 <= a)%Q /\ (a <= 1000)%Q /\ (0 <= b)%Q /\ (b <= 50)%Q)
                 new
       /\ w_db Demo.rng w2 = w_db Demo.rng w1
       /\ w_views Demo.rng w2 = w_views Demo.rng w1.
Proof.
  intros w t.
  assert (Hin : In "March" months) by (simpl; do 2 right; left; reflexivity).
  split; [exact demo_random_random_range |].
  split; [exact demo_randbelow_range |].
  split; [exact Hin |]. split; [reflexivity |].
  split; [exact demo_month_tables_declared |]. split; [reflexivity |].
  split; [reflexivity |].
  exact (generate_then_view_shows_batch Demo.rng Demo.random_random Demo.randbelow
           Demo.date_this_year Demo.fake_text Demo.sqlite_other Demo.sqlite_convert
           Demo.chart_error demo_random_random_range
           demo_randbelow_range "March" 50 200 "" "Top 5 Highest Expenses" ""
           "Top 5 Highest Expenses" w t Hin eq_refl demo_month_tables_declared eq_refl
           eq_refl).
Defined.

Lemma view_changes_no_row_witness :
  let paid := [VText "2024-03-07"; VText "Food"; VText "Cash"; VText "Paid.";
               VReal 75; VReal 2; VText "March"] in
  let i := mkinputs ViewData "March" 200 true "" "Top 5 Highest Expenses" in
  let w := mkworld Demo.rng 0%nat [("expenses_March", mktable declared_columns [paid])] [] in
  in_option i = ViewData
  /\ forallb_string is_word_char (in_month i) = true
  /\ find_view (table_name (in_month i)) (w_views Demo.rng w) = None
  /\ month_names_clear (w_db Demo.rng w) (w_views Demo.rng w)
  /\ exists w' new,
       script Demo.rng Demo.random_random Demo.randbelow Demo.date_this_year Demo.fake_text
         Demo.sqlite_other Demo.sqlite_convert Demo.chart_error i w = (Ok tt, w')
       /\ w_db Demo.rng w' = w_db Demo.rng w ++ new
       /\ Forall (fun e => snd e = mktable declared_columns []) new
       /\ (forall name t, find_table name (w_db Demo.rng w) = Some t ->
             find_table name (w_db Demo.rng w') = Some t)
       /\ w_views Demo.rng w' = w_views Demo.rng w
       /\ w_rng Demo.rng w' = w_rng Demo.rng w.
Proof.
  intros paid i w.
  assert (Hclear : month_names_clear (w_db Demo.rng w) (w_views Demo.rng w)).
  { apply plain_store_clear. reflexivity. }
  split; [reflexivity |]. split; [reflexivity |]. split; [reflexivity |].
  split; [exact Hclear |].
  exact (view_changes_no_row Demo.rng Demo.random_random Demo.randbelow
           Demo.date_this_year Demo.fake_text Demo.sqlite_other Demo.sqlite_convert
           Demo.chart_error i w eq_refl eq_refl eq_refl Hclear).
Defined.


Lemma dropped_month_table_comes_back_empty_witness :
  let paid := [VText "2024-03-07"; VText "Food"; VText "Cash"; VText "Paid.";
               VReal 75; VReal 2; VText "March"] in
  let t := mktable declared_columns [paid] in
  let i := mkinputs RunSQLQuery "January" 200 true "DROP TABLE expenses_March"
             "Top 5 Highest Expenses" in
  let w := mkworld Demo.rng 0%nat [("expenses_March", t)] [] in
  In "March" months
  /\ in_option i = RunSQLQuery /\ in_button i = true
  /\ in_query i = ("DROP TABLE expenses_" ++ "March")%string
  /\ find_table (table_name "March") (w_db Demo.rng w) = Some t
  /\ (forall m', In m' months ->
        name_free (table_name m') (w_db Demo.rng w) (w_views Demo.rng w) = true)
  /\ exists w',
       script Demo.rng Demo.random_random Demo.randbelow Demo.date_this_year Demo.fake_text
         Demo.sqlite_other Demo.sqlite_convert Demo.chart_error i w = (Ok tt, w')
       /\ find_table (table_name "March") (w_db Demo.rng w')
          = Some (mktable declared_columns [])
       /\ w_ui Demo.rng w'
          = [Title "Advanced Expense Tracker"; Subheader "Run Custom SQL Query";
             ErrorBox "An error occurred: 'NoneType' object is not iterable"].
Proof.
  intros paid t i w.
  assert (Hin : In "March" months) by (simpl; do 2 right; left; reflexivity).
  assert (Hfree : forall m', In m' months ->
            name_free (table_name m') (w_db Demo.rng w) (w_views Demo.rng w) = true).
  { intros m' _. apply plain_store_names_free. reflexivity. }
  split; [exact Hin |]. split; [reflexivity |]. split; [reflexivity |].
  split; [reflexivity |]. split; [reflexivity |]. split; [exact Hfree |].
  exact (dropped_month_table_comes_back_empty Demo.rng Demo.random_random Demo.randbelow
           Demo.date_this_year Demo.fake_text Demo.sqlite_other Demo.sqlite_convert
           Demo.chart_error i w "March" t
           Hin eq_refl eq_refl eq_refl eq_refl Hfree).
Defined.


Lemma visualize_shows_charts_witness :
  let f := mkframe ["Category"; "Total_Spent"]
             [[VText "Food"; VReal 75]; [VText "Travel"; VReal 310]] in
  let i := mkinputs VisualizeInsights "March" 200 false "" "Top 5 Highest Expenses" in
  let w := mkworld Demo.rng 0%nat (ensure_months months []) [] in
  let q := "SELECT Category, SUM(Amount_Paid) AS Total_Spent FROM expenses_March GROUP BY Category" in
  answering_engine f (Statement q) (w_db Demo.rng w) (w_views Demo.rng w)
  = (Ok (Some f), (w_db Demo.rng w, w_views Demo.rng w))
  /\ Demo.sqlite_other (Statement q) (w_db Demo.rng w) (w_views Demo.rng w)
     = (Raise (mkexn OperationalError "statement outside the model"),
        (w_db Demo.rng w, w_views Demo.rng w))
  /\ index_of (String.eqb "Total_Spent") (columns f) = Some 1%nat
  /\ index_of (String.eqb "Category") (columns f) = Some 0%nat
  /\ visualize_branch Demo.rng (answering_engine f) Demo.chart_error i w
     = (Ok tt,
        mkworld Demo.rng 0%nat (ensure_months months [])
          [Subheader "Spending Insights"; BarChart "Category" f;
           PieChart [VReal 75; VReal 310] [VText "Food"; VText "Travel"]])
  /\ visualize_branch Demo.rng Demo.sqlite_other Demo.chart_error i w
     = (Ok tt,
        mkworld Demo.rng 0%nat (ensure_months months [])
          [Subheader "Spending Insights";
           ErrorBox "Error: Execution failed on sql 'SELECT Category, SUM(Amount_Paid) AS Total_Spent FROM expenses_March GROUP BY Category': statement outside the model. Ensure data exists for March."]).
Proof.
  intros f i w q.
  split; [reflexivity |]. split; [reflexivity |].
  split; [reflexivity |]. split; [reflexivity |].
  split.
  - exact (proj1 (visualize_shows_charts Demo.rng (answering_engine f) Demo.chart_error i w)
             f (w_db Demo.rng w, w_views Demo.rng w) 1%nat 0%nat
             eq_refl eq_refl eq_refl eq_refl eq_refl).
  - exact (proj2 (visualize_shows_charts Demo.rng Demo.sqlite_other Demo.chart_error i w)
             (mkexn OperationalError "statement outside the model")
             (w_db Demo.rng w, w_views Demo.rng w) eq_refl).
Defined.

Lemma init_db_declares_month_tables_witness :
  let paid := [VText "2024-03-07"; VText "Food"; VText "Cash"; VText "Paid.";
               VReal 75; VReal 2; VText "March"] in
  let w := mkworld Demo.rng 0%nat [("expenses_March", mktable declared_columns [paid])] [] in
  (forall m, In m months ->
     match find_table (table_name m) (w_db Demo.rng w) with
     | None => name_free (table_name m) (w_db Demo.rng w) (w_views Demo.rng w) = true
     | Some t => table_stored (table_name m) (w_db Demo.rng w) = true
                 /\ tbl_cols t = declared_columns
     end)
  /\ fst (init_db Demo.rng Demo.sqlite_other w) = Ok tt
  /\ month_tables_declared (w_db Demo.rng (snd (init_db Demo.rng Demo.sqlite_other w))).
Proof.
  intros paid w.
  assert (H : forall m, In m months ->
                match find_table (table_name m) (w_db Demo.rng w) with
                | None => name_free (table_name m) (w_db Demo.rng w) (w_views Demo.rng w)
                          = true
                | Some t => table_stored (table_name m) (w_db Demo.rng w) = true
                            /\ tbl_cols t = declared_columns
                end).
  { intros m Hin. simpl in Hin.
    repeat (destruct Hin as [<- | Hin]; [simpl; auto |]).
    contradiction. }
  split; [exact H |].
  exact (init_db_declares_month_tables Demo.rng Demo.sqlite_other w H).
Defined.

Lemma generate_then_view_new_label_witness :
  let w := mkworld Demo.rng 0%nat (ensure_months months []) [] in
  (forall n g, (0 < n)%nat -> (fst (Demo.randbelow n g) < n)%nat)
  /\ forallb_string is_word_char "Smarch" = true /\ (0 < 50)%Z
  /\ find_table (table_name "Smarch") (w_db Demo.rng w) = None
  /\ name_free (table_name "Smarch") (w_db Demo.rng w) (w_views Demo.rng w) = true
  /\ month_names_clear (w_db Demo.rng w) (w_views Demo.rng w)
  /\ exists w1 w2 f,
       script Demo.rng Demo.random_random Demo.randbelow Demo.date_this_year Demo.fake_text
         Demo.sqlite_other Demo.sqlite_convert Demo.chart_error
         (mkinputs GenerateData "Smarch" 50 true "" "Top 5 Highest Expenses") w = (Ok tt, w1)
       /\ script Demo.rng Demo.random_random Demo.randbelow Demo.date_this_year Demo.fake_text
         Demo.sqlite_other Demo.sqlite_convert Demo.chart_error
            (mkinputs ViewData "Smarch" 200 true "" "Top 5 Highest Expenses") w1 = (Ok tt, w2)
       /\ w_ui Demo.rng w2
          = w_ui Demo.rng w1
            ++ [Title "Advanced Expense Tracker"; Subheader "View Expense Data";
                DataframeView f]
       /\ columns f = record_keys
       /\ length (rows f) = Z.to_nat 50
       /\ Forall (fun row => cell (columns f) "Month" row = Some (VText "Smarch")) (rows f)
       /\ (forall name t, find_table name (w_db Demo.rng w) = Some t ->
             find_table name (w_db Demo.rng w2) = Some t).
Proof.
  intros w.
  assert (Hclear : month_names_clear (w_db Demo.rng w) (w_views Demo.rng w)).
  { apply plain_store_clear. reflexivity. }
  split; [exact demo_randbelow_range |].
  split; [reflexivity |]. split; [reflexivity |]. split; [reflexivity |].
  split; [reflexivity |]. split; [exact Hclear |].
  exact (generate_then_view_new_label Demo.rng Demo.random_random Demo.randbelow
           Demo.date_this_year Demo.fake_text Demo.sqlite_other Demo.sqlite_convert
           Demo.chart_error demo_randbelow_range
           "Smarch" 50 200 "" "Top 5 Highest Expenses" "" "Top 5 Highest Expenses" w
           eq_refl eq_refl eq_refl eq_refl Hclear).
Defined.

Lemma query_modes_never_raise_witness :
  let i := mkinputs RunSQLQuery "March" 200 true "SELEC * FROM expenses_March"
             "Cashback Summary" in
  let w := mkworld Demo.rng 0%nat (ensure_months months []) [] in
  let w1 := mkworld Demo.rng 0%nat (ensure_months months [])
              [Title "Advanced Expense Tracker"; Subheader "Run Custom SQL Query";
               ErrorBox ("An error occurred: Execution failed on sql 'SELEC * FROM expenses_March': near "
                         ++ dquote ++ "SELEC" ++ dquote ++ ": syntax error")] in
  in_option i <> GenerateData
  /\ In (in_query_name i) (map fst SQL_QUERIES)
  /\ dispatch Demo.rng Demo.random_random Demo.randbelow Demo.date_this_year Demo.fake_text
       Demo.sqlite_other Demo.sqlite_convert Demo.chart_error i
       (show Demo.rng [Title "Advanced Expense Tracker"] w) = (Ok tt, w1)
  /\ month_names_clear (w_db Demo.rng w1) (w_views Demo.rng w1)
  /\ script Demo.rng Demo.random_random Demo.randbelow Demo.date_this_year Demo.fake_text
         Demo.sqlite_other Demo.sqlite_convert Demo.chart_error i w = (Ok tt, w1).
Proof.
  intros i w w1.
  assert (Hopt : in_option i <> GenerateData) by discriminate.
  assert (Hin : In (in_query_name i) (map fst SQL_QUERIES))
    by (simpl; do 3 right; left; reflexivity).
  assert (Hclear : month_names_clear (w_db Demo.rng w1) (w_views Demo.rng w1)).
  { apply plain_store_clear. reflexivity. }
  assert (Hd : dispatch Demo.rng Demo.random_random Demo.randbelow Demo.date_this_year
                 Demo.fake_text Demo.sqlite_other Demo.sqlite_convert Demo.chart_error i
                 (show Demo.rng [Title "Advanced Expense Tracker"] w) = (Ok tt, w1))
    by reflexivity.
  split; [exact Hopt |]. split; [exact Hin |]. split; [exact Hd |].
  split; [exact Hclear |].
  destruct (query_modes_never_raise Demo.rng Demo.random_random Demo.randbelow
           Demo.date_this_year Demo.fake_text Demo.sqlite_other Demo.sqlite_convert
           Demo.chart_error i w Hopt Hin) as (w2 & Hd2 & Hrun).
  assert (Hw : w2 = w1) by congruence.
  rewrite Hw in Hrun. rewrite (Hrun Hclear). reflexivity.
Defined.

(** Without the condition on the names the run does not end normally:
    in View mode, with nothing wrong in the branch, [init_db] raises on
    the last line where an index has the name of a month's table. *)
Example view_run_hindered_by_index :
  let t := mktable_with [("a", "TEXT")] [] [Index "expenses_March"] in
  let i := mkinputs ViewData "January" 200 false "" "Top 5 Highest Expenses" in
  let w := mkworld Demo.rng 0%nat [("t", t)] [] in
  fst (script Demo.rng Demo.random_random Demo.randbelow Demo.date_this_year Demo.fake_text
         Demo.sqlite_other Demo.sqlite_convert Demo.chart_error i w)
  = Raise (mkexn OperationalError "there is already an index named expenses_March").
Proof. intros t i w. vm_compute. reflexivity. Qed.

(** A view that has taken the name of a month's table keeps it: the run
    ends normally and the month has no table. *)
Example month_name_taken_by_view :
  let i := mkinputs ViewData "January" 200 false "" "Top 5 Highest Expenses" in
  let w := mkstate Demo.rng 0%nat [] [("expenses_March", false)] [] in
  let r := script Demo.rng Demo.random_random Demo.randbelow Demo.date_this_year Demo.fake_text
             Demo.sqlite_other Demo.sqlite_convert Demo.chart_error i w in
  fst r = Ok tt
  /\ find_table (table_name "March") (w_db Demo.rng (snd r)) = None
  /\ find_table (table_name "April") (w_db Demo.rng (snd r))
     = Some (mktable declared_columns []).
Proof. intros i w r. vm_compute. repeat split. Qed.
